(** * The payment-stage lifecycle of [server/routes.ts]

    A shallow embedding of the route handlers that create payment stages,
    take a proof of payment, approve or reject it, answer a budget
    negotiation and produce the settlement document of a paid stage,
    followed by the properties of these handlers.

    Handlers are written in a small monad that threads the database and
    the mail outbox, and whose results distinguish a value, an early
    [return res.status(..).json(..)] and a thrown exception. *)

From Stdlib Require Import ZArith String Ascii List Lia Bool.
From Stdlib Require Import Sorting.Sorted Sorting.Permutation.
From Stdlib Require Import DecimalString.
From Stdlib Require Import PrimFloat Uint63 SpecFloat FloatOps.
From stdpp Require Import gmap strings.
Import ListNotations.

Local Open Scope string_scope.
Local Open Scope Z_scope.
Local Open Scope list_scope.

(** ** JavaScript built-ins the handlers rely on *)

Module Js.

(** The double-quote character, for the template strings that quote a name. *)
Definition dquote : string := String (ascii_of_nat 34) EmptyString.

(** [String(n)] and [`${n}`] for an integer [n]. *)
Definition string_of_Z (n : Z) : string :=
  NilZero.string_of_int (Z.to_int n).

(** Truthiness of a string: every string but the empty one. *)
Definition truthy_string (s : string) : bool :=
  match s with EmptyString => false | String _ _ => true end.

(** [s.split(sep)] for a one-character separator. *)
Fixpoint split_on (sep : ascii) (s : string) : list string :=
  match s with
  | EmptyString => [EmptyString]
  | String c rest =>
      if Ascii.eqb c sep then EmptyString :: split_on sep rest
      else match split_on sep rest with
           | piece :: pieces => String c piece :: pieces
           | [] => [String c EmptyString]
           end
  end.

(** *** [parseFloat]

    The longest prefix of the argument that is a decimal literal, after
    leading blanks (the ASCII ones), rounded to the nearest binary64 number
    (ties to even; below the normal range the scaling rounds once more);
    [NaN] when there is no such prefix. *)

Definition is_blank (c : ascii) : bool :=
  let n := nat_of_ascii c in
  (Nat.eqb n 32 || (Nat.leb 9 n && Nat.leb n 13))%bool.

Fixpoint skip_blanks (s : string) : string :=
  match s with
  | String c rest => if is_blank c then skip_blanks rest else s
  | EmptyString => s
  end.

Definition digit_of (c : ascii) : option Z :=
  let n := nat_of_ascii c in
  if (Nat.leb 48 n && Nat.leb n 57)%bool then Some (Z.of_nat n - 48) else None.

(** Reads a run of digits: its value on top of [acc], how many there were,
    and what follows. *)
Fixpoint read_digits (s : string) (acc : Z) (count : Z) : Z * Z * string :=
  match s with
  | String c rest =>
      match digit_of c with
      | Some d => read_digits rest (10 * acc + d) (count + 1)
      | None => (acc, count, s)
      end
  | EmptyString => (acc, count, s)
  end.

(** The exponent part [e][+-]digits, or 0 when what follows is not one. *)
Definition read_exponent (s : string) : Z :=
  match s with
  | String c rest =>
      if (Ascii.eqb c "e" || Ascii.eqb c "E")%bool then
        let '(negative, rest') :=
          match rest with
          | String "-" r => (true, r)
          | String "+" r => (false, r)
          | _ => (false, rest)
          end in
        let '(e, count, _) := read_digits rest' 0 0 in
        if count =? 0 then 0 else if negative then - e else e
      else 0
  | EmptyString => 0
  end.

(** [num / den] for positive integers, rounded once to binary64: the
    quotient is taken with about sixty significant bits, the lowest one
    recording whether anything was left over, so that the conversion to a
    float performs the only rounding. *)
Definition round_ratio (num den : Z) : float :=
  if num <=? 0 then PrimFloat.zero
  else
    let shift := 60 - (Z.log2 num - Z.log2 den) in
    let n := if 0 <=? shift then num * 2 ^ shift else num in
    let d := if 0 <=? shift then den else den * 2 ^ (- shift) in
    let q := n / d in
    let q' := if n mod d =? 0 then q else Z.lor q 1 in
    FloatOps.Z.ldexp (PrimFloat.of_uint63 (Uint63.of_Z q')) (- shift).

Definition decimal_value (mantissa exponent : Z) : float :=
  if 0 <=? exponent then round_ratio (mantissa * 10 ^ exponent) 1
  else round_ratio mantissa (10 ^ (- exponent)).

Definition parseFloat (s : string) : float :=
  let s := skip_blanks s in
  let '(negative, s) :=
    match s with
    | String "-" r => (true, r)
    | String "+" r => (false, r)
    | _ => (false, s)
    end in
  let magnitude :=
    if String.prefix "Infinity" s then PrimFloat.infinity
    else
      let '(int_part, int_count, after_int) := read_digits s 0 0 in
      let '(mantissa, frac_count, after_frac) :=
        match after_int with
        | String "." r => read_digits r int_part 0
        | _ => (int_part, 0, after_int)
        end in
      if int_count + frac_count =? 0 then PrimFloat.nan
      else decimal_value mantissa (read_exponent after_frac - frac_count) in
  if negative then PrimFloat.opp magnitude else magnitude.

End Js.

(** ** Data model: the rows of the tables the handlers touch *)

Module User.
Record t := mk
  { id : Z; fullName : string; email : string; role : string }.
End User.

Module Project.
Record t := mk
  { id : Z; name : string; clientId : Z;
    price : string;  (* a decimal column, read back as text *)
    status : string; progress : Z }.
End Project.

(** What the client says about the proof file when it sends no file. *)
Module FileInfo.
Record t := mk
  { fileName : option string; fileSize : option Z; fileType : option string }.
End FileInfo.

(** The file the upload middleware hands over as [req.file]. *)
Module UploadedFile.
Record t := mk { originalname : string; size : Z; mimetype : string }.
End UploadedFile.

(** The values stored under the keys of a stage's [paymentData] object. *)
Inductive JsonValue :=
| JNull
| JNumber (n : Z)
| JString (s : string)
| JDate (ms : Z)
| JFileInfo (info : FileInfo.t).

Module PaymentStage.
Record t := mk
  { id : Z; projectId : Z; stageName : string;
    stagePercentage : float; amount : float; requiredProgress : Z;
    status : string;
    paymentMethod : option string;
    proofFileUrl : option string;
    paymentData : option (gmap string JsonValue);
    paidAt : option Z; approvedBy : option Z; approvedAt : option Z }.
End PaymentStage.

Module BudgetNegotiation.
Record t := mk
  { id : Z; projectId : Z; proposedBy : Z;
    originalPrice : string; proposedPrice : string;
    message : option string; status : string }.
End BudgetNegotiation.

Module Notification.
Record t := mk
  { id : Z; userId : Z; title : string; message : string;
    type : string; isRead : bool }.
End Notification.

Module ProjectTimeline.
Record t := mk
  { id : Z; projectId : Z; title : string; description : string;
    status : string; estimatedDate : option Z }.
End ProjectTimeline.

(** ** Outgoing mail and the console *)

(** The bodies come from the template functions of the mail module; they are
    kept as the call that produces them. *)
Inductive Html :=
| generatePaymentStageAvailableEmailHTML
    (clientName projectName stageName : string) (amount : float) (percentage : float)
| generateBudgetAcceptanceEmailHTML
    (projectName clientName clientEmail originalPrice proposedPrice message : string).

(** The line about the proof file that the mail to the administrator carries. *)
Inductive Attachment :=
| AttachedFile (file : UploadedFile.t)
| IndicatedFile (info : FileInfo.t).

Inductive Mail :=
| Email (to subject : string) (html : Html)
| PaymentProofNotificationToAdmin
    (clientName projectName stageName : string) (amount : float)
    (paymentMethod : string) (fileAttachmentInfo : option Attachment)
| PaymentProofConfirmationToClient
    (to clientName projectName stageName : string) (amount : float)
    (paymentMethod : string).

Inductive LogLine :=
| console_log (text : string)
| console_error (text : string).

(** ** Responses *)

(** What the settlement document shows about the stage's place in its project. *)
Record SettlementDocument := mkDocument
  { doc_fileName : string;
    doc_stage : PaymentStage.t;
    doc_stageNumber : Z;
    doc_totalStages : Z;
    doc_stageLines : list string  (* the lines that place the stage in its project *) }.

Inductive Body :=
| json_message (message : string)
| json_error (message : string) (error : option string)
| json_stage (updated : option PaymentStage.t) (message : string)
| json_stages (created : list PaymentStage.t)
| json_negotiation (updated : option BudgetNegotiation.t)
| pdf (document : SettlementDocument).

Record Response := mkResponse { code : Z; body : Body }.

(** ** The world a handler runs in *)

Record Db := mkDb
  { users : list User.t;
    projects : list Project.t;
    paymentStages : list PaymentStage.t;
    budgetNegotiations : list BudgetNegotiation.t;
    notifications : list Notification.t;
    projectTimeline : list ProjectTimeline.t }.

Record World := mkWorld
  { db : Db;
    outbox : list Mail;
    console : list LogLine;
    clock_reads : nat;          (* how often the clock was read *)
    notification_writes : nat;  (* how often a notification row was written *)
    mail_calls : nat            (* how often the mailer was called *) }.

(** What a run cannot decide by itself: the clock, which calls to the
    notification table and to the mailer fail, and the process environment. *)
Record Oracle := mkOracle
  { clock : nat -> Z;
    createNotification_fails : nat -> bool;
    sendEmail_fails : nat -> bool;
    NODE_ENV : string;
    GMAIL_USER : option string;
    getFullYear : Z -> Z  (* the calendar year of an instant, in the server's zone *) }.

Definition set_db (d : Db) (w : World) : World :=
  {| db := d; outbox := outbox w; console := console w;
     clock_reads := clock_reads w;
     notification_writes := notification_writes w;
     mail_calls := mail_calls w |}.

(** ** The handler monad *)

Inductive Result (A : Type) :=
| Value (a : A)                (* the statement ran to its end *)
| Returned (r : Response)      (* [return res.status(..).json(..)] *)
| Thrown (error : string).     (* an exception on its way to a [catch] *)
Arguments Value {A} a.
Arguments Returned {A} r.
Arguments Thrown {A} error.

Definition Handler (A : Type) : Type := Oracle -> World -> Result A * World.

#[export] Instance Handler_ret : MRet Handler :=
  fun A (a : A) _ w => (Value a, w).

#[export] Instance Handler_bind : MBind Handler :=
  fun A B (k : A -> Handler B) (m : Handler A) o w =>
    match m o w with
    | (Value a, w') => k a o w'
    | (Returned r, w') => (Returned r, w')
    | (Thrown e, w') => (Thrown e, w')
    end.

(** [return res.status(code).json(body)] *)
Definition respond {A} (code : Z) (body : Body) : Handler A :=
  fun _ w => (Returned (mkResponse code body), w).

Definition throw {A} (error : string) : Handler A :=
  fun _ w => (Thrown error, w).

(** [try { body } catch (e) { handler(e) }] *)
Definition try_catch (body : Handler unit) (handler : string -> Handler unit)
  : Handler unit :=
  fun o w =>
    match body o w with
    | (Thrown e, w') => handler e o w'
    | other => other
    end.

(** [for (const x of xs) { f(x) }] *)
Fixpoint for_each {A} (xs : list A) (f : A -> Handler unit) : Handler unit :=
  match xs with
  | [] => mret tt
  | x :: rest => f x ;; for_each rest f
  end.

Definition when (b : bool) (m : Handler unit) : Handler unit :=
  if b then m else mret tt.

(** A route: the handler's body inside its outermost [try], whose [catch]
    logs the error and builds the reply. *)
Definition route (body : Handler Response) (on_error : string -> Handler Response)
  : Oracle -> World -> Response * World :=
  fun o w =>
    match body o w with
    | (Value r, w') => (r, w')
    | (Returned r, w') => (r, w')
    | (Thrown e, w') =>
        match on_error e o w' with
        | (Value r, w'') => (r, w'')
        | (Returned r, w'') => (r, w'')
        | (Thrown _, w'') => (mkResponse 500 (json_message "Internal Server Error"), w'')
        end
    end.

(** *** Primitive effects *)

Definition gets {A} (f : Db -> A) : Handler A :=
  fun _ w => (Value (f (db w)), w).

Definition modify (f : Db -> Db) : Handler unit :=
  fun _ w => (Value tt, set_db (f (db w)) w).

Definition env {A} (f : Oracle -> A) : Handler A :=
  fun o w => (Value (f o), w).

(** [new Date()] and [Date.now()]: the next reading of the clock. *)
Definition now : Handler Z :=
  fun o w =>
    (Value (clock o (clock_reads w)),
     {| db := db w; outbox := outbox w; console := console w;
        clock_reads := S (clock_reads w);
        notification_writes := notification_writes w;
        mail_calls := mail_calls w |}).

Definition write_console (line : LogLine) : Handler unit :=
  fun _ w =>
    (Value tt,
     {| db := db w; outbox := outbox w; console := console w ++ [line];
        clock_reads := clock_reads w;
        notification_writes := notification_writes w;
        mail_calls := mail_calls w |}).

(** Handing a message to the mailer; the call may throw. *)
Definition send (m : Mail) : Handler unit :=
  fun o w =>
    let w' := {| db := db w;
                 outbox := if sendEmail_fails o (mail_calls w) then outbox w
                           else outbox w ++ [m];
                 console := console w;
                 clock_reads := clock_reads w;
                 notification_writes := notification_writes w;
                 mail_calls := S (mail_calls w) |} in
    if sendEmail_fails o (mail_calls w) then (Thrown "sendEmail failed", w')
    else (Value tt, w').

(** ** Tables *)

Section Table.
Context {A : Type} (key : A -> Z).

Definition find_by_id (i : Z) (rows : list A) : option A :=
  List.find (fun r => key r =? i) rows.

Definition update_by_id (i : Z) (f : A -> A) (rows : list A) : list A :=
  List.map (fun r => if key r =? i then f r else r) rows.

(** The value a serial column gives the next row. *)
Definition next_id (rows : list A) : Z :=
  1 + List.fold_right (fun r m => Z.max (key r) m) 0 rows.
End Table.

(** ** The persistence layer

    [server/storage.ts] and [server/auth.ts] are not part of the sources at
    hand; the functions the handlers call are taken from what the
    specification says of the persistence API (create, read and update by id
    and by foreign key) and of the access layer. *)

Module InsertPaymentStage.
Record t := mk
  { projectId : Z; stageName : string; stagePercentage : float;
    amount : float; requiredProgress : Z; status : string }.
End InsertPaymentStage.

(** The object given to [updatePaymentStage]: [None] for a key that is absent. *)
Module PaymentStageUpdate.
Record t := mk
  { status : option string;
    paymentMethod : option (option string);
    proofFileUrl : option (option string);
    paymentData : option (gmap string JsonValue);
    paidAt : option Z; approvedBy : option Z; approvedAt : option Z }.

(** Modelled from the spec: the effect of the update statement inside
    [storage.updatePaymentStage] of server/storage.ts on one row; a key that
    is present replaces the column, the other columns stay. *)
Definition apply (u : t) (s : PaymentStage.t) : PaymentStage.t :=
  {| PaymentStage.id := PaymentStage.id s;
     PaymentStage.projectId := PaymentStage.projectId s;
     PaymentStage.stageName := PaymentStage.stageName s;
     PaymentStage.stagePercentage := PaymentStage.stagePercentage s;
     PaymentStage.amount := PaymentStage.amount s;
     PaymentStage.requiredProgress := PaymentStage.requiredProgress s;
     PaymentStage.status := default (PaymentStage.status s) (status u);
     PaymentStage.paymentMethod :=
       default (PaymentStage.paymentMethod s) (paymentMethod u);
     PaymentStage.proofFileUrl :=
       default (PaymentStage.proofFileUrl s) (proofFileUrl u);
     PaymentStage.paymentData :=
       match paymentData u with
       | Some d => Some d
       | None => PaymentStage.paymentData s
       end;
     PaymentStage.paidAt :=
       match paidAt u with Some t => Some t | None => PaymentStage.paidAt s end;
     PaymentStage.approvedBy :=
       match approvedBy u with Some a => Some a | None => PaymentStage.approvedBy s end;
     PaymentStage.approvedAt :=
       match approvedAt u with Some t => Some t | None => PaymentStage.approvedAt s end |}.
End PaymentStageUpdate.

Module InsertNotification.
Record t := mk { userId : Z; title : string; message : string; type : string }.
End InsertNotification.

Module InsertBudgetNegotiation.
Record t := mk
  { projectId : Z; proposedBy : Z; originalPrice : string;
    proposedPrice : string; message : option string; status : string }.
End InsertBudgetNegotiation.

(** Modelled from the spec: the effect of [storage.updateBudgetNegotiation]
    of server/storage.ts on one row when only the status is given. *)
Definition negotiation_with_status (status : string) (n : BudgetNegotiation.t)
  : BudgetNegotiation.t :=
  {| BudgetNegotiation.id := BudgetNegotiation.id n;
     BudgetNegotiation.projectId := BudgetNegotiation.projectId n;
     BudgetNegotiation.proposedBy := BudgetNegotiation.proposedBy n;
     BudgetNegotiation.originalPrice := BudgetNegotiation.originalPrice n;
     BudgetNegotiation.proposedPrice := BudgetNegotiation.proposedPrice n;
     BudgetNegotiation.message := BudgetNegotiation.message n;
     BudgetNegotiation.status := status |}.

(** Modelled from the spec: the effect of [storage.updateProject] of
    server/storage.ts on one row when the price and the status are given. *)
Definition project_with_price_and_status (price status : string) (p : Project.t)
  : Project.t :=
  {| Project.id := Project.id p;
     Project.name := Project.name p;
     Project.clientId := Project.clientId p;
     Project.price := price;
     Project.status := status;
     Project.progress := Project.progress p |}.

Module storage.

(** Modelled from the spec: [storage.getProject] of server/storage.ts,
    the read of a project by its id. *)
Definition getProject (projectId : Z) : Handler (option Project.t) :=
  gets (fun d => find_by_id Project.id projectId (projects d)).

(** Modelled from the spec: [storage.getUserById] of server/storage.ts,
    the read of a user by its id. *)
Definition getUserById (userId : Z) : Handler (option User.t) :=
  gets (fun d => find_by_id User.id userId (users d)).

(** Modelled from the spec: [storage.getUsersByRole] of server/storage.ts,
    every user with the given role. *)
Definition getUsersByRole (role : string) : Handler (list User.t) :=
  gets (fun d => List.filter (fun u => String.eqb (User.role u) role) (users d)).

(** Modelled from the spec: [storage.getPaymentStages] of server/storage.ts,
    the read of a project's stages by foreign key. *)
Definition getPaymentStages (projectId : Z) : Handler (list PaymentStage.t) :=
  gets (fun d =>
          List.filter (fun s => PaymentStage.projectId s =? projectId)
                      (paymentStages d)).

(** Modelled from the spec: [storage.createPaymentStage] of
    server/storage.ts; the new row takes the given columns and no payment
    information. *)
Definition createPaymentStage (data : InsertPaymentStage.t)
  : Handler PaymentStage.t :=
  rows ← gets paymentStages;
  let created :=
    {| PaymentStage.id := next_id PaymentStage.id rows;
       PaymentStage.projectId := InsertPaymentStage.projectId data;
       PaymentStage.stageName := InsertPaymentStage.stageName data;
       PaymentStage.stagePercentage := InsertPaymentStage.stagePercentage data;
       PaymentStage.amount := InsertPaymentStage.amount data;
       PaymentStage.requiredProgress := InsertPaymentStage.requiredProgress data;
       PaymentStage.status := InsertPaymentStage.status data;
       PaymentStage.paymentMethod := None;
       PaymentStage.proofFileUrl := None;
       PaymentStage.paymentData := None;
       PaymentStage.paidAt := None;
       PaymentStage.approvedBy := None;
       PaymentStage.approvedAt := None |} in
  modify (fun d =>
    {| users := users d; projects := projects d;
       paymentStages := paymentStages d ++ [created];
       budgetNegotiations := budgetNegotiations d;
       notifications := notifications d;
       projectTimeline := projectTimeline d |});;
  mret created.

(** Modelled from the spec: [storage.updatePaymentStage] of
    server/storage.ts, the update of a stage by its id; the keys present in
    the update replace the columns and the updated row is returned. *)
Definition updatePaymentStage (stageId : Z) (updates : PaymentStageUpdate.t)
  : Handler (option PaymentStage.t) :=
  modify (fun d =>
    {| users := users d; projects := projects d;
       paymentStages :=
         update_by_id PaymentStage.id stageId
                      (PaymentStageUpdate.apply updates) (paymentStages d);
       budgetNegotiations := budgetNegotiations d;
       notifications := notifications d;
       projectTimeline := projectTimeline d |});;
  gets (fun d => find_by_id PaymentStage.id stageId (paymentStages d)).

(** Modelled from the spec: [storage.createNotification] of
    server/storage.ts, the durable record of a notification; like every
    write it may fail. *)
Definition createNotification (data : InsertNotification.t) : Handler unit :=
  fun o w =>
    let w' := {| db := db w; outbox := outbox w; console := console w;
                 clock_reads := clock_reads w;
                 notification_writes := S (notification_writes w);
                 mail_calls := mail_calls w |} in
    if createNotification_fails o (notification_writes w)
    then (Thrown "createNotification failed", w')
    else
      let d := db w in
      let created :=
        {| Notification.id := next_id Notification.id (notifications d);
           Notification.userId := InsertNotification.userId data;
           Notification.title := InsertNotification.title data;
           Notification.message := InsertNotification.message data;
           Notification.type := InsertNotification.type data;
           Notification.isRead := false |} in
      (Value tt,
       set_db {| users := users d; projects := projects d;
                 paymentStages := paymentStages d;
                 budgetNegotiations := budgetNegotiations d;
                 notifications := notifications d ++ [created];
                 projectTimeline := projectTimeline d |} w').

(** Modelled from the spec: [storage.updateProject] of server/storage.ts
    for the two columns the negotiation handler writes. *)
Definition updateProject (projectId : Z) (price status : string) : Handler unit :=
  modify (fun d =>
    {| users := users d;
       projects :=
         update_by_id Project.id projectId
           (project_with_price_and_status price status)
           (projects d);
       paymentStages := paymentStages d;
       budgetNegotiations := budgetNegotiations d;
       notifications := notifications d;
       projectTimeline := projectTimeline d |}).

(** Modelled from the spec: [storage.createBudgetNegotiation] of
    server/storage.ts, a new negotiation row. *)
Definition createBudgetNegotiation (data : InsertBudgetNegotiation.t)
  : Handler BudgetNegotiation.t :=
  rows ← gets budgetNegotiations;
  let created :=
    {| BudgetNegotiation.id := next_id BudgetNegotiation.id rows;
       BudgetNegotiation.projectId := InsertBudgetNegotiation.projectId data;
       BudgetNegotiation.proposedBy := InsertBudgetNegotiation.proposedBy data;
       BudgetNegotiation.originalPrice := InsertBudgetNegotiation.originalPrice data;
       BudgetNegotiation.proposedPrice := InsertBudgetNegotiation.proposedPrice data;
       BudgetNegotiation.message := InsertBudgetNegotiation.message data;
       BudgetNegotiation.status := InsertBudgetNegotiation.status data |} in
  modify (fun d =>
    {| users := users d; projects := projects d;
       paymentStages := paymentStages d;
       budgetNegotiations := budgetNegotiations d ++ [created];
       notifications := notifications d;
       projectTimeline := projectTimeline d |});;
  mret created.

(** Modelled from the spec: [storage.updateBudgetNegotiation] of
    server/storage.ts called with a status only: the row's status is set
    and the row is otherwise left as it is. *)
Definition updateBudgetNegotiation (negotiationId : Z) (status : string)
  : Handler (option BudgetNegotiation.t) :=
  modify (fun d =>
    {| users := users d; projects := projects d;
       paymentStages := paymentStages d;
       budgetNegotiations :=
         update_by_id BudgetNegotiation.id negotiationId
           (negotiation_with_status status)
           (budgetNegotiations d);
       notifications := notifications d;
       projectTimeline := projectTimeline d |});;
  gets (fun d => find_by_id BudgetNegotiation.id negotiationId (budgetNegotiations d)).

(** Modelled from the spec: [storage.hasProjectTimeline] of
    server/storage.ts, whether the project has a timeline entry. *)
Definition hasProjectTimeline (projectId : Z) : Handler bool :=
  gets (fun d =>
          List.existsb (fun t => ProjectTimeline.projectId t =? projectId)
                       (projectTimeline d)).

(** Modelled from the spec: [storage.createProjectTimeline] of
    server/storage.ts, a new timeline row. *)
Definition createProjectTimeline
  (projectId : Z) (title description status : string) (estimatedDate : option Z)
  : Handler unit :=
  modify (fun d =>
    {| users := users d; projects := projects d;
       paymentStages := paymentStages d;
       budgetNegotiations := budgetNegotiations d;
       notifications := notifications d;
       projectTimeline :=
         projectTimeline d ++
         [ {| ProjectTimeline.id := next_id ProjectTimeline.id (projectTimeline d);
              ProjectTimeline.projectId := projectId;
              ProjectTimeline.title := title;
              ProjectTimeline.description := description;
              ProjectTimeline.status := status;
              ProjectTimeline.estimatedDate := estimatedDate |} ] |}).

End storage.

(** The two direct queries of the handlers:
    [db.select().from(table).where(eq(table.id, id)).limit(1)]. *)
Definition select_paymentStage (stageId : Z) : Handler (option PaymentStage.t) :=
  gets (fun d => find_by_id PaymentStage.id stageId (paymentStages d)).

Definition select_budgetNegotiation (negotiationId : Z)
  : Handler (option BudgetNegotiation.t) :=
  gets (fun d => find_by_id BudgetNegotiation.id negotiationId (budgetNegotiations d)).

(** The authenticated caller, [req.user]. *)
Module AuthUser.
Record t := mk { id : Z; role : string; fullName : string }.
End AuthUser.

(** Modelled from the spec: [requireRole] of server/auth.ts, the role check
    of the access layer: a caller whose role is not listed is answered 403
    before the handler runs. *)
Definition requireRole (roles : list string) (user : AuthUser.t)
  (next : Oracle -> World -> Response * World) : Oracle -> World -> Response * World :=
  fun o w =>
    if List.existsb (String.eqb (AuthUser.role user)) roles then next o w
    else (mkResponse 403 (json_message "Forbidden"), w).

(** ** POST /api/projects/:id/payment-stages *)

Module StageSpec.
Record t := mk { name : string; percentage : float; requiredProgress : Z }.
End StageSpec.

Definition stageData_of (project : Project.t) (projectId : Z) (stage : StageSpec.t)
  : InsertPaymentStage.t :=
  {| InsertPaymentStage.projectId := projectId;
     InsertPaymentStage.stageName := StageSpec.name stage;
     InsertPaymentStage.stagePercentage := StageSpec.percentage stage;
     InsertPaymentStage.amount :=
       PrimFloat.div
         (PrimFloat.mul (Js.parseFloat (Project.price project))
                        (StageSpec.percentage stage))
         100%float;
     InsertPaymentStage.requiredProgress := StageSpec.requiredProgress stage;
     InsertPaymentStage.status :=
       if StageSpec.requiredProgress stage =? 0 then "available" else "pending" |}.

(** The loop over [stages]; it fills [createdStages] and [availableStages]. *)
Fixpoint create_stages (project : Project.t) (projectId : Z)
  (stages : list StageSpec.t) (createdStages availableStages : list PaymentStage.t)
  : Handler (list PaymentStage.t * list PaymentStage.t) :=
  match stages with
  | [] => mret (createdStages, availableStages)
  | stage :: rest =>
      let stageData := stageData_of project projectId stage in
      created ← storage.createPaymentStage stageData;
      create_stages project projectId rest
        (createdStages ++ [created])
        (if String.eqb (InsertPaymentStage.status stageData) "available"
         then availableStages ++ [created] else availableStages)
  end.

Definition timelineItems : list (string * string) :=
  [ ("Análisis y Planificación",
     "Análisis de requerimientos y planificación del proyecto");
    ("Diseño y Arquitectura",
     "Diseño de la interfaz y arquitectura del sistema");
    ("Desarrollo - Fase 1",
     "Desarrollo de funcionalidades principales (50% del proyecto)");
    ("Desarrollo - Fase 2",
     "Completar desarrollo y optimizaciones (90% del proyecto)");
    ("Testing y QA",
     "Pruebas exhaustivas y control de calidad");
    ("Entrega Final",
     "Entrega del proyecto completado y documentación") ].

Definition post_payment_stages (projectId : Z) (stages : list StageSpec.t)
  : Oracle -> World -> Response * World :=
  route
    (project ← storage.getProject projectId;
     match project with
     | None => respond 404 (json_message "Proyecto no encontrado")
     | Some project =>
         '(createdStages, availableStages) ←
           create_stages project projectId stages [] [];
         when (0 <? Z.of_nat (length availableStages))
           (client ← storage.getUserById (Project.clientId project);
            match client with
            | Some client =>
                when (Js.truthy_string (User.email client))
                  (for_each availableStages (fun stage =>
                     try_catch
                       (send (Email (User.email client)
                                ("💰 Pago Disponible: " +:+ Project.name project
                                 +:+ " - " +:+ PaymentStage.stageName stage)
                                (generatePaymentStageAvailableEmailHTML
                                   (User.fullName client) (Project.name project)
                                   (PaymentStage.stageName stage)
                                   (PaymentStage.amount stage)
                                   (PaymentStage.stagePercentage stage)));;
                        write_console
                          (console_log ("📧 Email de etapa disponible enviado a cliente: "
                                        +:+ User.email client +:+ " para etapa: "
                                        +:+ PaymentStage.stageName stage)))
                       (fun emailError =>
                          write_console
                            (console_error
                               ("❌ Error enviando email de etapa disponible a cliente: "
                                +:+ emailError)))))
            | None => mret tt
            end);;
         hasTimeline ← storage.hasProjectTimeline projectId;
         when (negb hasTimeline)
           (for_each timelineItems (fun timelineItem =>
              storage.createProjectTimeline projectId
                (fst timelineItem) (snd timelineItem) "pending" None));;
         mret (mkResponse 200 (json_stages createdStages))
     end)
    (fun error =>
       write_console (console_error ("Error creating payment stages: " +:+ error));;
       mret (mkResponse 500 (json_message "Error interno del servidor"))).

(** ** POST /api/payment-stages/:id/confirm-payment *)

(** The form field [proofFileInfo]: absent, text that [JSON.parse] refuses, or
    the description of a file. *)
Inductive ProofFileInfoField :=
| field_absent
| field_unparsable
| field_parsed (info : FileInfo.t).

(** [fileType?.split('/')[1] || 'jpg'] *)
Definition extension_of (info : FileInfo.t) : string :=
  match FileInfo.fileType info with
  | Some fileType =>
      match Js.split_on "/" fileType with
      | _ :: second :: _ => if Js.truthy_string second then second else "jpg"
      | _ => "jpg"
      end
  | None => "jpg"
  end.

(** The name under which the proof is referred to; no file is stored. *)
Definition build_proofFileUrl (stageId : Z) (proofFile : option UploadedFile.t)
  (proofFileInfo : option FileInfo.t) : Handler (option string) :=
  match proofFile, proofFileInfo with
  | Some file, _ =>
      t ← now;
      mret (Some ("comprobante_" +:+ Js.string_of_Z stageId +:+ "_"
                  +:+ Js.string_of_Z t +:+ "_" +:+ UploadedFile.originalname file))
  | None, Some info =>
      t ← now;
      mret (Some ("comprobante_" +:+ Js.string_of_Z stageId +:+ "_"
                  +:+ Js.string_of_Z t +:+ "." +:+ extension_of info))
  | None, None => mret None
  end.

Definition fileInfo_of (proofFile : option UploadedFile.t)
  (proofFileInfo : option FileInfo.t) : JsonValue :=
  match proofFileInfo, proofFile with
  | Some info, _ => JFileInfo info
  | None, Some file =>
      JFileInfo {| FileInfo.fileName := Some (UploadedFile.originalname file);
                   FileInfo.fileSize := Some (UploadedFile.size file);
                   FileInfo.fileType := Some (UploadedFile.mimetype file) |}
  | None, None => JNull
  end.

(** The [paymentData] object of a submission. *)
Definition confirmation_data (confirmedBy confirmedAt : Z) (paymentMethod : string)
  (proofFile : option UploadedFile.t) (proofFileInfo : option FileInfo.t)
  : gmap string JsonValue :=
  let data : gmap string JsonValue :=
    <["fileInfo" := fileInfo_of proofFile proofFileInfo]>
      (<["method" := JString paymentMethod]>
         (<["confirmedAt" := JDate confirmedAt]>
            (<["confirmedBy" := JNumber confirmedBy]> ∅))) in
  match proofFile with
  | Some file => <["originalFileName" := JString (UploadedFile.originalname file)]> data
  | None => data
  end.

Definition post_confirm_payment (user : AuthUser.t) (stageId : Z)
  (paymentMethod : string) (proofFileInfoField : ProofFileInfoField)
  (proofFile : option UploadedFile.t)
  : Oracle -> World -> Response * World :=
  route
    (proofFileInfo ←
       match proofFileInfoField with
       | field_absent => mret None
       | field_unparsable => throw "SyntaxError: Unexpected token in JSON"
       | field_parsed info => mret (Some info)
       end;
     write_console
       (console_log ("💰 Procesando confirmación de pago para etapa "
                     +:+ Js.string_of_Z stageId));;
     stage ← select_paymentStage stageId;
     match stage with
     | None => respond 404 (json_message "Etapa no encontrada")
     | Some stage0 =>
     project ← storage.getProject (PaymentStage.projectId stage0);
     match project with
     | None => respond 404 (json_message "Proyecto no encontrado")
     | Some project =>
     client ← storage.getUserById (Project.clientId project);
     match client with
     | None => respond 404 (json_message "Cliente no encontrado")
     | Some client =>
         proofFileUrl ← build_proofFileUrl stageId proofFile proofFileInfo;
         confirmedAt ← now;
         updated ←
           storage.updatePaymentStage stageId
             {| PaymentStageUpdate.status := Some "pending_verification";
                PaymentStageUpdate.paymentMethod := Some (Some paymentMethod);
                PaymentStageUpdate.proofFileUrl := Some proofFileUrl;
                PaymentStageUpdate.paymentData :=
                  Some (confirmation_data (AuthUser.id user) confirmedAt
                          paymentMethod proofFile proofFileInfo);
                PaymentStageUpdate.paidAt := None;
                PaymentStageUpdate.approvedBy := None;
                PaymentStageUpdate.approvedAt := None |};
         adminUsers ← storage.getUsersByRole "admin";
         for_each adminUsers (fun admin =>
           storage.createNotification
             {| InsertNotification.userId := User.id admin;
                InsertNotification.title := "📋 Comprobante de Pago Recibido";
                InsertNotification.message :=
                  "El cliente " +:+ User.fullName client
                  +:+ " envió comprobante de pago para " +:+ Js.dquote
                  +:+ PaymentStage.stageName stage0 +:+ Js.dquote
                  +:+ " mediante " +:+ paymentMethod +:+ ". "
                  +:+ match proofFile with
                      | Some file => "Comprobante adjunto: "
                                     +:+ UploadedFile.originalname file
                      | None => "Sin comprobante adjunto"
                      end
                  +:+ ". Requiere verificación.";
                InsertNotification.type := "warning" |});;
         try_catch
           (fileAttachmentInfo ←
              match proofFile, proofFileInfo with
              | Some file, _ =>
                  write_console
                    (console_log ("📎 Archivo recibido: "
                                  +:+ UploadedFile.originalname file));;
                  mret (Some (AttachedFile file))
              | None, Some info => mret (Some (IndicatedFile info))
              | None, None =>
                  write_console
                    (console_log ("ℹ️ No se adjuntó comprobante para la etapa "
                                  +:+ Js.string_of_Z stageId));;
                  mret None
              end;
            send (PaymentProofNotificationToAdmin
                    (User.fullName client) (Project.name project)
                    (PaymentStage.stageName stage0) (PaymentStage.amount stage0)
                    paymentMethod fileAttachmentInfo);;
            send (PaymentProofConfirmationToClient
                    (User.email client) (User.fullName client) (Project.name project)
                    (PaymentStage.stageName stage0) (PaymentStage.amount stage0)
                    paymentMethod);;
            write_console
              (console_log ("📧 Notificaciones de email enviadas para pago de "
                            +:+ User.fullName client)))
           (fun emailError =>
              write_console
                (console_error ("❌ Error enviando notificaciones por email: "
                                +:+ emailError)));;
         mret (mkResponse 200
                 (json_stage updated
                    "Comprobante enviado exitosamente. Tu pago está pendiente de verificación por nuestro equipo. Te notificaremos cuando sea aprobado."))
     end end end)
    (fun error =>
       write_console (console_error ("❌ Error confirming payment stage: " +:+ error));;
       mret (mkResponse 500 (json_message "Error interno del servidor"))).

(** ** POST /api/payment-stages/:id/approve-payment *)

Definition error_detail (error : string) : Handler (option string) :=
  node_env ← env NODE_ENV;
  mret (if String.eqb node_env "development" then Some error else None).

Definition post_approve_payment (user : AuthUser.t) (stageId : Z)
  : Oracle -> World -> Response * World :=
  requireRole ["admin"] user (route
    (write_console
       (console_log ("✅ Admin aprobando pago para etapa: " +:+ Js.string_of_Z stageId));;
     stage ← select_paymentStage stageId;
     match stage with
     | None =>
         write_console
           (console_error ("❌ Etapa " +:+ Js.string_of_Z stageId +:+ " no encontrada"));;
         respond 404 (json_message "Etapa no encontrada")
     | Some stage0 =>
     if negb (String.eqb (PaymentStage.status stage0) "pending_verification")
     then respond 400 (json_message "Esta etapa no está pendiente de verificación")
     else
     project ← storage.getProject (PaymentStage.projectId stage0);
     match project with
     | None =>
         write_console
           (console_error ("❌ Proyecto "
                           +:+ Js.string_of_Z (PaymentStage.projectId stage0)
                           +:+ " no encontrado"));;
         respond 404 (json_message "Proyecto no encontrado")
     | Some project =>
     client ← storage.getUserById (Project.clientId project);
     match client with
     | None =>
         write_console
           (console_error ("❌ Cliente " +:+ Js.string_of_Z (Project.clientId project)
                           +:+ " no encontrado"));;
         respond 404 (json_message "Cliente no encontrado")
     | Some client =>
         paidAt ← now;
         approvedAt ← now;
         updated ←
           storage.updatePaymentStage stageId
             {| PaymentStageUpdate.status := Some "paid";
                PaymentStageUpdate.paymentMethod := None;
                PaymentStageUpdate.proofFileUrl := None;
                PaymentStageUpdate.paymentData := None;
                PaymentStageUpdate.paidAt := Some paidAt;
                PaymentStageUpdate.approvedBy := Some (AuthUser.id user);
                PaymentStageUpdate.approvedAt := Some approvedAt |};
         storage.createNotification
           {| InsertNotification.userId := Project.clientId project;
              InsertNotification.title := "✅ Pago Aprobado";
              InsertNotification.message :=
                "Tu pago para la etapa " +:+ Js.dquote
                +:+ PaymentStage.stageName stage0 +:+ Js.dquote
                +:+ " ha sido verificado y aprobado. ¡Continuamos con el desarrollo!";
              InsertNotification.type := "success" |};;
         mret (mkResponse 200 (json_stage updated "Pago aprobado exitosamente"))
     end end end)
    (fun error =>
       write_console (console_error ("❌ Error approving payment: " +:+ error));;
       detail ← error_detail error;
       mret (mkResponse 500 (json_error "Error al aprobar pago" detail)))).

(** ** POST /api/payment-stages/:id/reject-payment *)

(** [{ ...paymentData, rejectedBy, rejectedAt, rejectionReason }] *)
Definition rejection_data (previous : option (gmap string JsonValue))
  (rejectedBy rejectedAt : Z) (reason : string) : gmap string JsonValue :=
  <["rejectionReason" := JString reason]>
    (<["rejectedAt" := JDate rejectedAt]>
       (<["rejectedBy" := JNumber rejectedBy]> (default ∅ previous))).

Definition rejection_message (stageName reason : string) : string :=
  "Tu comprobante de pago para " +:+ Js.dquote +:+ stageName +:+ Js.dquote
  +:+ " fue rechazado. Motivo: " +:+ reason
  +:+ ". Por favor, envía un nuevo comprobante.".

Definition post_reject_payment (user : AuthUser.t) (stageId : Z) (reason : string)
  : Oracle -> World -> Response * World :=
  requireRole ["admin"] user (route
    (write_console
       (console_log ("❌ Admin rechazando pago para etapa: " +:+ Js.string_of_Z stageId
                     +:+ ", razón: " +:+ reason));;
     stage ← select_paymentStage stageId;
     match stage with
     | None =>
         write_console
           (console_error ("❌ Etapa " +:+ Js.string_of_Z stageId +:+ " no encontrada"));;
         respond 404 (json_message "Etapa no encontrada")
     | Some stage0 =>
     if negb (String.eqb (PaymentStage.status stage0) "pending_verification")
     then respond 400 (json_message "Esta etapa no está pendiente de verificación")
     else
     project ← storage.getProject (PaymentStage.projectId stage0);
     match project with
     | None =>
         write_console
           (console_error ("❌ Proyecto "
                           +:+ Js.string_of_Z (PaymentStage.projectId stage0)
                           +:+ " no encontrado"));;
         respond 404 (json_message "Proyecto no encontrado")
     | Some project =>
         rejectedAt ← now;
         updated ←
           storage.updatePaymentStage stageId
             {| PaymentStageUpdate.status := Some "available";
                PaymentStageUpdate.paymentMethod := Some None;
                PaymentStageUpdate.proofFileUrl := Some None;
                PaymentStageUpdate.paymentData :=
                  Some (rejection_data (PaymentStage.paymentData stage0)
                          (AuthUser.id user) rejectedAt reason);
                PaymentStageUpdate.paidAt := None;
                PaymentStageUpdate.approvedBy := None;
                PaymentStageUpdate.approvedAt := None |};
         storage.createNotification
           {| InsertNotification.userId := Project.clientId project;
              InsertNotification.title := "❌ Pago Rechazado";
              InsertNotification.message :=
                rejection_message (PaymentStage.stageName stage0) reason;
              InsertNotification.type := "error" |};;
         mret (mkResponse 200 (json_stage updated "Pago rechazado"))
     end end)
    (fun error =>
       write_console (console_error ("❌ Error rejecting payment: " +:+ error));;
       detail ← error_detail error;
       mret (mkResponse 500 (json_error "Error al rechazar pago" detail)))).

(** ** PUT /api/budget-negotiations/:id/respond *)

(** [counterPrice] as it arrives in the body: a number or text. *)
Inductive CounterPrice :=
| counter_number (n : float)
| counter_text (s : string).

(** Truthiness: a number other than 0 and [NaN], a text other than the empty one. *)
Definition truthy_price (p : option CounterPrice) : bool :=
  match p with
  | None => false
  | Some (counter_number n) =>
      (negb (PrimFloat.eqb n PrimFloat.zero) && PrimFloat.eqb n n)%bool
  | Some (counter_text s) => Js.truthy_string s
  end.

Definition default_system_mailbox : string := "softwarepar.lat@gmail.com".

Section Respond.

(** [Number.prototype.toString], left to the engine. *)
Variable Number_toString : float -> string.

Definition price_toString (p : CounterPrice) : string :=
  match p with
  | counter_number n => Number_toString n
  | counter_text s => s
  end.

Definition acceptance_mail (to : string) (project : Project.t) (client : User.t)
  (negotiation : BudgetNegotiation.t) (message : option string) : Mail :=
  Email to
    ("✅ Contraoferta Aceptada: " +:+ Project.name project +:+ " - $"
     +:+ BudgetNegotiation.proposedPrice negotiation)
    (generateBudgetAcceptanceEmailHTML
       (Project.name project) (User.fullName client) (User.email client)
       (BudgetNegotiation.originalPrice negotiation)
       (BudgetNegotiation.proposedPrice negotiation)
       (default "" message)).

(** The mails of an acceptance: one to every administrator that has an
    address, one to the mailbox of the system; a mail that fails is logged
    and the next one is tried. *)
Definition acceptance_mails (project : Project.t) (client : User.t)
  (negotiation : BudgetNegotiation.t) (message : option string) : Handler unit :=
  adminUsers ← storage.getUsersByRole "admin";
  for_each adminUsers (fun admin =>
    try_catch
      (when (Js.truthy_string (User.email admin))
         (send (acceptance_mail (User.email admin) project client
                  negotiation message);;
          write_console
            (console_log
               ("✅ Email de aceptación de contraoferta enviado a admin: "
                +:+ User.email admin))))
      (fun adminError =>
         write_console
           (console_error
              ("❌ Error enviando email de aceptación a admin "
               +:+ Js.string_of_Z (User.id admin) +:+ ": "
               +:+ adminError))));;
  try_catch
    (mailbox ← env GMAIL_USER;
     send (acceptance_mail
             (match mailbox with
              | Some m => if Js.truthy_string m then m
                          else default_system_mailbox
              | None => default_system_mailbox
              end)
             project client negotiation message);;
     write_console
       (console_log
          "✅ Email de aceptación enviado al email principal del sistema"))
    (fun systemEmailError =>
       write_console
         (console_error
            ("❌ Error enviando email de aceptación al sistema principal: "
             +:+ systemEmailError))).

Definition put_negotiation_respond (user : AuthUser.t) (negotiationId : Z)
  (status : string) (message : option string) (counterPrice : option CounterPrice)
  : Oracle -> World -> Response * World :=
  route
    (when (String.eqb status "accepted")
       (negotiation ← select_budgetNegotiation negotiationId;
        match negotiation with
        | None => mret tt
        | Some negotiation =>
            storage.updateProject (BudgetNegotiation.projectId negotiation)
              (BudgetNegotiation.proposedPrice negotiation) "in_progress";;
            project ← storage.getProject (BudgetNegotiation.projectId negotiation);
            client ← match project with
                     | Some project => storage.getUserById (Project.clientId project)
                     | None => mret None
                     end;
            match project, client with
            | Some project, Some client =>
                acceptance_mails project client negotiation message
            | _, _ => mret tt
            end
        end);;
     when (String.eqb status "countered" && truthy_price counterPrice)
       (oldNegotiation ← select_budgetNegotiation negotiationId;
        match oldNegotiation, counterPrice with
        | Some oldNegotiation, Some counterPrice =>
            storage.createBudgetNegotiation
              {| InsertBudgetNegotiation.projectId :=
                   BudgetNegotiation.projectId oldNegotiation;
                 InsertBudgetNegotiation.proposedBy := AuthUser.id user;
                 InsertBudgetNegotiation.originalPrice :=
                   BudgetNegotiation.proposedPrice oldNegotiation;
                 InsertBudgetNegotiation.proposedPrice := price_toString counterPrice;
                 InsertBudgetNegotiation.message := message;
                 InsertBudgetNegotiation.status := "pending" |};;
            mret tt
        | _, _ => mret tt
        end);;
     updated ← storage.updateBudgetNegotiation negotiationId status;
     mret (mkResponse 200 (json_negotiation updated)))
    (fun error =>
       write_console
         (console_error ("Error responding to budget negotiation: " +:+ error));;
       mret (mkResponse 500 (json_message "Error interno del servidor"))).

End Respond.

(** ** GET /api/client/stage-invoices/:stageId/download and .../download-resimple *)

(** The comparison given to [Array.prototype.sort]. *)
Definition compareFn (a b : PaymentStage.t) : Z :=
  PaymentStage.requiredProgress a - PaymentStage.requiredProgress b.

(** [sort] is stable: a stage goes in front of the first one that does not
    come before it. *)
Fixpoint insert_stage (s : PaymentStage.t) (sorted : list PaymentStage.t)
  : list PaymentStage.t :=
  match sorted with
  | [] => [s]
  | t :: rest =>
      if compareFn s t <=? 0 then s :: t :: rest else t :: insert_stage s rest
  end.

Definition sort_stages (stages : list PaymentStage.t) : list PaymentStage.t :=
  List.fold_right insert_stage [] stages.

(** [Array.prototype.findIndex] *)
Fixpoint findIndex {A} (p : A -> bool) (xs : list A) : Z :=
  match xs with
  | [] => -1
  | x :: rest =>
      if p x then 0
      else let i := findIndex p rest in if i <? 0 then -1 else i + 1
  end.

Fixpoint repeat_char (n : nat) (c : ascii) : string :=
  match n with
  | O => EmptyString
  | S n' => String c (repeat_char n' c)
  end.

(** [s.padStart(width, fill)] *)
Definition padStart (width : nat) (fill : ascii) (s : string) : string :=
  repeat_char (width - String.length s) fill +:+ s.

(** [s.slice(-2)] *)
Definition slice_last2 (s : string) : string :=
  String.substring (String.length s - 2) 2 s.

Inductive DocumentKind := Factura | BoletaResimple.

Definition invoiceNumber_of (kind : DocumentKind) (year projectId stageNumber : Z)
  : string :=
  match kind with
  | Factura =>
      slice_last2 (Js.string_of_Z year) +:+ padStart 4 "0" (Js.string_of_Z projectId)
  | BoletaResimple =>
      "INV-" +:+ Js.string_of_Z year +:+ "-"
      +:+ padStart 4 "0" (Js.string_of_Z projectId) +:+ "-"
      +:+ padStart 2 "0" (Js.string_of_Z stageNumber)
  end.

Definition fileName_of (kind : DocumentKind) (invoiceNumber : string) (stageNumber : Z)
  : string :=
  match kind with
  | Factura =>
      "SoftwarePar_Factura_" +:+ invoiceNumber +:+ "_Etapa_"
      +:+ Js.string_of_Z stageNumber +:+ ".pdf"
  | BoletaResimple => "SoftwarePar_Boleta_RESIMPLE_" +:+ invoiceNumber +:+ ".pdf"
  end.

Definition stage_of_total (stageNumber totalStages : Z) : string :=
  Js.string_of_Z stageNumber +:+ " de " +:+ Js.string_of_Z totalStages.

(** The lines of the document that number the stage. *)
Definition stageLines_of (kind : DocumentKind) (stage : PaymentStage.t)
  (stageNumber totalStages : Z) : list string :=
  match kind with
  | Factura =>
      [ stage_of_total stageNumber totalStages;
        PaymentStage.stageName stage +:+ " - Etapa "
        +:+ stage_of_total stageNumber totalStages;
        "• Esta es la etapa " +:+ stage_of_total stageNumber totalStages
        +:+ " del proyecto" ]
  | BoletaResimple => [ "Etapa " +:+ stage_of_total stageNumber totalStages ]
  end.

(** Both download handlers; [stageId] is [None] when [parseInt] gave [NaN]. *)
Definition get_stage_invoice (kind : DocumentKind) (user : AuthUser.t)
  (stageId : option Z) : Oracle -> World -> Response * World :=
  route
    (match stageId with
     | None => respond 400 (json_message "ID de etapa inválido")
     | Some stageId =>
     stage ← select_paymentStage stageId;
     match stage with
     | None => respond 404 (json_message "Etapa no encontrada")
     | Some stage0 =>
     project ← storage.getProject (PaymentStage.projectId stage0);
     match project with
     | None => respond 404 (json_message "Proyecto no encontrado")
     | Some project =>
     if negb (Project.clientId project =? AuthUser.id user)
     then respond 403 (json_message "No tienes permisos para ver esta factura")
     else
     if negb (String.eqb (PaymentStage.status stage0) "paid")
     then respond 400 (json_message "Esta etapa aún no ha sido pagada")
     else
       allStages ← storage.getPaymentStages (PaymentStage.projectId stage0);
       let sortedStages := sort_stages allStages in
       let stageNumber :=
         findIndex (fun s => PaymentStage.id s =? PaymentStage.id stage0) sortedStages
         + 1 in
       let totalStages := Z.of_nat (length sortedStages) in
       today ← now;
       year ← env (fun o => getFullYear o today);
       issued ← now;
       let invoiceNumber :=
         invoiceNumber_of kind year
           (match kind with
            | Factura => PaymentStage.projectId stage0
            | BoletaResimple => Project.id project
            end)
           stageNumber in
       mret (mkResponse 200
               (pdf {| doc_fileName := fileName_of kind invoiceNumber stageNumber;
                       doc_stage := stage0;
                       doc_stageNumber := stageNumber;
                       doc_totalStages := totalStages;
                       doc_stageLines :=
                         stageLines_of kind stage0 stageNumber totalStages |}))
     end end end)
    (fun error =>
       write_console
         (console_error
            (match kind with
             | Factura => "❌ Error downloading stage invoice: "
             | BoletaResimple => "❌ Error downloading RESIMPLE invoice: "
             end +:+ error));;
       node_env ← env NODE_ENV;
       mret (mkResponse 500
               (json_error "Error interno del servidor"
                  (Some (if String.eqb node_env "development" then error
                         else match kind with
                              | Factura => "Error al generar factura"
                              | BoletaResimple => "Error al generar Boleta RESIMPLE"
                              end))))).

Definition get_stage_invoice_download := get_stage_invoice Factura.
Definition get_stage_invoice_download_resimple := get_stage_invoice BoletaResimple.

(** * Vocabulary of the properties *)

(** The error classes of the handlers, by the code of the reply. *)
Definition Successful (r : Response) : Prop := code r = 200.
Definition InvalidState (r : Response) : Prop := code r = 400.
Definition Forbidden (r : Response) : Prop := code r = 403.
Definition InternalError (r : Response) : Prop := code r = 500.

(** The stage with a given id, as the handlers read it. *)
Definition stage_of (w : World) (stageId : Z) : option PaymentStage.t :=
  find_by_id PaymentStage.id stageId (paymentStages (db w)).

Definition project_of (w : World) (projectId : Z) : option Project.t :=
  find_by_id Project.id projectId (projects (db w)).

Definition user_of (w : World) (userId : Z) : option User.t :=
  find_by_id User.id userId (users (db w)).

Definition negotiation_of (w : World) (negotiationId : Z) : option BudgetNegotiation.t :=
  find_by_id BudgetNegotiation.id negotiationId (budgetNegotiations (db w)).

Arguments Js.string_of_Z : simpl never.
Arguments confirmation_data : simpl never.
Arguments rejection_data : simpl never.
Arguments rejection_message : simpl never.
Arguments String.append : simpl never.
Arguments find_by_id : simpl never.
Arguments update_by_id : simpl never.
Arguments next_id : simpl never.

(** A statement is quiet when it runs to its end whatever the mailer does and
    leaves every table as it was. *)
Definition quiet (m : Handler unit) : Prop :=
  forall o w, exists w', m o w = (Value tt, w') /\ db w' = db w.

(** What creation makes of one entry of the request. *)
Definition created_from (project : Project.t) (projectId : Z)
  (stage : StageSpec.t) (created : PaymentStage.t) : Prop :=
  PaymentStage.projectId created = projectId /\
  PaymentStage.stageName created = StageSpec.name stage /\
  PaymentStage.stagePercentage created = StageSpec.percentage stage /\
  PaymentStage.requiredProgress created = StageSpec.requiredProgress stage /\
  PaymentStage.amount created =
    PrimFloat.div
      (PrimFloat.mul (Js.parseFloat (Project.price project)) (StageSpec.percentage stage))
      100%float /\
  (StageSpec.requiredProgress stage = 0 -> PaymentStage.status created = "available") /\
  (StageSpec.requiredProgress stage > 0 -> PaymentStage.status created = "pending").

(** Reading the clock once more. *)
Definition tick (w : World) : World :=
  {| db := db w; outbox := outbox w; console := console w;
     clock_reads := S (clock_reads w);
     notification_writes := notification_writes w;
     mail_calls := mail_calls w |}.

(** Whether the request carries a file or the description of one. *)
Definition proof_given (proofFile : option UploadedFile.t)
  (proofFileInfo : option FileInfo.t) : bool :=
  match proofFile, proofFileInfo with
  | None, None => false
  | _, _ => true
  end.

(** The reference [build_proofFileUrl] makes at instant [t]. *)
Definition reference_name (stageId t : Z) (proofFile : option UploadedFile.t)
  (proofFileInfo : option FileInfo.t) : option string :=
  match proofFile, proofFileInfo with
  | Some file, _ =>
      Some ("comprobante_" +:+ Js.string_of_Z stageId +:+ "_"
            +:+ Js.string_of_Z t +:+ "_" +:+ UploadedFile.originalname file)
  | None, Some info =>
      Some ("comprobante_" +:+ Js.string_of_Z stageId +:+ "_"
            +:+ Js.string_of_Z t +:+ "." +:+ extension_of info)
  | None, None => None
  end.

Definition info_of (field : ProofFileInfoField) : option FileInfo.t :=
  match field with field_parsed info => Some info | _ => None end.

(** The update a submission makes, with the two instants it reads. *)
Definition submission_update (confirmedBy stageId t_name t_confirmed : Z)
  (paymentMethod : string) (proofFile : option UploadedFile.t)
  (proofFileInfo : option FileInfo.t) : PaymentStageUpdate.t :=
  {| PaymentStageUpdate.status := Some "pending_verification";
     PaymentStageUpdate.paymentMethod := Some (Some paymentMethod);
     PaymentStageUpdate.proofFileUrl :=
       Some (reference_name stageId t_name proofFile proofFileInfo);
     PaymentStageUpdate.paymentData :=
       Some (confirmation_data confirmedBy t_confirmed paymentMethod
               proofFile proofFileInfo);
     PaymentStageUpdate.paidAt := None;
     PaymentStageUpdate.approvedBy := None;
     PaymentStageUpdate.approvedAt := None |}.

Definition submission_message : string :=
  "Comprobante enviado exitosamente. Tu pago está pendiente de verificación por nuestro equipo. Te notificaremos cuando sea aprobado.".

Definition mail_error_line : LogLine :=
  console_error ("❌ Error enviando notificaciones por email: " +:+ "sendEmail failed").

(** The row a notification becomes. *)
Definition notification_row (id : Z) (data : InsertNotification.t) : Notification.t :=
  {| Notification.id := id;
     Notification.userId := InsertNotification.userId data;
     Notification.title := InsertNotification.title data;
     Notification.message := InsertNotification.message data;
     Notification.type := InsertNotification.type data;
     Notification.isRead := false |}.

(** The update an approval makes, with the two instants it reads. *)
Definition approval_update (paidAt approvedBy approvedAt : Z) : PaymentStageUpdate.t :=
  {| PaymentStageUpdate.status := Some "paid";
     PaymentStageUpdate.paymentMethod := None;
     PaymentStageUpdate.proofFileUrl := None;
     PaymentStageUpdate.paymentData := None;
     PaymentStageUpdate.paidAt := Some paidAt;
     PaymentStageUpdate.approvedBy := Some approvedBy;
     PaymentStageUpdate.approvedAt := Some approvedAt |}.

Definition approval_note (project : Project.t) (stage : PaymentStage.t)
  : InsertNotification.t :=
  {| InsertNotification.userId := Project.clientId project;
     InsertNotification.title := "✅ Pago Aprobado";
     InsertNotification.message :=
       "Tu pago para la etapa " +:+ Js.dquote
       +:+ PaymentStage.stageName stage +:+ Js.dquote
       +:+ " ha sido verificado y aprobado. ¡Continuamos con el desarrollo!";
     InsertNotification.type := "success" |}.

(** The update a rejection makes. *)
Definition rejection_update (previous : option (gmap string JsonValue))
  (rejectedBy rejectedAt : Z) (reason : string) : PaymentStageUpdate.t :=
  {| PaymentStageUpdate.status := Some "available";
     PaymentStageUpdate.paymentMethod := Some None;
     PaymentStageUpdate.proofFileUrl := Some None;
     PaymentStageUpdate.paymentData :=
       Some (rejection_data previous rejectedBy rejectedAt reason);
     PaymentStageUpdate.paidAt := None;
     PaymentStageUpdate.approvedBy := None;
     PaymentStageUpdate.approvedAt := None |}.

Definition rejection_note (project : Project.t) (stage : PaymentStage.t)
  (reason : string) : InsertNotification.t :=
  {| InsertNotification.userId := Project.clientId project;
     InsertNotification.title := "❌ Pago Rechazado";
     InsertNotification.message :=
       rejection_message (PaymentStage.stageName stage) reason;
     InsertNotification.type := "error" |}.

(** The keys a rejection sets in [paymentData]. *)
Definition rejection_keys : list string :=
  ["rejectedBy"; "rejectedAt"; "rejectionReason"].

(** A text that has another one somewhere inside. *)
Definition contains (text part : string) : Prop :=
  exists before after, text = before +:+ part +:+ after.

(** ** A small installation to run the handlers on *)

Module Sample.

Definition ana : User.t := User.mk 1 "Ana Benítez" "ana@example.py" "client".
Definition root : User.t := User.mk 9 "Administración" "admin@example.py" "admin".
Definition shop : Project.t := Project.mk 7 "Tienda web" 1 "1000" "pending" 0.

Definition as_client : AuthUser.t := AuthUser.mk 1 "client" "Ana Benítez".
Definition as_admin : AuthUser.t := AuthUser.mk 9 "admin" "Administración".

(** Nothing fails. *)
Definition oracle : Oracle :=
  {| clock := fun n => 1767225600000 + Z.of_nat n;
     createNotification_fails := fun _ => false;
     sendEmail_fails := fun _ => false;
     NODE_ENV := "production";
     GMAIL_USER := None;
     getFullYear := fun _ => 2026 |}.

(** The notification table refuses every write. *)
Definition no_notifications : Oracle :=
  {| clock := clock oracle;
     createNotification_fails := fun _ => true;
     sendEmail_fails := fun _ => false;
     NODE_ENV := "production";
     GMAIL_USER := None;
     getFullYear := getFullYear oracle |}.

(** The mailer refuses every message. *)
Definition no_mail : Oracle :=
  {| clock := clock oracle;
     createNotification_fails := fun _ => false;
     sendEmail_fails := fun _ => true;
     NODE_ENV := "production";
     GMAIL_USER := None;
     getFullYear := getFullYear oracle |}.

Definition start : World :=
  {| db := {| users := [ana; root]; projects := [shop]; paymentStages := [];
              budgetNegotiations := []; notifications := [];
              projectTimeline := [] |};
     outbox := []; console := [];
     clock_reads := 0; notification_writes := 0; mail_calls := 0 |}.

Definition two_halves : list StageSpec.t :=
  [StageSpec.mk "Anticipo" 50 0; StageSpec.mk "Entrega" 50 50].

(** The two stages exist. *)
Definition staged : World := snd (post_payment_stages 7 two_halves oracle start).

Definition receipt : UploadedFile.t := UploadedFile.mk "recibo.png" 2048 "image/png".

(** The client has sent the receipt for the first stage. *)
Definition submitted : World :=
  snd (post_confirm_payment as_client 1 "Ueno Bank" field_absent (Some receipt)
         oracle staged).

(** The administrator has approved it. *)
Definition approved : World := snd (post_approve_payment as_admin 1 oracle submitted).

(** The client has proposed 800 instead of 1000. *)
Definition proposal : BudgetNegotiation.t :=
  BudgetNegotiation.mk 1 7 1 "1000" "800" (Some "Presupuesto ajustado") "pending".

Definition negotiating : World :=
  {| db := {| users := users (db staged); projects := projects (db staged);
              paymentStages := paymentStages (db staged);
              budgetNegotiations := [proposal];
              notifications := notifications (db staged);
              projectTimeline := projectTimeline (db staged) |};
     outbox := outbox staged; console := console staged;
     clock_reads := clock_reads staged;
     notification_writes := notification_writes staged;
     mail_calls := mail_calls staged |}.

(** Printing a number, exact on the whole numbers, which is all the runs
    below print. *)
Definition Number_toString (n : float) : string :=
  match Prim2SF n with
  | S754_zero _ => "0"
  | S754_infinity negative => if negative then "-Infinity" else "Infinity"
  | S754_nan => "NaN"
  | S754_finite negative m e =>
      let magnitude := if 0 <=? e then Z.pos m * 2 ^ e else Z.pos m / 2 ^ (- e) in
      Js.string_of_Z (if negative then - magnitude else magnitude)
  end.

(** The stage with a given id in a world of the installation. *)
Definition stage (stageId : Z) (w : World) : PaymentStage.t :=
  default (PaymentStage.mk 0 0 "" PrimFloat.zero PrimFloat.zero 0 "" None None None
             None None None)
          (stage_of w stageId).

End Sample.

(** ** Readings of the specification that the handlers do not bear out *)


(** A failure to write the notification leaves the approval successful. *)
Definition approval_succeeds_despite_notification_failure : Prop :=
  forall (o : Oracle) (w : World) (user : AuthUser.t) (stageId : Z)
         stage project client,
    AuthUser.role user = "admin" ->
    stage_of w stageId = Some stage ->
    PaymentStage.status stage = "pending_verification" ->
    project_of w (PaymentStage.projectId stage) = Some project ->
    user_of w (Project.clientId project) = Some client ->
    Successful (fst (post_approve_payment user stageId o w)).

(** Every reply to a negotiation with status [countered] leaves a brand-new
    pending negotiation that starts from the countered proposal. *)
Definition every_counter_opens_a_negotiation : Prop :=
  forall (Number_toString : float -> string) (o : Oracle) (w : World)
         (user : AuthUser.t) (negotiationId : Z) (message : option string)
         (counterPrice : option CounterPrice) negotiation,
    negotiation_of w negotiationId = Some negotiation ->
    let (_, w') :=
      put_negotiation_respond Number_toString user negotiationId "countered"
        message counterPrice o w in
    exists created,
      In created (budgetNegotiations (db w')) /\
      ~ In created (budgetNegotiations (db w)) /\
      BudgetNegotiation.originalPrice created
        = BudgetNegotiation.proposedPrice negotiation /\
      BudgetNegotiation.status created = "pending".

(** The order of the settlement documents: ascending required progress. *)
Definition by_progress (a b : PaymentStage.t) : Prop :=
  PaymentStage.requiredProgress a <= PaymentStage.requiredProgress b.

(** The stages of a project, as [storage.getPaymentStages] returns them. *)
Definition stages_of_project (w : World) (projectId : Z) : list PaymentStage.t :=
  List.filter (fun s => PaymentStage.projectId s =? projectId) (paymentStages (db w)).

(** * Further vocabulary *)

(** The mail that announces a stage ready for payment. *)
Definition stage_available_mail (client : User.t) (project : Project.t)
  (stage : PaymentStage.t) : Mail :=
  Email (User.email client)
    ("💰 Pago Disponible: " +:+ Project.name project
     +:+ " - " +:+ PaymentStage.stageName stage)
    (generatePaymentStageAvailableEmailHTML
       (User.fullName client) (Project.name project)
       (PaymentStage.stageName stage)
       (PaymentStage.amount stage)
       (PaymentStage.stagePercentage stage)).

(** The timeline rows that seeding appends to a timeline table. *)
Fixpoint seeded_rows (projectId : Z) (existing : list ProjectTimeline.t)
  (items : list (string * string)) : list ProjectTimeline.t :=
  match items with
  | [] => []
  | item :: rest =>
      let row :=
        {| ProjectTimeline.id := next_id ProjectTimeline.id existing;
           ProjectTimeline.projectId := projectId;
           ProjectTimeline.title := fst item;
           ProjectTimeline.description := snd item;
           ProjectTimeline.status := "pending";
           ProjectTimeline.estimatedDate := None |} in
      row :: seeded_rows projectId (existing ++ [row]) rest
  end.

(** Whether a project has a timeline row, as [storage.hasProjectTimeline] tells. *)
Definition has_timeline (w : World) (projectId : Z) : bool :=
  List.existsb (fun t => ProjectTimeline.projectId t =? projectId)
               (projectTimeline (db w)).

(** The rows that creation appends to a stage table. *)
Fixpoint created_rows (project : Project.t) (projectId : Z)
  (existing : list PaymentStage.t) (stages : list StageSpec.t)
  : list PaymentStage.t :=
  match stages with
  | [] => []
  | stage :: rest =>
      let row :=
        {| PaymentStage.id := next_id PaymentStage.id existing;
           PaymentStage.projectId := projectId;
           PaymentStage.stageName := StageSpec.name stage;
           PaymentStage.stagePercentage := StageSpec.percentage stage;
           PaymentStage.amount :=
             PrimFloat.div
               (PrimFloat.mul (Js.parseFloat (Project.price project))
                              (StageSpec.percentage stage))
               100%float;
           PaymentStage.requiredProgress := StageSpec.requiredProgress stage;
           PaymentStage.status :=
             if StageSpec.requiredProgress stage =? 0 then "available" else "pending";
           PaymentStage.paymentMethod := None;
           PaymentStage.proofFileUrl := None;
           PaymentStage.paymentData := None;
           PaymentStage.paidAt := None;
           PaymentStage.approvedBy := None;
           PaymentStage.approvedAt := None |} in
      row :: created_rows project projectId (existing ++ [row]) rest
  end.

(** The stages among the created ones that can be paid at once. *)
Definition payable_at_once (created : list PaymentStage.t) : list PaymentStage.t :=
  List.filter (fun s => PaymentStage.requiredProgress s =? 0) created.

(** The entries of a request whose stage can be paid at once. *)
Definition immediate_entries (stages : list StageSpec.t) : list StageSpec.t :=
  List.filter (fun s => StageSpec.requiredProgress s =? 0) stages.

(** A timeline row as seeding writes it. *)
Definition seeded_for (projectId : Z) (row : ProjectTimeline.t) : Prop :=
  ProjectTimeline.projectId row = projectId /\
  ProjectTimeline.status row = "pending" /\
  ProjectTimeline.estimatedDate row = None.

(** The administrators, as [storage.getUsersByRole] returns them. *)
Definition admins_of (w : World) : list User.t :=
  List.filter (fun u => String.eqb (User.role u) "admin") (users (db w)).

(** The rows that a run of notifications appends to a notification table. *)
Fixpoint notification_rows (existing : list Notification.t)
  (datas : list InsertNotification.t) : list Notification.t :=
  match datas with
  | [] => []
  | data :: rest =>
      let row := notification_row (next_id Notification.id existing) data in
      row :: notification_rows (existing ++ [row]) rest
  end.

(** What an administrator is told about a submission. *)
Definition submission_note (client : User.t) (stage : PaymentStage.t)
  (paymentMethod : string) (proofFile : option UploadedFile.t) (admin : User.t)
  : InsertNotification.t :=
  {| InsertNotification.userId := User.id admin;
     InsertNotification.title := "📋 Comprobante de Pago Recibido";
     InsertNotification.message :=
       "El cliente " +:+ User.fullName client
       +:+ " envió comprobante de pago para " +:+ Js.dquote
       +:+ PaymentStage.stageName stage +:+ Js.dquote
       +:+ " mediante " +:+ paymentMethod +:+ ". "
       +:+ match proofFile with
           | Some file => "Comprobante adjunto: " +:+ UploadedFile.originalname file
           | None => "Sin comprobante adjunto"
           end
       +:+ ". Requiere verificación.";
     InsertNotification.type := "warning" |}.

(** What the mail to the administrator says about the proof file. *)
Definition attachment_of (proofFile : option UploadedFile.t)
  (proofFileInfo : option FileInfo.t) : option Attachment :=
  match proofFile, proofFileInfo with
  | Some file, _ => Some (AttachedFile file)
  | None, Some info => Some (IndicatedFile info)
  | None, None => None
  end.

(** The two mails of a submission. *)
Definition proof_mail_to_admin (client : User.t) (project : Project.t)
  (stage : PaymentStage.t) (paymentMethod : string)
  (proofFile : option UploadedFile.t) (proofFileInfo : option FileInfo.t) : Mail :=
  PaymentProofNotificationToAdmin
    (User.fullName client) (Project.name project)
    (PaymentStage.stageName stage) (PaymentStage.amount stage)
    paymentMethod (attachment_of proofFile proofFileInfo).

Definition proof_mail_to_client (client : User.t) (project : Project.t)
  (stage : PaymentStage.t) (paymentMethod : string) : Mail :=
  PaymentProofConfirmationToClient
    (User.email client) (User.fullName client) (Project.name project)
    (PaymentStage.stageName stage) (PaymentStage.amount stage) paymentMethod.

(** The columns of a stage that no payment handler writes. *)
Definition terms_of (s : PaymentStage.t) : Z * Z * string * float * float * Z :=
  (PaymentStage.id s, PaymentStage.projectId s, PaymentStage.stageName s,
   PaymentStage.stagePercentage s, PaymentStage.amount s,
   PaymentStage.requiredProgress s).

(** A request about one stage left every other stage, and the terms of
    every stage, as they were. *)
Definition only_stage_touched (stageId : Z) (w w' : World) : Prop :=
  List.map terms_of (paymentStages (db w')) = List.map terms_of (paymentStages (db w)) /\
  (forall other, other <> stageId -> stage_of w' other = stage_of w other) /\
  users (db w') = users (db w) /\
  projects (db w') = projects (db w) /\
  budgetNegotiations (db w') = budgetNegotiations (db w) /\
  projectTimeline (db w') = projectTimeline (db w).

(** The mailbox of the system: [process.env.GMAIL_USER] or the built-in one. *)
Definition system_mailbox (o : Oracle) : string :=
  match GMAIL_USER o with
  | Some m => if Js.truthy_string m then m else default_system_mailbox
  | None => default_system_mailbox
  end.

(** The administrators that have an address. *)
Definition reachable_admins (w : World) : list User.t :=
  List.filter (fun u => Js.truthy_string (User.email u)) (admins_of w).

(** The number a settlement document gives a stage among the stages of its
    project. *)
Definition stage_number (stages : list PaymentStage.t) (stage : PaymentStage.t) : Z :=
  findIndex (fun s => PaymentStage.id s =? PaymentStage.id stage) (sort_stages stages) + 1.

(** * Further handlers *)

(** A route whose success reply has a body of its own: the early replies
    and the reply of the [catch] on the left, the body on the right. *)
Definition route_to {A} (body : Handler A) (on_error : string -> Handler Response)
  : Oracle -> World -> (Response + A) * World :=
  fun o w =>
    match body o w with
    | (Value a, w') => (inr a, w')
    | (Returned r, w') => (inl r, w')
    | (Thrown e, w') =>
        let (r, w'') := route (throw e) on_error o w' in (inl r, w'')
    end.

(** ** GET /api/payment-stages/:id/receipt-file *)

(** Truthiness of a stored value. *)
Definition truthy_json (v : JsonValue) : bool :=
  match v with
  | JNull => false
  | JNumber n => negb (n =? 0)
  | JString s => Js.truthy_string s
  | JDate _ => true
  | JFileInfo _ => true
  end.

(** [paymentData?.key] *)
Definition data_field (data : option (gmap string JsonValue)) (key : string)
  : option JsonValue :=
  match data with
  | Some d => d !! key
  | None => None
  end.

(** [paymentData?.fileInfo || {}], as far as its two fields are read. *)
Definition stored_fileInfo (data : option (gmap string JsonValue)) : FileInfo.t :=
  match data_field data "fileInfo" with
  | Some (JFileInfo info) => info
  | _ => {| FileInfo.fileName := None; FileInfo.fileSize := None;
            FileInfo.fileType := None |}
  end.

(** The body of the reply; [uploadedAt], which falls back on a column that
    the stage rows here do not carry, and the fixed [message] and [note]
    are left out. *)
Record ReceiptInfo := mkReceiptInfo
  { receipt_fileName : JsonValue;
    receipt_fileUrl : string;
    receipt_fileType : string;
    receipt_fileSize : Z }.

(** The handler, for a request whose id is a number. *)
Definition get_receipt_file (user : AuthUser.t) (stageId : Z)
  : Oracle -> World -> (Response + ReceiptInfo) * World :=
  route_to
    (stage ← select_paymentStage stageId;
     match stage with
     | None => respond 404 (json_message "Etapa no encontrada")
     | Some stage0 =>
     project ← storage.getProject (PaymentStage.projectId stage0);
     match project with
     | None => respond 404 (json_message "Proyecto no encontrado")
     | Some project =>
     if negb (String.eqb (AuthUser.role user) "admin")
        && negb (Project.clientId project =? AuthUser.id user)
     then respond 403 (json_message "No tienes permisos para ver este archivo")
     else
     match PaymentStage.proofFileUrl stage0 with
     | None => respond 404 (json_message "No hay comprobante disponible")
     | Some proofFileUrl =>
     if negb (Js.truthy_string proofFileUrl)
     then respond 404 (json_message "No hay comprobante disponible")
     else
       let fileInfo := stored_fileInfo (PaymentStage.paymentData stage0) in
       mret {| receipt_fileName :=
                 match data_field (PaymentStage.paymentData stage0)
                                  "originalFileName" with
                 | Some name => if truthy_json name then name
                                else JString "comprobante.jpg"
                 | None => JString "comprobante.jpg"
                 end;
               receipt_fileUrl := proofFileUrl;
               receipt_fileType :=
                 match FileInfo.fileType fileInfo with
                 | Some fileType => if Js.truthy_string fileType then fileType
                                    else "image/jpeg"
                 | None => "image/jpeg"
                 end;
               receipt_fileSize :=
                 match FileInfo.fileSize fileInfo with
                 | Some fileSize => if fileSize =? 0 then 0 else fileSize
                 | None => 0
                 end |}
     end end end)
    (fun error =>
       write_console (console_error ("❌ Error serving receipt file: " +:+ error));;
       detail ← error_detail error;
       mret (mkResponse 500 (json_error "Error al servir archivo" detail))).

(** An administrator, or the client of the project: who may see the receipt
    of a project's stage, and who may delete the project. *)
Definition admin_or_client (user : AuthUser.t) (project : Project.t) : bool :=
  String.eqb (AuthUser.role user) "admin"
  || (Project.clientId project =? AuthUser.id user).

(** ** Callees of other modules *)

(** A procedure of another module, by what its caller sees: the world it
    leaves and, when it throws, the message of the error. *)
Definition Procedure : Type := Oracle -> World -> option string * World.

(** [await p(..)] *)
Definition call (p : Procedure) : Handler unit :=
  fun o w =>
    match p o w with
    | (None, w') => (Value tt, w')
    | (Some error, w') => (Thrown error, w')
    end.

(** ** POST /api/projects/:id/budget-negotiations *)

Section Propose.

Variable Number_toString : float -> string.

(** [notifyBudgetNegotiation] of server/notifications.ts, left open. *)
Variable notifyBudgetNegotiation : Z -> string -> string -> string -> bool -> Procedure.

(** The handler, for a request whose project id is a number; the price of
    the body is a number, a text, or missing. *)
Definition post_budget_negotiation (user : AuthUser.t) (projectId : Z)
  (proposedPrice : option CounterPrice) (message : option string)
  : Oracle -> World -> Response * World :=
  route
    (project ← storage.getProject projectId;
     match project with
     | None => respond 404 (json_message "Proyecto no encontrado")
     | Some project =>
         price ← match proposedPrice with
                 | Some p => mret (price_toString Number_toString p)
                 | None =>
                     throw "Cannot read properties of undefined (reading 'toString')"
                 end;
         negotiation ←
           storage.createBudgetNegotiation
             {| InsertBudgetNegotiation.projectId := projectId;
                InsertBudgetNegotiation.proposedBy := AuthUser.id user;
                InsertBudgetNegotiation.originalPrice := Project.price project;
                InsertBudgetNegotiation.proposedPrice := price;
                InsertBudgetNegotiation.message := message;
                InsertBudgetNegotiation.status := "pending" |};
         (if String.eqb (AuthUser.role user) "client"
          then
            adminUsers ← storage.getUsersByRole "admin";
            for_each adminUsers (fun admin =>
              call (notifyBudgetNegotiation (User.id admin) (Project.name project)
                      price (default "" message) false))
          else if String.eqb (AuthUser.role user) "admin"
          then
            call (notifyBudgetNegotiation (Project.clientId project)
                    (Project.name project) price (default "" message) true)
          else mret tt);;
         mret (mkResponse 201 (json_negotiation (Some negotiation)))
     end)
    (fun error =>
       write_console
         (console_error ("Error creating budget negotiation: " +:+ error));;
       mret (mkResponse 500 (json_message "Error interno del servidor"))).

End Propose.

(** The row a proposal adds to the negotiation table. *)
Definition proposed_row (Number_toString : float -> string) (w : World)
  (user : AuthUser.t) (project : Project.t) (projectId : Z)
  (price : CounterPrice) (message : option string) : BudgetNegotiation.t :=
  {| BudgetNegotiation.id := next_id BudgetNegotiation.id (budgetNegotiations (db w));
     BudgetNegotiation.projectId := projectId;
     BudgetNegotiation.proposedBy := AuthUser.id user;
     BudgetNegotiation.originalPrice := Project.price project;
     BudgetNegotiation.proposedPrice := price_toString Number_toString price;
     BudgetNegotiation.message := message;
     BudgetNegotiation.status := "pending" |}.

(** A notifier that leaves the negotiation table alone. *)
Definition keeps_negotiations
  (notify : Z -> string -> string -> string -> bool -> Procedure) : Prop :=
  forall userId projectName price message isCounterOffer o w,
    budgetNegotiations (db (snd (notify userId projectName price message
                                   isCounterOffer o w)))
    = budgetNegotiations (db w).

(** ** DELETE /api/admin/users/:id and DELETE /api/projects/:id *)

Section Deletion.

(** [storage.deleteUser] and [storage.deleteProject] of server/storage.ts,
    left open. *)
Variable deleteUser : Z -> Procedure.
Variable deleteProject : Z -> Procedure.

(** [userId] is [None] when [parseInt] gave [NaN]. *)
Definition delete_admin_user (user : AuthUser.t) (userId : option Z)
  : Oracle -> World -> Response * World :=
  requireRole ["admin"] user (route
    (match userId with
     | None => respond 400 (json_message "ID de usuario inválido")
     | Some userId =>
         if AuthUser.id user =? userId
         then respond 400 (json_message "No puedes eliminar tu propia cuenta")
         else
           call (deleteUser userId);;
           mret (mkResponse 200 (json_message "Usuario eliminado exitosamente"))
     end)
    (fun error =>
       write_console (console_error ("Error deleting user: " +:+ error));;
       if String.eqb error "Usuario no encontrado"
       then mret (mkResponse 404 (json_message error))
       else if String.eqb error
                 "No se puede eliminar el último administrador del sistema"
       then mret (mkResponse 400 (json_message error))
       else if String.eqb error "No puedes eliminar tu propia cuenta"
       then mret (mkResponse 400 (json_message error))
       else
         detail ← error_detail error;
         mret (mkResponse 500 (json_error "Error interno del servidor" detail)))).

(** [projectId] is [None] when [parseInt] gave [NaN]. *)
Definition delete_project (user : AuthUser.t) (projectId : option Z)
  : Oracle -> World -> Response * World :=
  route
    (match projectId with
     | None => respond 400 (json_message "ID de proyecto inválido")
     | Some projectId =>
         project ← storage.getProject projectId;
         match project with
         | None => respond 404 (json_message "Proyecto no encontrado")
         | Some project =>
             if negb (String.eqb (AuthUser.role user) "admin")
                && negb (Project.clientId project =? AuthUser.id user)
             then respond 403
                    (json_message "No tienes permisos para eliminar este proyecto")
             else
               call (deleteProject projectId);;
               mret (mkResponse 200 (json_message "Proyecto eliminado exitosamente"))
         end
     end)
    (fun error =>
       write_console (console_error ("Error deleting project: " +:+ error));;
       mret (mkResponse 500 (json_message "Error interno del servidor"))).

End Deletion.

(** The code of the reply to a deletion that the store refuses with a
    given message. *)
Definition refusal_code (error : string) : Z :=
  if String.eqb error "Usuario no encontrado" then 404
  else if String.eqb error "No se puede eliminar el último administrador del sistema"
  then 400
  else if String.eqb error "No puedes eliminar tu propia cuenta" then 400
  else 500.

(** ** Corners of the installation *)

Module Corner.

(** The client has no address. *)
Definition silent : World :=
  {| db := {| users := [User.mk 1 "Ana Benítez" "" "client"; Sample.root];
              projects := [Sample.shop]; paymentStages := [];
              budgetNegotiations := []; notifications := [];
              projectTimeline := [] |};
     outbox := []; console := [];
     clock_reads := 0; notification_writes := 0; mail_calls := 0 |}.

(** The client of the submitted stage has left the user table. *)
Definition clientless : World :=
  set_db {| users := [Sample.root];
            projects := projects (db Sample.submitted);
            paymentStages := paymentStages (db Sample.submitted);
            budgetNegotiations := budgetNegotiations (db Sample.submitted);
            notifications := notifications (db Sample.submitted);
            projectTimeline := projectTimeline (db Sample.submitted) |}
         Sample.submitted.

(** A negotiation whose project is gone. *)
Definition stray : BudgetNegotiation.t :=
  BudgetNegotiation.mk 2 8 1 "500" "400" None "pending".

Definition orphaned : World :=
  set_db {| users := users (db Sample.negotiating);
            projects := projects (db Sample.negotiating);
            paymentStages := paymentStages (db Sample.negotiating);
            budgetNegotiations := [Sample.proposal; stray];
            notifications := notifications (db Sample.negotiating);
            projectTimeline := projectTimeline (db Sample.negotiating) |}
         Sample.negotiating.

(** A caller who is neither an administrator nor a client. *)
Definition as_partner : AuthUser.t := AuthUser.mk 2 "partner" "Socio".

(** A notifier to run the proposals with: it writes one notification row
    and swallows a failure of that write. *)
Definition notify (userId : Z) (projectName price message : string)
  (isCounterOffer : bool) : Procedure :=
  fun o w =>
    match try_catch
            (storage.createNotification
               {| InsertNotification.userId := userId;
                  InsertNotification.title :=
                    if isCounterOffer then "Contraoferta recibida"
                    else "Nueva negociación de presupuesto";
                  InsertNotification.message := projectName +:+ ": " +:+ price;
                  InsertNotification.type := "info" |})
            (fun _ => mret tt) o w with
    | (Thrown error, w') => (Some error, w')
    | (_, w') => (None, w')
    end.

(** A store to run the deletions with: it removes the user with the given
    id and refuses an id that is not in the table. *)
Definition deleteUser (userId : Z) : Procedure :=
  fun _ w =>
    match find_by_id User.id userId (users (db w)) with
    | None => (Some "Usuario no encontrado", w)
    | Some _ =>
        (None,
         set_db {| users := List.filter (fun u => negb (User.id u =? userId))
                                        (users (db w));
                   projects := projects (db w);
                   paymentStages := paymentStages (db w);
                   budgetNegotiations := budgetNegotiations (db w);
                   notifications := notifications (db w);
                   projectTimeline := projectTimeline (db w) |} w)
    end.

(** It removes the project with the given id. *)
Definition deleteProject (projectId : Z) : Procedure :=
  fun _ w =>
    (None,
     set_db {| users := users (db w);
               projects := List.filter (fun p => negb (Project.id p =? projectId))
                                       (projects (db w));
               paymentStages := paymentStages (db w);
               budgetNegotiations := budgetNegotiations (db w);
               notifications := notifications (db w);
               projectTimeline := projectTimeline (db w) |} w).

End Corner.

(** Unfolds a handler down to the primitive effects; the write of a
    notification is kept folded, it is dealt with by a lemma of its own. *)
Ltac unfold_handler :=
  unfold route, requireRole, respond, throw, try_catch, when, gets, modify, env,
    write_console, error_detail, select_paymentStage, select_budgetNegotiation,
    storage.getProject, storage.getUserById, storage.getUsersByRole,
    storage.getPaymentStages, storage.updatePaymentStage,
    storage.updateProject, storage.updateBudgetNegotiation,
    storage.createBudgetNegotiation, send, now,
    stage_of, project_of, user_of, negotiation_of in *;
  unfold mbind, mret, Handler_bind, Handler_ret in *.

(** * Properties *)

(** ** The built-ins on examples *)

Example parseFloat_price : Js.parseFloat "1000.00" = 1000%float.
Proof. vm_compute. reflexivity. Qed.

Example parseFloat_prefix : Js.parseFloat " 12.5e1 USD" = 125%float.
Proof. vm_compute. reflexivity. Qed.

Example parseFloat_not_a_number : Js.parseFloat "gratis" = PrimFloat.nan.
Proof. vm_compute. reflexivity. Qed.

Example split_mime : Js.split_on "/" "image/png" = ["image"; "png"].
Proof. reflexivity. Qed.


(** ** Tables *)

Section TableFacts.
Context {A : Type} (key : A -> Z).

Lemma find_by_id_key i rows r :
  find_by_id key i rows = Some r -> key r = i.
Proof.
  unfold find_by_id. intros H. apply List.find_some in H as [_ H]. lia.
Qed.

Lemma find_by_id_In i rows r :
  find_by_id key i rows = Some r -> In r rows.
Proof.
  unfold find_by_id. intros H. now apply List.find_some in H.
Qed.

Lemma find_update_same i f rows :
  (forall r, key (f r) = key r) ->
  find_by_id key i (update_by_id key i f rows) = option_map f (find_by_id key i rows).
Proof.
  intros Hkey. unfold find_by_id, update_by_id.
  induction rows as [|r rows IH]; [reflexivity|]. cbn [List.map List.find].
  destruct (key r =? i) eqn:E.
  - rewrite Hkey, E. reflexivity.
  - rewrite E. exact IH.
Qed.

Lemma find_update_other i j f rows :
  (forall r, key (f r) = key r) -> i <> j ->
  find_by_id key j (update_by_id key i f rows) = find_by_id key j rows.
Proof.
  intros Hkey Hne. unfold find_by_id, update_by_id.
  induction rows as [|r rows IH]; [reflexivity|]. cbn [List.map List.find].
  destruct (key r =? i) eqn:E.
  - rewrite Hkey. apply Z.eqb_eq in E.
    destruct (key r =? j) eqn:E'; [apply Z.eqb_eq in E'; congruence | exact IH].
  - destruct (key r =? j); [reflexivity | exact IH].
Qed.

Lemma update_by_id_absent i f rows :
  find_by_id key i rows = None -> update_by_id key i f rows = rows.
Proof.
  unfold find_by_id, update_by_id.
  induction rows as [|r rows IH]; [reflexivity|]. cbn [List.map List.find].
  destruct (key r =? i); [discriminate|]. intros H. now rewrite IH.
Qed.

Lemma next_id_above rows r : In r rows -> key r < next_id key rows.
Proof.
  unfold next_id. induction rows as [|x rows IH]; [contradiction|].
  cbn [List.fold_right]. intros [->|H]; [lia|]. specialize (IH H). lia.
Qed.

Lemma find_by_id_next rows : find_by_id key (next_id key rows) rows = None.
Proof.
  destruct (find_by_id key (next_id key rows) rows) as [r|] eqn:E; [|reflexivity].
  pose proof (find_by_id_key _ _ _ E). apply find_by_id_In in E.
  apply next_id_above in E. lia.
Qed.

Lemma find_by_id_app i rows more :
  find_by_id key i (rows ++ more) =
  match find_by_id key i rows with
  | Some r => Some r
  | None => find_by_id key i more
  end.
Proof.
  unfold find_by_id. induction rows as [|r rows IH]; [reflexivity|].
  cbn [app List.find]. destruct (key r =? i); [reflexivity | exact IH].
Qed.
End TableFacts.

Lemma apply_update_id u s :
  PaymentStage.id (PaymentStageUpdate.apply u s) = PaymentStage.id s.
Proof. reflexivity. Qed.

(** ** C1: approval and rejection need a stage that awaits verification *)

(** C1. A reply of success from the approve or the reject handler means that
    the stage existed with status exactly [pending_verification]; and for an
    administrator calling either handler on a stage in any other status the
    reply is the invalid-state error (400) while the database and the outbox
    stay exactly as they were. *)
Theorem approve_reject_only_when_pending_verification :
  forall (o : Oracle) (w : World) (user : AuthUser.t) (stageId : Z) (reason : string),
    (Successful (fst (post_approve_payment user stageId o w)) ->
     exists stage, stage_of w stageId = Some stage /\
                   PaymentStage.status stage = "pending_verification") /\
    (Successful (fst (post_reject_payment user stageId reason o w)) ->
     exists stage, stage_of w stageId = Some stage /\
                   PaymentStage.status stage = "pending_verification") /\
    (forall stage,
        AuthUser.role user = "admin" ->
        stage_of w stageId = Some stage ->
        PaymentStage.status stage <> "pending_verification" ->
        let (r1, w1) := post_approve_payment user stageId o w in
        let (r2, w2) := post_reject_payment user stageId reason o w in
        InvalidState r1 /\ db w1 = db w /\ outbox w1 = outbox w /\
        InvalidState r2 /\ db w2 = db w /\ outbox w2 = outbox w).
Proof.
  intros o w user stageId reason. split; [|split].
  - unfold post_approve_payment. unfold_handler. cbn.
    destruct (String.eqb (AuthUser.role user) "admin"); cbn; [|discriminate].
    destruct (find_by_id PaymentStage.id stageId (paymentStages (db w))) as [stage|] eqn:Es;
      cbn; [|discriminate].
    destruct (String.eqb (PaymentStage.status stage) "pending_verification") eqn:Est;
      cbn; [|discriminate].
    intros _. exists stage. split; [reflexivity|]. now apply String.eqb_eq.
  - unfold post_reject_payment. unfold_handler. cbn.
    destruct (String.eqb (AuthUser.role user) "admin"); cbn; [|discriminate].
    destruct (find_by_id PaymentStage.id stageId (paymentStages (db w))) as [stage|] eqn:Es;
      cbn; [|discriminate].
    destruct (String.eqb (PaymentStage.status stage) "pending_verification") eqn:Est;
      cbn; [|discriminate].
    intros _. exists stage. split; [reflexivity|]. now apply String.eqb_eq.
  - intros stage Hrole Hstage Hstatus.
    apply String.eqb_neq in Hstatus.
    unfold post_approve_payment, post_reject_payment. unfold_handler. cbn.
    rewrite Hrole. cbn. rewrite Hstage. cbn. rewrite Hstatus. cbn.
    repeat split; reflexivity.
Qed.

(** ** Statements that leave the database alone *)

Lemma quiet_mret : quiet (mret tt).
Proof. intros o w. exists w. split; reflexivity. Qed.

Lemma quiet_when b m : quiet m -> quiet (when b m).
Proof. intros H. destruct b; [exact H | apply quiet_mret]. Qed.

Lemma quiet_bind m1 m2 : quiet m1 -> quiet m2 -> quiet (m1 ;; m2).
Proof.
  intros H1 H2 o w. destruct (H1 o w) as (w1 & E1 & D1).
  destruct (H2 o w1) as (w2 & E2 & D2).
  exists w2. unfold mbind, Handler_bind. rewrite E1, E2. split; congruence.
Qed.

Lemma quiet_for_each {A} (xs : list A) (f : A -> Handler unit) :
  (forall x, quiet (f x)) -> quiet (for_each xs f).
Proof.
  intros Hf. induction xs as [|x xs IH]; [apply quiet_mret|].
  cbn [for_each]. apply quiet_bind; [apply Hf | exact IH].
Qed.

Lemma quiet_write_console line : quiet (write_console line).
Proof. intros o w. eexists. split; reflexivity. Qed.

(** A mail in a [try] whose [catch] only writes to the console. *)
Lemma quiet_try_send mail (after : Handler unit) (on_error : string -> LogLine) :
  quiet after ->
  quiet (try_catch (send mail ;; after) (fun e => write_console (on_error e))).
Proof.
  intros Hafter o w. unfold try_catch, send, write_console, mbind, Handler_bind.
  destruct (sendEmail_fails o (mail_calls w)).
  - eexists. split; reflexivity.
  - match goal with |- context [after o ?w1] => destruct (Hafter o w1) as (w2 & E & D) end.
    rewrite E. exists w2. split; [reflexivity | exact D].
Qed.

(** ** C3: the stages a project is given *)

Lemma create_stages_spec project projectId stages :
  forall createdStages availableStages o w,
  exists created available w',
    create_stages project projectId stages createdStages availableStages o w
    = (Value (createdStages ++ created, available), w') /\
    Forall2 (created_from project projectId) stages created /\
    paymentStages (db w') = paymentStages (db w) ++ created /\
    users (db w') = users (db w) /\
    projects (db w') = projects (db w) /\
    budgetNegotiations (db w') = budgetNegotiations (db w) /\
    notifications (db w') = notifications (db w) /\
    outbox w' = outbox w.
Proof.
  induction stages as [|stage rest IH]; intros createdStages availableStages o w.
  - exists [], availableStages, w. cbn. rewrite app_nil_r.
    repeat split; try reflexivity. constructor. now rewrite app_nil_r.
  - cbn [create_stages]. unfold storage.createPaymentStage, gets, modify.
    unfold mbind, mret, Handler_bind, Handler_ret. cbn.
    match goal with
    | |- context [create_stages _ _ rest ?c ?a o ?w1] =>
        destruct (IH c a o w1) as (created & available & w' & E & F & S & U & P & B & N & O)
    end.
    rewrite E. cbn in S, U, P, B, N, O.
    eexists (_ :: created), available, w'.
    split; [rewrite <- app_assoc; reflexivity|].
    split.
    { constructor; [|exact F]. unfold created_from. cbn.
      repeat split; try reflexivity.
      - intros ->. reflexivity.
      - intros H. destruct (StageSpec.requiredProgress stage =? 0) eqn:E0;
          [apply Z.eqb_eq in E0; lia | reflexivity]. }
    rewrite S, <- app_assoc. repeat split; assumption.
Qed.

(** Seeding the timeline adds timeline rows and nothing else. *)
Lemma seed_timeline_run projectId (items : list (string * string)) :
  forall o w, exists w',
    for_each items (fun timelineItem =>
      storage.createProjectTimeline projectId
        (fst timelineItem) (snd timelineItem) "pending" None) o w
    = (Value tt, w') /\
    paymentStages (db w') = paymentStages (db w).
Proof.
  induction items as [|item rest IH]; intros o w.
  - exists w. split; reflexivity.
  - cbn [for_each]. unfold mbind, Handler_bind.
    unfold storage.createProjectTimeline at 1. unfold modify.
    match goal with |- context [for_each rest ?f o ?w1] =>
      destruct (IH o w1) as (w' & E & HS) end.
    exists w'. split; [exact E | exact HS].
Qed.

(** C3. For every list of stage entries posted for an existing project, the
    reply lists one created stage per entry, in order, each with the amount
    price * percentage / 100 (in the arithmetic of the language), status
    [available] for a required progress of 0 and [pending] for a positive
    one, and these rows are what the stage table gains; for a price of 1000
    and two entries of 50 percent at thresholds 0 and 50 both amounts are 500
    and the statuses are [available] and [pending]. *)
Theorem created_stages_amount_and_status :
  forall (o : Oracle) (w : World) (projectId : Z) (stages : list StageSpec.t)
         (project : Project.t),
    project_of w projectId = Some project ->
    let (r, w') := post_payment_stages projectId stages o w in
    exists created,
      r = mkResponse 200 (json_stages created) /\
      paymentStages (db w') = paymentStages (db w) ++ created /\
      Forall2 (created_from project projectId) stages created /\
      (forall name1 name2,
          Project.price project = "1000" ->
          stages = [StageSpec.mk name1 50 0; StageSpec.mk name2 50 50] ->
          exists s1 s2,
            created = [s1; s2] /\
            PaymentStage.amount s1 = 500%float /\
            PaymentStage.status s1 = "available" /\
            PaymentStage.amount s2 = 500%float /\
            PaymentStage.status s2 = "pending").
Proof.
  intros o w projectId stages project Hproject.
  unfold post_payment_stages, route, storage.getProject, gets.
  unfold mbind at 1. unfold Handler_bind at 1. unfold project_of in Hproject.
  rewrite Hproject.
  unfold mbind at 1. unfold Handler_bind at 1.
  destruct (create_stages_spec project projectId stages [] [] o w)
    as (created & available & w1 & E & F & S & U & P & B & N & O).
  rewrite E. cbn [app].
  set (mails := when _ _).
  assert (Hmails : quiet mails).
  { subst mails. apply quiet_when. intros o' w'.
    unfold storage.getUserById, gets, mbind, Handler_bind.
    destruct (find_by_id User.id (Project.clientId project) (users (db w'))) as [client|].
    - apply quiet_when. apply quiet_for_each. intros stage.
      apply quiet_try_send. apply quiet_write_console.
    - apply quiet_mret. }
  unfold mbind at 1. unfold Handler_bind at 1.
  destruct (Hmails o w1) as (w2 & E2 & D2). rewrite E2.
  unfold storage.hasProjectTimeline, gets.
  unfold mbind at 1. unfold Handler_bind at 1.
  set (timeline := when _ _).
  assert (Htimeline : forall o' w', exists w'',
             timeline o' w' = (Value tt, w'') /\
             paymentStages (db w'') = paymentStages (db w')).
  { subst timeline. intros o' w'. destruct (negb _); cbn [when].
    - apply seed_timeline_run.
    - exists w'. split; reflexivity. }
  unfold mbind at 1. unfold Handler_bind at 1.
  destruct (Htimeline o w2) as (w3 & E3 & S3). rewrite E3.
  unfold mret, Handler_ret.
  exists created. split; [reflexivity|].
  split; [rewrite S3, D2; exact S|]. split; [exact F|].
  intros name1 name2 Hprice ->.
  inversion F as [|? s1 ? tl1 C1 F1]; subst.
  inversion F1 as [|? s2 ? tl2 C2 F2]; subst.
  inversion F2; subst.
  exists s1, s2. split; [reflexivity|].
  destruct C1 as (_ & _ & _ & _ & A1 & Av1 & _).
  destruct C2 as (_ & _ & _ & _ & A2 & _ & Pe2).
  rewrite Hprice in A1, A2. cbn in A1, A2, Av1, Pe2.
  repeat split.
  - rewrite A1. vm_compute. reflexivity.
  - apply Av1. reflexivity.
  - rewrite A2. vm_compute. reflexivity.
  - apply Pe2. lia.
Qed.

(** ** Writing notifications *)

Lemma createNotification_run data o w :
  storage.createNotification data o w =
  if createNotification_fails o (notification_writes w)
  then (Thrown "createNotification failed",
        {| db := db w; outbox := outbox w; console := console w;
           clock_reads := clock_reads w;
           notification_writes := S (notification_writes w);
           mail_calls := mail_calls w |})
  else (Value tt,
        {| db :=
             {| users := users (db w); projects := projects (db w);
                paymentStages := paymentStages (db w);
                budgetNegotiations := budgetNegotiations (db w);
                notifications :=
                  notifications (db w) ++
                  [ {| Notification.id := next_id Notification.id (notifications (db w));
                       Notification.userId := InsertNotification.userId data;
                       Notification.title := InsertNotification.title data;
                       Notification.message := InsertNotification.message data;
                       Notification.type := InsertNotification.type data;
                       Notification.isRead := false |} ];
                projectTimeline := projectTimeline (db w) |};
           outbox := outbox w; console := console w;
           clock_reads := clock_reads w;
           notification_writes := S (notification_writes w);
           mail_calls := mail_calls w |}).
Proof.
  unfold storage.createNotification.
  destruct (createNotification_fails o (notification_writes w)); reflexivity.
Qed.

(** The loop that writes one notification per administrator either runs to
    its end or throws; in both cases only the notification table moved. *)
Lemma notify_admins_run (admins : list User.t) (note : User.t -> InsertNotification.t) :
  forall o w, exists result w',
    for_each admins (fun admin => storage.createNotification (note admin)) o w
    = (result, w') /\
    (result = Value tt \/ exists e, result = Thrown e) /\
    ((forall n, createNotification_fails o n = false) -> result = Value tt) /\
    paymentStages (db w') = paymentStages (db w) /\
    users (db w') = users (db w) /\
    projects (db w') = projects (db w) /\
    outbox w' = outbox w /\ mail_calls w' = mail_calls w.
Proof.
  induction admins as [|admin rest IH]; intros o w.
  - exists (Value tt), w. cbn. repeat split; auto.
  - cbn [for_each]. unfold mbind, Handler_bind. rewrite createNotification_run.
    destruct (createNotification_fails o (notification_writes w)) eqn:F.
    + eexists _, _. split; [reflexivity|]. cbn.
      repeat split; eauto. intros H. rewrite H in F. discriminate.
    + match goal with |- context [for_each rest ?f o ?w1] =>
        destruct (IH o w1) as (result & w' & E & R & G & HS & HU & HP & HO & HM) end.
      exists result, w'. cbn in HS, HU, HP, HO, HM. repeat split; assumption.
Qed.

(** ** Submission, step by step *)

Lemma build_proofFileUrl_run stageId proofFile proofFileInfo o w :
  build_proofFileUrl stageId proofFile proofFileInfo o w =
  (Value (reference_name stageId (clock o (clock_reads w)) proofFile proofFileInfo),
   if proof_given proofFile proofFileInfo then tick w else w).
Proof. destruct proofFile, proofFileInfo; reflexivity. Qed.

Lemma find_updated_stage w stageId stage u :
  stage_of w stageId = Some stage ->
  find_by_id PaymentStage.id stageId
    (update_by_id PaymentStage.id stageId (PaymentStageUpdate.apply u)
       (paymentStages (db w)))
  = Some (PaymentStageUpdate.apply u stage).
Proof.
  intros Hs. rewrite find_update_same by reflexivity.
  unfold stage_of in Hs. now rewrite Hs.
Qed.

(** What a submission does once the stage, its project and the client are
    found: the stage table, the reply, and the console when a mail fails. *)
Lemma confirm_payment_run :
  forall (o : Oracle) (w : World) (user : AuthUser.t) (stageId : Z)
         (paymentMethod : string) (field : ProofFileInfoField)
         (proofFile : option UploadedFile.t) stage project client,
  field <> field_unparsable ->
  stage_of w stageId = Some stage ->
  project_of w (PaymentStage.projectId stage) = Some project ->
  user_of w (Project.clientId project) = Some client ->
  let update :=
    submission_update (AuthUser.id user) stageId
      (clock o (clock_reads w))
      (clock o (if proof_given proofFile (info_of field)
                then S (clock_reads w) else clock_reads w))
      paymentMethod proofFile (info_of field) in
  let (r, w') := post_confirm_payment user stageId paymentMethod field proofFile o w in
  paymentStages (db w') =
    update_by_id PaymentStage.id stageId (PaymentStageUpdate.apply update)
                 (paymentStages (db w)) /\
  (Successful r \/ InternalError r) /\
  ((forall n, createNotification_fails o n = false) ->
   r = mkResponse 200
         (json_stage (Some (PaymentStageUpdate.apply update stage)) submission_message)) /\
  ((forall n, createNotification_fails o n = false) ->
   sendEmail_fails o (mail_calls w) = true \/
   sendEmail_fails o (S (mail_calls w)) = true ->
   In mail_error_line (console w')).
Proof.
  intros o w user stageId paymentMethod field proofFile stage project client Hf Hs Hp Hc.
  pose proof (find_updated_stage w stageId stage) as Hfind.
  specialize (fun u => Hfind u Hs).
  unfold post_confirm_payment. unfold_handler.
  destruct field as [| |info]; [|contradiction|];
    cbn; rewrite Hs; cbn; rewrite Hp; cbn; rewrite Hc; cbn;
    rewrite build_proofFileUrl_run; cbn.
  all: destruct proofFile as [file|]; cbn.
  all: rewrite Hfind.
  all: match goal with
       | |- context [for_each ?l (fun admin => storage.createNotification (@?note admin)) ?oo ?w1] =>
           destruct (notify_admins_run l note oo w1)
             as (result & w2 & E & R & G & HS & HU & HP & HO & HM)
       end.
  all: rewrite E; cbn in HS, HU, HP, HO, HM.
  all: destruct R as [-> | [e ->]]; cbn.
  all: try (split; [exact HS|]; split; [right; reflexivity|];
            split; intros Hn; specialize (G Hn); discriminate).
  all: rewrite HM.
  all: destruct (sendEmail_fails o (mail_calls w)) eqn:F1; cbn;
       [| destruct (sendEmail_fails o (S (mail_calls w))) eqn:F2; cbn ].
  all: (split; [exact HS|]; split; [left; reflexivity|]; split; [reflexivity|]).
  all: intros _ Hfail.
  all: try (apply in_or_app; right; left; reflexivity).
  all: destruct Hfail; discriminate.
Qed.

(** ** Approval and rejection, step by step *)

(** What an approval does once its guards are passed: the stage table
    whatever happens to the notification, then the reply and the
    notification table according to whether that write fails. *)
Lemma approve_payment_run :
  forall (o : Oracle) (w : World) (user : AuthUser.t) (stageId : Z)
         stage project client,
  AuthUser.role user = "admin" ->
  stage_of w stageId = Some stage ->
  PaymentStage.status stage = "pending_verification" ->
  project_of w (PaymentStage.projectId stage) = Some project ->
  user_of w (Project.clientId project) = Some client ->
  let update :=
    approval_update (clock o (clock_reads w)) (AuthUser.id user)
                    (clock o (S (clock_reads w))) in
  let (r, w') := post_approve_payment user stageId o w in
  paymentStages (db w') =
    update_by_id PaymentStage.id stageId (PaymentStageUpdate.apply update)
                 (paymentStages (db w)) /\
  outbox w' = outbox w /\
  if createNotification_fails o (notification_writes w)
  then InternalError r /\ notifications (db w') = notifications (db w)
  else r = mkResponse 200
             (json_stage (Some (PaymentStageUpdate.apply update stage))
                         "Pago aprobado exitosamente") /\
       notifications (db w') =
         notifications (db w) ++
         [notification_row (next_id Notification.id (notifications (db w)))
                           (approval_note project stage)].
Proof.
  intros o w user stageId stage project client Hrole Hs Hst Hp Hc.
  pose proof (find_updated_stage w stageId stage) as Hfind.
  specialize (fun u => Hfind u Hs).
  apply String.eqb_eq in Hst.
  unfold post_approve_payment. unfold_handler.
  cbn. rewrite Hrole. cbn. rewrite Hs. cbn. rewrite Hst. cbn.
  rewrite Hp. cbn. rewrite Hc. cbn.
  rewrite Hfind, createNotification_run. cbn.
  destruct (createNotification_fails o (notification_writes w)); cbn;
    repeat split; reflexivity.
Qed.

Lemma reject_payment_run :
  forall (o : Oracle) (w : World) (user : AuthUser.t) (stageId : Z) (reason : string)
         stage project,
  AuthUser.role user = "admin" ->
  stage_of w stageId = Some stage ->
  PaymentStage.status stage = "pending_verification" ->
  project_of w (PaymentStage.projectId stage) = Some project ->
  let update :=
    rejection_update (PaymentStage.paymentData stage) (AuthUser.id user)
                     (clock o (clock_reads w)) reason in
  let (r, w') := post_reject_payment user stageId reason o w in
  paymentStages (db w') =
    update_by_id PaymentStage.id stageId (PaymentStageUpdate.apply update)
                 (paymentStages (db w)) /\
  outbox w' = outbox w /\
  if createNotification_fails o (notification_writes w)
  then InternalError r /\ notifications (db w') = notifications (db w)
  else r = mkResponse 200
             (json_stage (Some (PaymentStageUpdate.apply update stage)) "Pago rechazado") /\
       notifications (db w') =
         notifications (db w) ++
         [notification_row (next_id Notification.id (notifications (db w)))
                           (rejection_note project stage reason)].
Proof.
  intros o w user stageId reason stage project Hrole Hs Hst Hp.
  pose proof (find_updated_stage w stageId stage) as Hfind.
  specialize (fun u => Hfind u Hs).
  apply String.eqb_eq in Hst.
  unfold post_reject_payment. unfold_handler.
  cbn. rewrite Hrole. cbn. rewrite Hs. cbn. rewrite Hst. cbn.
  rewrite Hp. cbn.
  rewrite Hfind, createNotification_run. cbn.
  destruct (createNotification_fails o (notification_writes w)); cbn;
    repeat split; reflexivity.
Qed.

(** ** Texts and payment data *)

Lemma append_assoc (a b c : string) : (a +:+ b) +:+ c = a +:+ b +:+ c.
Proof.
  induction a as [|ch a IH]; [reflexivity|].
  change (String ch ((a +:+ b) +:+ c) = String ch (a +:+ b +:+ c)). now rewrite IH.
Qed.

Lemma rejection_message_contains stageName reason :
  contains (rejection_message stageName reason) reason.
Proof.
  unfold contains, rejection_message.
  eexists ("Tu comprobante de pago para " +:+ Js.dquote +:+ stageName +:+ Js.dquote
           +:+ " fue rechazado. Motivo: "), _.
  rewrite !append_assoc. reflexivity.
Qed.


Lemma rejection_data_lookup previous rejectedBy rejectedAt reason :
  let data := rejection_data previous rejectedBy rejectedAt reason in
  data !! "rejectedBy" = Some (JNumber rejectedBy) /\
  data !! "rejectedAt" = Some (JDate rejectedAt) /\
  data !! "rejectionReason" = Some (JString reason) /\
  (forall key, ~ In key rejection_keys -> data !! key = default ∅ previous !! key) /\
  (forall key, is_Some (default ∅ previous !! key) -> is_Some (data !! key)).
Proof.
  unfold rejection_data, rejection_keys. repeat split; try by simplify_map_eq.
  - intros key Hkey. cbn in Hkey.
    rewrite !lookup_insert_ne by (intros E; tauto). reflexivity.
  - intros key Hsome.
    destruct (decide (key = "rejectionReason")) as [->|]; [by simplify_map_eq|].
    destruct (decide (key = "rejectedAt")) as [->|]; [by simplify_map_eq|].
    destruct (decide (key = "rejectedBy")) as [->|]; [by simplify_map_eq|].
    by rewrite !lookup_insert_ne.
Qed.

(** The payment data of a submission has none of the keys of a rejection. *)
Lemma confirmation_data_no_rejection_key confirmedBy confirmedAt paymentMethod
  proofFile info key :
  In key rejection_keys ->
  confirmation_data confirmedBy confirmedAt paymentMethod proofFile info !! key = None.
Proof.
  unfold rejection_keys, confirmation_data. cbn [In].
  intros [<-|[<-|[<-|[]]]]; destruct proofFile; by simplify_map_eq.
Qed.

(** ** C2: submitting a proof of payment *)




(** ** C5: approval *)

(** C5. When an administrator approves a stage that awaits verification, and
    the notification can be written, the reply is a success, the stage is
    [paid] with [paidAt], [approvedBy] and [approvedAt] recorded, and the
    notification table gains exactly one row: the approval notice, addressed
    to the client of the stage's project; no mail is sent. *)
Theorem approval_marks_paid_and_notifies_client_once :
  forall (o : Oracle) (w : World) (user : AuthUser.t) (stageId : Z)
         (stage : PaymentStage.t) (project : Project.t) (client : User.t),
    AuthUser.role user = "admin" ->
    stage_of w stageId = Some stage ->
    PaymentStage.status stage = "pending_verification" ->
    project_of w (PaymentStage.projectId stage) = Some project ->
    user_of w (Project.clientId project) = Some client ->
    createNotification_fails o (notification_writes w) = false ->
    let (r, w') := post_approve_payment user stageId o w in
    Successful r /\
    (exists stage',
        stage_of w' stageId = Some stage' /\
        PaymentStage.status stage' = "paid" /\
        PaymentStage.paidAt stage' = Some (clock o (clock_reads w)) /\
        PaymentStage.approvedBy stage' = Some (AuthUser.id user) /\
        PaymentStage.approvedAt stage' = Some (clock o (S (clock_reads w)))) /\
    (exists notice,
        notifications (db w') = notifications (db w) ++ [notice] /\
        Notification.userId notice = Project.clientId project /\
        Notification.userId notice = User.id client /\
        Notification.title notice = "✅ Pago Aprobado" /\
        Notification.type notice = "success") /\
    outbox w' = outbox w.
Proof.
  intros o w user stageId stage project client Hrole Hs Hst Hp Hc Hok.
  pose proof (approve_payment_run o w user stageId stage project client
                Hrole Hs Hst Hp Hc) as H.
  destruct (post_approve_payment user stageId o w) as [r w'].
  cbn zeta in H. rewrite Hok in H. destruct H as (HS & HO & -> & HN).
  split; [reflexivity|]. split; [|split; [|exact HO]].
  - eexists. unfold stage_of at 1. rewrite HS.
    split; [apply (find_updated_stage w stageId stage _ Hs)|].
    repeat split; reflexivity.
  - eexists. split; [exact HN|]. cbn. repeat split; try reflexivity.
    symmetry. apply (find_by_id_key User.id _ _ _ Hc).
Qed.

(** The administrator approves the receipt of the sample project: the stage
    is paid and the only notification for the client is the approval. *)
Lemma approval_marks_paid_and_notifies_client_once_witness :
  AuthUser.role Sample.as_admin = "admin" /\
  stage_of Sample.submitted 1 = Some (Sample.stage 1 Sample.submitted) /\
  PaymentStage.status (Sample.stage 1 Sample.submitted) = "pending_verification" /\
  createNotification_fails Sample.oracle (notification_writes Sample.submitted) = false /\
  let (r, w') := post_approve_payment Sample.as_admin 1 Sample.oracle Sample.submitted in
  Successful r /\
  (exists stage',
      stage_of w' 1 = Some stage' /\ PaymentStage.status stage' = "paid") /\
  (exists notice,
      notifications (db w') = notifications (db Sample.submitted) ++ [notice] /\
      Notification.userId notice = 1).
Proof.
  assert (Hrole : AuthUser.role Sample.as_admin = "admin") by reflexivity.
  assert (Hs : stage_of Sample.submitted 1 = Some (Sample.stage 1 Sample.submitted))
    by (vm_compute; reflexivity).
  assert (Hst : PaymentStage.status (Sample.stage 1 Sample.submitted)
                = "pending_verification") by (vm_compute; reflexivity).
  assert (Hp : project_of Sample.submitted
                 (PaymentStage.projectId (Sample.stage 1 Sample.submitted))
               = Some Sample.shop) by (vm_compute; reflexivity).
  assert (Hc : user_of Sample.submitted (Project.clientId Sample.shop) = Some Sample.ana)
    by (vm_compute; reflexivity).
  assert (Hok : createNotification_fails Sample.oracle
                  (notification_writes Sample.submitted) = false) by reflexivity.
  split; [exact Hrole|]. split; [exact Hs|]. split; [exact Hst|]. split; [exact Hok|].
  pose proof (approval_marks_paid_and_notifies_client_once Sample.oracle
                Sample.submitted Sample.as_admin 1 _ _ _ Hrole Hs Hst Hp Hc Hok) as T.
  destruct (post_approve_payment Sample.as_admin 1 Sample.oracle Sample.submitted)
    as [r w'].
  destruct T as (T1 & (stage' & F & St & _) & (notice & N & U & _) & _).
  split; [exact T1|]. split; [exists stage'; auto | exists notice; auto].
Defined.

(** ** C4: rejection *)

(** C4. When an administrator rejects a stage that awaits verification, the
    stage goes back to [available], its payment method and proof reference
    are cleared, and its payment data keeps every key it had, with the same
    value for every key other than the three that a rejection sets: the
    rejecting administrator's id, the instant and the reason (the data a
    submission stores has none of these three, so it is kept whole); and, when the
    notification can be written, the reply is a success and the notification
    table gains one row for the project's client whose message contains the
    reason, letter for letter. *)
Theorem rejection_returns_stage_to_available :
  forall (o : Oracle) (w : World) (user : AuthUser.t) (stageId : Z) (reason : string)
         (stage : PaymentStage.t) (project : Project.t),
    AuthUser.role user = "admin" ->
    stage_of w stageId = Some stage ->
    PaymentStage.status stage = "pending_verification" ->
    project_of w (PaymentStage.projectId stage) = Some project ->
    let (r, w') := post_reject_payment user stageId reason o w in
    (exists stage' data,
        stage_of w' stageId = Some stage' /\
        PaymentStage.status stage' = "available" /\
        PaymentStage.paymentMethod stage' = None /\
        PaymentStage.proofFileUrl stage' = None /\
        PaymentStage.paymentData stage' = Some data /\
        (forall key, ~ In key rejection_keys ->
                     data !! key = default ∅ (PaymentStage.paymentData stage) !! key) /\
        (forall key, is_Some (default ∅ (PaymentStage.paymentData stage) !! key) ->
                     is_Some (data !! key)) /\
        (forall confirmedBy confirmedAt paymentMethod proofFile info,
            PaymentStage.paymentData stage
            = Some (confirmation_data confirmedBy confirmedAt paymentMethod
                      proofFile info) ->
            forall key value,
              default ∅ (PaymentStage.paymentData stage) !! key = Some value ->
              data !! key = Some value) /\
        data !! "rejectedBy" = Some (JNumber (AuthUser.id user)) /\
        data !! "rejectedAt" = Some (JDate (clock o (clock_reads w))) /\
        data !! "rejectionReason" = Some (JString reason)) /\
    (createNotification_fails o (notification_writes w) = false ->
     Successful r /\
     exists notice,
       notifications (db w') = notifications (db w) ++ [notice] /\
       Notification.userId notice = Project.clientId project /\
       contains (Notification.message notice) reason).
Proof.
  intros o w user stageId reason stage project Hrole Hs Hst Hp.
  pose proof (reject_payment_run o w user stageId reason stage project
                Hrole Hs Hst Hp) as H.
  destruct (post_reject_payment user stageId reason o w) as [r w'].
  cbn zeta in H. destruct H as (HS & HO & H).
  split.
  - eexists _, _. unfold stage_of at 1. rewrite HS.
    split; [apply (find_updated_stage w stageId stage _ Hs)|].
    pose proof (rejection_data_lookup (PaymentStage.paymentData stage)
                  (AuthUser.id user) (clock o (clock_reads w)) reason)
      as (L1 & L2 & L3 & L4 & L5).
    cbn. repeat split; try reflexivity; try assumption.
    intros confirmedBy confirmedAt paymentMethod proofFile info Hdata key value Hkey.
    destruct (in_dec string_dec key rejection_keys) as [Hin|Hout].
    + rewrite Hdata in Hkey. cbn in Hkey.
      rewrite (confirmation_data_no_rejection_key _ _ _ _ _ _ Hin) in Hkey.
      discriminate.
    + rewrite (L4 key Hout). exact Hkey.
  - intros Hok. rewrite Hok in H. destruct H as (-> & HN).
    split; [reflexivity|]. eexists. split; [exact HN|].
    cbn. split; [reflexivity | apply rejection_message_contains].
Qed.

(** The administrator rejects the receipt of the sample project as
    unreadable. *)
Lemma rejection_returns_stage_to_available_witness :
  AuthUser.role Sample.as_admin = "admin" /\
  stage_of Sample.submitted 1 = Some (Sample.stage 1 Sample.submitted) /\
  PaymentStage.status (Sample.stage 1 Sample.submitted) = "pending_verification" /\
  createNotification_fails Sample.oracle (notification_writes Sample.submitted) = false /\
  let (r, w') := post_reject_payment Sample.as_admin 1 "comprobante ilegible"
                   Sample.oracle Sample.submitted in
  Successful r /\
  (exists stage',
      stage_of w' 1 = Some stage' /\ PaymentStage.status stage' = "available") /\
  (exists notice,
      notifications (db w') = notifications (db Sample.submitted) ++ [notice] /\
      contains (Notification.message notice) "comprobante ilegible").
Proof.
  assert (Hrole : AuthUser.role Sample.as_admin = "admin") by reflexivity.
  assert (Hs : stage_of Sample.submitted 1 = Some (Sample.stage 1 Sample.submitted))
    by (vm_compute; reflexivity).
  assert (Hst : PaymentStage.status (Sample.stage 1 Sample.submitted)
                = "pending_verification") by (vm_compute; reflexivity).
  assert (Hp : project_of Sample.submitted
                 (PaymentStage.projectId (Sample.stage 1 Sample.submitted))
               = Some Sample.shop) by (vm_compute; reflexivity).
  assert (Hok : createNotification_fails Sample.oracle
                  (notification_writes Sample.submitted) = false) by reflexivity.
  split; [exact Hrole|]. split; [exact Hs|]. split; [exact Hst|]. split; [exact Hok|].
  pose proof (rejection_returns_stage_to_available Sample.oracle Sample.submitted
                Sample.as_admin 1 "comprobante ilegible" _ _ Hrole Hs Hst Hp) as T.
  destruct (post_reject_payment Sample.as_admin 1 "comprobante ilegible"
              Sample.oracle Sample.submitted) as [r w'].
  destruct T as ((stage' & data & F & St & _) & T2).
  destruct (T2 Hok) as (Hr & notice & N & _ & C).
  split; [exact Hr|]. split; [exists stage'; auto | exists notice; auto].
Defined.

(** ** C9: failures of the notification channels *)

(** C9, as stated, fails: when the notification table refuses the write, the
    approval of the sample receipt is answered with an internal error, not
    with a success, although the stage has been marked paid. *)
Lemma notification_failure_fails_the_approval :
  ~ approval_succeeds_despite_notification_failure.
Proof.
  intros H.
  specialize (H Sample.no_notifications Sample.submitted Sample.as_admin 1
                (Sample.stage 1 Sample.submitted) Sample.shop Sample.ana).
  assert (Hcode : code (fst (post_approve_payment Sample.as_admin 1
                               Sample.no_notifications Sample.submitted)) = 500)
    by (vm_compute; reflexivity).
  unfold Successful in H. rewrite Hcode in H.
  assert (500 = 200) by (apply H; vm_compute; reflexivity).
  discriminate.
Qed.

(** The loop that writes one notification per administrator, by its
    outcome: it runs to its end exactly when none of its writes fails, and
    throws at the first one that does; only the notification table moves. *)
Lemma notify_admins_outcome (admins : list User.t)
  (note : User.t -> InsertNotification.t) :
  forall o w, exists result w',
    for_each admins (fun admin => storage.createNotification (note admin)) o w
    = (result, w') /\
    paymentStages (db w') = paymentStages (db w) /\
    outbox w' = outbox w /\ mail_calls w' = mail_calls w /\
    ((result = Value tt /\
      forall k, (k < length admins)%nat ->
                createNotification_fails o (notification_writes w + k)%nat = false) \/
     ((exists e, result = Thrown e) /\
      exists k, (k < length admins)%nat /\
                createNotification_fails o (notification_writes w + k)%nat = true)).
Proof.
  induction admins as [|admin rest IH]; intros o w.
  - exists (Value tt), w. cbn. repeat split; try reflexivity.
    left. split; [reflexivity|]. intros k Hk. lia.
  - cbn [for_each]. unfold mbind, Handler_bind. rewrite createNotification_run.
    destruct (createNotification_fails o (notification_writes w)) eqn:F.
    + eexists _, _. split; [reflexivity|]. cbn. repeat split.
      right. split; [eexists; reflexivity|].
      exists 0%nat. split; [cbn; lia|]. now rewrite Nat.add_0_r.
    + match goal with |- context [for_each rest ?f o ?w1] =>
        destruct (IH o w1) as (result & w' & E & HS & HO & HM & R) end.
      exists result, w'. cbn in HS, HO, HM, R.
      split; [exact E|]. split; [exact HS|]. split; [exact HO|]. split; [exact HM|].
      destruct R as [(-> & Hall) | (Hthrown & k & Hk & Hfail)].
      * left. split; [reflexivity|]. intros [|k] Hk.
        -- now rewrite Nat.add_0_r.
        -- rewrite Nat.add_succ_r. apply Hall. cbn in Hk. lia.
      * right. split; [exact Hthrown|]. exists (S k).
        split; [cbn; lia|]. rewrite Nat.add_succ_r. exact Hfail.
Qed.

(** The reply to a submission, by the writes of the notifications: an
    internal error when one of the writes for the administrators fails, a
    success when none does, whatever the mailer does. *)
Lemma confirm_payment_outcome :
  forall (o : Oracle) (w : World) (user : AuthUser.t) (stageId : Z)
         (paymentMethod : string) (field : ProofFileInfoField)
         (proofFile : option UploadedFile.t) stage project client,
  field <> field_unparsable ->
  stage_of w stageId = Some stage ->
  project_of w (PaymentStage.projectId stage) = Some project ->
  user_of w (Project.clientId project) = Some client ->
  let (r, w') := post_confirm_payment user stageId paymentMethod field proofFile o w in
  ((exists k, (k < length (admins_of w))%nat /\
              createNotification_fails o (notification_writes w + k)%nat = true) ->
   InternalError r) /\
  ((forall k, (k < length (admins_of w))%nat ->
              createNotification_fails o (notification_writes w + k)%nat = false) ->
   Successful r /\
   (sendEmail_fails o (mail_calls w) = true \/
    sendEmail_fails o (S (mail_calls w)) = true ->
    In mail_error_line (console w'))).
Proof.
  intros o w user stageId paymentMethod field proofFile stage project client Hf Hs Hp Hc.
  pose proof (find_updated_stage w stageId stage) as Hfind.
  specialize (fun u => Hfind u Hs).
  unfold admins_of.
  unfold post_confirm_payment. unfold_handler.
  destruct field as [| |info]; [|contradiction|];
    cbn; rewrite Hs; cbn; rewrite Hp; cbn; rewrite Hc; cbn;
    rewrite build_proofFileUrl_run; cbn.
  all: destruct proofFile as [file|]; cbn.
  all: rewrite Hfind.
  all: match goal with
       | |- context [for_each ?l (fun admin => storage.createNotification (@?note admin)) ?oo ?w1] =>
           destruct (notify_admins_outcome l note oo w1)
             as (result & w2 & E & HS & HO & HM & R)
       end.
  all: rewrite E; cbn in HS, HO, HM, R.
  all: destruct R as [(-> & Hall) | ((e & ->) & k & Hk & Hfail)]; cbn.
  all: try (split; [reflexivity|]; intros Hnone; specialize (Hnone k Hk); congruence).
  all: rewrite HM.
  all: destruct (sendEmail_fails o (mail_calls w)) eqn:F1; cbn;
       [| destruct (sendEmail_fails o (S (mail_calls w))) eqn:F2; cbn ].
  all: (split; [intros (k & Hk & Hfail); specialize (Hall k Hk); congruence|]).
  all: intros _; (split; [reflexivity|]); intros Hfail.
  all: try (apply in_or_app; right; left; reflexivity).
  all: destruct Hfail; discriminate.
Qed.

(** C9, amended. Once the guards of a payment-stage operation are passed,
    the new state of the stage is in the database at the end of the request
    whatever fails afterwards: nothing is rolled back.  A failure of the
    mailer during a submission is swallowed: if the notifications for the
    administrators are written the reply is a success, and the failure is on
    the console.  A failure to write a notification row is not swallowed, in
    none of the three operations: a submission answers with an internal
    error when one of the writes for the administrators fails and with a
    success when none does; approval and rejection answer with an internal
    error when their one write fails and with a success when it does not. *)
Theorem state_change_survives_notification_failures :
  forall (o : Oracle) (w : World) (admin submitter : AuthUser.t) (stageId : Z)
         (reason paymentMethod : string) (field : ProofFileInfoField)
         (proofFile : option UploadedFile.t)
         (stage : PaymentStage.t) (project : Project.t) (client : User.t),
    stage_of w stageId = Some stage ->
    project_of w (PaymentStage.projectId stage) = Some project ->
    user_of w (Project.clientId project) = Some client ->
    (field <> field_unparsable ->
     let (r, w') :=
       post_confirm_payment submitter stageId paymentMethod field proofFile o w in
     (exists stage', stage_of w' stageId = Some stage' /\
                     PaymentStage.status stage' = "pending_verification") /\
     (Successful r \/ InternalError r) /\
     ((exists k, (k < length (admins_of w))%nat /\
                 createNotification_fails o (notification_writes w + k)%nat = true) ->
      InternalError r) /\
     ((forall k, (k < length (admins_of w))%nat ->
                 createNotification_fails o (notification_writes w + k)%nat = false) ->
      Successful r /\
      (sendEmail_fails o (mail_calls w) = true \/
       sendEmail_fails o (S (mail_calls w)) = true ->
       In mail_error_line (console w')))) /\
    (AuthUser.role admin = "admin" ->
     PaymentStage.status stage = "pending_verification" ->
     (let (r, w') := post_approve_payment admin stageId o w in
      (exists stage', stage_of w' stageId = Some stage' /\
                      PaymentStage.status stage' = "paid") /\
      if createNotification_fails o (notification_writes w)
      then InternalError r else Successful r) /\
     (let (r, w') := post_reject_payment admin stageId reason o w in
      (exists stage', stage_of w' stageId = Some stage' /\
                      PaymentStage.status stage' = "available") /\
      if createNotification_fails o (notification_writes w)
      then InternalError r else Successful r)).
Proof.
  intros o w admin submitter stageId reason paymentMethod field proofFile
         stage project client Hs Hp Hc.
  split.
  - intros Hfield.
    pose proof (confirm_payment_run o w submitter stageId paymentMethod field proofFile
                  stage project client Hfield Hs Hp Hc) as H.
    pose proof (confirm_payment_outcome o w submitter stageId paymentMethod field
                  proofFile stage project client Hfield Hs Hp Hc) as H'.
    destruct (post_confirm_payment submitter stageId paymentMethod field proofFile o w)
      as [r w'].
    cbn zeta in H. destruct H as (HS & Hr & _). destruct H' as (Hfails & Hwritten).
    split; [|split; [exact Hr|split; [exact Hfails | exact Hwritten]]].
    eexists. unfold stage_of at 1. rewrite HS.
    split; [apply (find_updated_stage w stageId stage _ Hs) | reflexivity].
  - intros Hrole Hst. split.
    + pose proof (approve_payment_run o w admin stageId stage project client
                    Hrole Hs Hst Hp Hc) as H.
      destruct (post_approve_payment admin stageId o w) as [r w'].
      cbn zeta in H. destruct H as (HS & _ & H).
      split.
      * eexists. unfold stage_of at 1. rewrite HS.
        split; [apply (find_updated_stage w stageId stage _ Hs) | reflexivity].
      * destruct (createNotification_fails o (notification_writes w));
          destruct H as [H _]; [exact H | rewrite H; reflexivity].
    + pose proof (reject_payment_run o w admin stageId reason stage project
                    Hrole Hs Hst Hp) as H.
      destruct (post_reject_payment admin stageId reason o w) as [r w'].
      cbn zeta in H. destruct H as (HS & _ & H).
      split.
      * eexists. unfold stage_of at 1. rewrite HS.
        split; [apply (find_updated_stage w stageId stage _ Hs) | reflexivity].
      * destruct (createNotification_fails o (notification_writes w));
          destruct H as [H _]; [exact H | rewrite H; reflexivity].
Qed.

(** With a mailer that refuses every message the client's submission is
    still a success and the stage awaits verification; with a notification
    table that refuses every write the same submission is an internal error
    and the stage awaits verification all the same, and the approval is an
    internal error and the stage is paid all the same. *)
Lemma state_change_survives_notification_failures_witness :
  stage_of Sample.staged 1 = Some (Sample.stage 1 Sample.staged) /\
  (let (r, w') := post_confirm_payment Sample.as_client 1 "Ueno Bank" field_absent
                    (Some Sample.receipt) Sample.no_mail Sample.staged in
   Successful r /\ In mail_error_line (console w') /\
   exists stage', stage_of w' 1 = Some stage' /\
                  PaymentStage.status stage' = "pending_verification") /\
  (let (r, w') := post_confirm_payment Sample.as_client 1 "Ueno Bank" field_absent
                    (Some Sample.receipt) Sample.no_notifications Sample.staged in
   InternalError r /\
   exists stage', stage_of w' 1 = Some stage' /\
                  PaymentStage.status stage' = "pending_verification") /\
  (let (r, w') := post_approve_payment Sample.as_admin 1 Sample.no_notifications
                    Sample.submitted in
   InternalError r /\
   exists stage', stage_of w' 1 = Some stage' /\ PaymentStage.status stage' = "paid").
Proof.
  assert (Hs : stage_of Sample.staged 1 = Some (Sample.stage 1 Sample.staged))
    by (vm_compute; reflexivity).
  assert (Hp : project_of Sample.staged
                 (PaymentStage.projectId (Sample.stage 1 Sample.staged))
               = Some Sample.shop) by (vm_compute; reflexivity).
  assert (Hc : user_of Sample.staged (Project.clientId Sample.shop) = Some Sample.ana)
    by (vm_compute; reflexivity).
  assert (Hs' : stage_of Sample.submitted 1 = Some (Sample.stage 1 Sample.submitted))
    by (vm_compute; reflexivity).
  assert (Hp' : project_of Sample.submitted
                  (PaymentStage.projectId (Sample.stage 1 Sample.submitted))
                = Some Sample.shop) by (vm_compute; reflexivity).
  assert (Hc' : user_of Sample.submitted (Project.clientId Sample.shop)
                = Some Sample.ana) by (vm_compute; reflexivity).
  assert (Hfield : field_absent <> field_unparsable) by discriminate.
  split; [exact Hs|]. split; [|split].
  - pose proof (state_change_survives_notification_failures Sample.no_mail
                  Sample.staged Sample.as_admin Sample.as_client 1 "" "Ueno Bank"
                  field_absent (Some Sample.receipt) _ _ _ Hs Hp Hc) as [T _].
    specialize (T Hfield).
    destruct (post_confirm_payment Sample.as_client 1 "Ueno Bank" field_absent
                (Some Sample.receipt) Sample.no_mail Sample.staged) as [r w'].
    destruct T as (T1 & _ & _ & T3).
    destruct (T3 (fun _ _ => eq_refl)) as (Hr & Hlog).
    split; [exact Hr|]. split; [apply Hlog; left; reflexivity | exact T1].
  - pose proof (state_change_survives_notification_failures Sample.no_notifications
                  Sample.staged Sample.as_admin Sample.as_client 1 "" "Ueno Bank"
                  field_absent (Some Sample.receipt) _ _ _ Hs Hp Hc) as [T _].
    specialize (T Hfield).
    destruct (post_confirm_payment Sample.as_client 1 "Ueno Bank" field_absent
                (Some Sample.receipt) Sample.no_notifications Sample.staged) as [r w'].
    destruct T as (T1 & _ & T2 & _).
    split; [|exact T1]. apply T2. exists 0%nat.
    split; [vm_compute; reflexivity | reflexivity].
  - pose proof (state_change_survives_notification_failures Sample.no_notifications
                  Sample.submitted Sample.as_admin Sample.as_client 1 "" "Ueno Bank"
                  field_absent None _ _ _ Hs' Hp' Hc') as [_ T].
    assert (Hst : PaymentStage.status (Sample.stage 1 Sample.submitted)
                  = "pending_verification") by (vm_compute; reflexivity).
    destruct (T eq_refl Hst) as [T1 _].
    destruct (post_approve_payment Sample.as_admin 1 Sample.no_notifications
                Sample.submitted) as [r w'].
    destruct T1 as (T1 & T2). split; [exact T2 | exact T1].
Defined.

(** An administrator tries to approve, then to reject, the second stage of
    the sample project, which is still [pending]. *)
Lemma approve_reject_only_when_pending_verification_witness :
  AuthUser.role Sample.as_admin = "admin" /\
  stage_of Sample.staged 2 = Some (Sample.stage 2 Sample.staged) /\
  PaymentStage.status (Sample.stage 2 Sample.staged) = "pending" /\
  let (r1, w1) := post_approve_payment Sample.as_admin 2 Sample.oracle Sample.staged in
  let (r2, w2) := post_reject_payment Sample.as_admin 2 "sin motivo"
                    Sample.oracle Sample.staged in
  InvalidState r1 /\ db w1 = db Sample.staged /\
  InvalidState r2 /\ db w2 = db Sample.staged.
Proof.
  split; [reflexivity|].
  assert (Hs : stage_of Sample.staged 2 = Some (Sample.stage 2 Sample.staged))
    by (vm_compute; reflexivity).
  split; [exact Hs|]. split; [vm_compute; reflexivity|].
  pose proof (proj2 (proj2 (approve_reject_only_when_pending_verification
                              Sample.oracle Sample.staged Sample.as_admin 2 "sin motivo"))
                _ eq_refl Hs) as T.
  assert (Hst : PaymentStage.status (Sample.stage 2 Sample.staged)
                <> "pending_verification") by (vm_compute; discriminate).
  specialize (T Hst).
  destruct (post_approve_payment Sample.as_admin 2 Sample.oracle Sample.staged)
    as [r1 w1].
  destruct (post_reject_payment Sample.as_admin 2 "sin motivo" Sample.oracle
              Sample.staged) as [r2 w2].
  destruct T as (A & B & _ & C & D & _). repeat split; assumption.
Defined.

(** The scenario of the specification on the sample project: a price of
    1000 and two stages of 50 percent at thresholds 0 and 50. *)
Lemma created_stages_amount_and_status_witness :
  project_of Sample.start 7 = Some Sample.shop /\
  let (r, w') := post_payment_stages 7 Sample.two_halves Sample.oracle Sample.start in
  exists s1 s2,
    r = mkResponse 200 (json_stages [s1; s2]) /\
    paymentStages (db w') = [s1; s2] /\
    PaymentStage.amount s1 = 500%float /\ PaymentStage.status s1 = "available" /\
    PaymentStage.amount s2 = 500%float /\ PaymentStage.status s2 = "pending".
Proof.
  assert (Hp : project_of Sample.start 7 = Some Sample.shop) by reflexivity.
  split; [exact Hp|].
  pose proof (created_stages_amount_and_status Sample.oracle Sample.start 7
                Sample.two_halves Sample.shop Hp) as T.
  destruct (post_payment_stages 7 Sample.two_halves Sample.oracle Sample.start)
    as [r w'].
  destruct T as (created & Hr & Hrows & _ & Hscenario).
  destruct (Hscenario "Anticipo" "Entrega" eq_refl eq_refl)
    as (s1 & s2 & -> & A1 & S1 & A2 & S2).
  exists s1, s2. repeat split; assumption.
Defined.

(** ** Answering a negotiation *)

Lemma acceptance_mails_quiet project client negotiation message :
  quiet (acceptance_mails project client negotiation message).
Proof.
  unfold acceptance_mails. intros o w.
  unfold storage.getUsersByRole, gets.
  unfold mbind at 1. unfold Handler_bind at 1. cbv beta iota.
  unfold mbind at 1. unfold Handler_bind at 1.
  match goal with
  | |- context [for_each ?l ?f o w] => assert (Hloop : quiet (for_each l f))
  end.
  { apply quiet_for_each. intros admin.
    destruct (Js.truthy_string (User.email admin)); cbn [when].
    - apply quiet_try_send. apply quiet_write_console.
    - intros o' w'. exists w'. split; reflexivity. }
  destruct (Hloop o w) as (w1 & E1 & D1). rewrite E1.
  match goal with
  | |- context [try_catch ?b ?h o w1] => assert (Hsystem : quiet (try_catch b h))
  end.
  { intros o' w'. unfold env. unfold mbind at 1. unfold Handler_bind at 1.
    cbv beta iota.
    apply (quiet_try_send _ _ (fun e => console_error _)). apply quiet_write_console. }
  destruct (Hsystem o w1) as (w2 & E2 & D2).
  exists w2. split; [exact E2 | congruence].
Qed.

Lemma update_by_id_app {A} (key : A -> Z) i f (rows more : list A) :
  update_by_id key i f (rows ++ more)
  = update_by_id key i f rows ++ update_by_id key i f more.
Proof. unfold update_by_id. apply List.map_app. Qed.

(** What accepting a negotiation does to the tables. *)
Lemma accept_negotiation_run :
  forall Number_toString (o : Oracle) (w : World) (user : AuthUser.t)
         (negotiationId : Z) (message : option string)
         (counterPrice : option CounterPrice) negotiation,
    negotiation_of w negotiationId = Some negotiation ->
    let (r, w') :=
      put_negotiation_respond Number_toString user negotiationId "accepted"
        message counterPrice o w in
    r = mkResponse 200
          (json_negotiation (Some (negotiation_with_status "accepted" negotiation))) /\
    projects (db w') =
      update_by_id Project.id (BudgetNegotiation.projectId negotiation)
        (project_with_price_and_status
           (BudgetNegotiation.proposedPrice negotiation) "in_progress")
        (projects (db w)) /\
    budgetNegotiations (db w') =
      update_by_id BudgetNegotiation.id negotiationId
        (negotiation_with_status "accepted") (budgetNegotiations (db w)) /\
    paymentStages (db w') = paymentStages (db w) /\
    users (db w') = users (db w) /\
    notifications (db w') = notifications (db w).
Proof.
  intros Number_toString o w user negotiationId message counterPrice negotiation Hn.
  assert (Hfind : find_by_id BudgetNegotiation.id negotiationId
                    (update_by_id BudgetNegotiation.id negotiationId
                       (negotiation_with_status "accepted") (budgetNegotiations (db w)))
                  = Some (negotiation_with_status "accepted" negotiation)).
  { rewrite find_update_same by reflexivity. unfold negotiation_of in Hn.
    now rewrite Hn. }
  unfold put_negotiation_respond. unfold_handler. cbn. rewrite Hn. cbn.
  set (found := find_by_id Project.id _ _).
  destruct found as [project|]; cbn.
  - destruct (find_by_id User.id (Project.clientId project) (users (db w)))
      as [client|]; cbn.
    + match goal with
      | |- context [acceptance_mails project client negotiation message o ?w1] =>
          destruct (acceptance_mails_quiet project client negotiation message o w1)
            as (w2 & E & D)
      end.
      rewrite E. cbn. rewrite D. cbn. rewrite Hfind. repeat split; reflexivity.
    + rewrite Hfind. repeat split; reflexivity.
  - rewrite Hfind. repeat split; reflexivity.
Qed.

(** What countering a negotiation with a counter-price does to the tables. *)
Lemma counter_negotiation_run :
  forall Number_toString (o : Oracle) (w : World) (user : AuthUser.t)
         (negotiationId : Z) (message : option string)
         (counterPrice : CounterPrice) negotiation,
    negotiation_of w negotiationId = Some negotiation ->
    truthy_price (Some counterPrice) = true ->
    let created :=
      {| BudgetNegotiation.id :=
           next_id BudgetNegotiation.id (budgetNegotiations (db w));
         BudgetNegotiation.projectId := BudgetNegotiation.projectId negotiation;
         BudgetNegotiation.proposedBy := AuthUser.id user;
         BudgetNegotiation.originalPrice := BudgetNegotiation.proposedPrice negotiation;
         BudgetNegotiation.proposedPrice := price_toString Number_toString counterPrice;
         BudgetNegotiation.message := message;
         BudgetNegotiation.status := "pending" |} in
    let (r, w') :=
      put_negotiation_respond Number_toString user negotiationId "countered"
        message (Some counterPrice) o w in
    r = mkResponse 200
          (json_negotiation (Some (negotiation_with_status "countered" negotiation))) /\
    budgetNegotiations (db w') =
      update_by_id BudgetNegotiation.id negotiationId
        (negotiation_with_status "countered") (budgetNegotiations (db w))
      ++ [created] /\
    projects (db w') = projects (db w) /\
    paymentStages (db w') = paymentStages (db w).
Proof.
  intros Number_toString o w user negotiationId message counterPrice negotiation
         Hn Htruthy.
  pose proof (find_by_id_key _ _ _ _ Hn) as Hid.
  pose proof (next_id_above BudgetNegotiation.id _ _ (find_by_id_In _ _ _ _ Hn)) as Hfresh.
  unfold put_negotiation_respond. unfold_handler. cbn -[truthy_price].
  rewrite Htruthy. cbn. rewrite Hn. cbn.
  rewrite update_by_id_app, find_by_id_app, find_update_same by reflexivity.
  rewrite Hn. cbn [option_map].
  assert (Hkeep : forall row,
             BudgetNegotiation.id row
             = next_id BudgetNegotiation.id (budgetNegotiations (db w)) ->
             update_by_id BudgetNegotiation.id negotiationId
               (negotiation_with_status "countered") [row] = [row]).
  { intros row Hrow. unfold update_by_id. cbn.
    destruct (BudgetNegotiation.id row =? negotiationId) eqn:E; [|reflexivity].
    apply Z.eqb_eq in E. lia. }
  rewrite Hkeep by reflexivity. repeat split; reflexivity.
Qed.

(** ** C6: accepting a negotiation *)

(** C6. Accepting a negotiation that exists is answered with a success; the
    project of the negotiation then has the proposed price and the status
    [in_progress], the negotiation has the status [accepted] and is
    otherwise as before, and the stage table is exactly as it was: every
    stage created earlier keeps the amount computed from the price of that
    time. *)
Theorem acceptance_sets_price_and_keeps_stage_amounts :
  forall (Number_toString : float -> string) (o : Oracle) (w : World)
         (user : AuthUser.t) (negotiationId : Z) (message : option string)
         (counterPrice : option CounterPrice) (negotiation : BudgetNegotiation.t),
    negotiation_of w negotiationId = Some negotiation ->
    let (r, w') :=
      put_negotiation_respond Number_toString user negotiationId "accepted"
        message counterPrice o w in
    Successful r /\
    (forall project,
        project_of w (BudgetNegotiation.projectId negotiation) = Some project ->
        exists project',
          project_of w' (BudgetNegotiation.projectId negotiation) = Some project' /\
          Project.price project' = BudgetNegotiation.proposedPrice negotiation /\
          Project.status project' = "in_progress" /\
          Project.name project' = Project.name project /\
          Project.clientId project' = Project.clientId project) /\
    negotiation_of w' negotiationId
      = Some (negotiation_with_status "accepted" negotiation) /\
    paymentStages (db w') = paymentStages (db w) /\
    (forall stageId stage,
        stage_of w stageId = Some stage ->
        exists stage', stage_of w' stageId = Some stage' /\
                       PaymentStage.amount stage' = PaymentStage.amount stage) /\
    (forall project projectId entry stage,
        In stage (paymentStages (db w)) ->
        created_from project projectId entry stage ->
        In stage (paymentStages (db w')) /\
        PaymentStage.amount stage =
          PrimFloat.div
            (PrimFloat.mul (Js.parseFloat (Project.price project))
                           (StageSpec.percentage entry))
            100%float).
Proof.
  intros Number_toString o w user negotiationId message counterPrice negotiation Hn.
  pose proof (accept_negotiation_run Number_toString o w user negotiationId message
                counterPrice negotiation Hn) as H.
  destruct (put_negotiation_respond Number_toString user negotiationId "accepted"
              message counterPrice o w) as [r w'].
  destruct H as (-> & HP & HB & HS & _).
  split; [reflexivity|]. split; [|split; [|split; [exact HS|split]]].
  - intros project Hproject. eexists. unfold project_of at 1. rewrite HP.
    rewrite find_update_same by reflexivity. unfold project_of in Hproject.
    rewrite Hproject. split; [reflexivity|]. repeat split; reflexivity.
  - unfold negotiation_of at 1. rewrite HB.
    rewrite find_update_same by reflexivity. unfold negotiation_of in Hn.
    now rewrite Hn.
  - intros stageId stage Hstage. exists stage. unfold stage_of in *.
    rewrite HS. split; [exact Hstage | reflexivity].
  - intros project projectId entry stage Hin Hcreated. rewrite HS.
    split; [exact Hin|]. apply Hcreated.
Qed.

(** The administrator accepts the client's proposal of 800 for the sample
    project, whose stages were created at a price of 1000. *)
Lemma acceptance_sets_price_and_keeps_stage_amounts_witness :
  negotiation_of Sample.negotiating 1 = Some Sample.proposal /\
  let (r, w') :=
    put_negotiation_respond Sample.Number_toString Sample.as_admin 1 "accepted"
      None None Sample.oracle Sample.negotiating in
  Successful r /\
  (exists project',
      project_of w' 7 = Some project' /\ Project.price project' = "800" /\
      Project.status project' = "in_progress") /\
  (exists stage',
      stage_of w' 1 = Some stage' /\ PaymentStage.amount stage' = 500%float).
Proof.
  assert (Hn : negotiation_of Sample.negotiating 1 = Some Sample.proposal)
    by reflexivity.
  split; [exact Hn|].
  pose proof (acceptance_sets_price_and_keeps_stage_amounts Sample.Number_toString
                Sample.oracle Sample.negotiating Sample.as_admin 1 None None
                Sample.proposal Hn) as T.
  destruct (put_negotiation_respond Sample.Number_toString Sample.as_admin 1
              "accepted" None None Sample.oracle Sample.negotiating) as [r w'].
  destruct T as (Hr & Hproject & _ & _ & Hstage & _).
  split; [exact Hr|]. split.
  - destruct (Hproject Sample.shop eq_refl) as (project' & F & P & S & _).
    exists project'. repeat split; assumption.
  - assert (Hs : stage_of Sample.negotiating 1 = Some (Sample.stage 1 Sample.staged))
      by (vm_compute; reflexivity).
    destruct (Hstage 1 _ Hs) as (stage' & F & A).
    exists stage'. split; [exact F|]. rewrite A. vm_compute. reflexivity.
Defined.

(** ** C7: countering a negotiation *)

(** C7, as stated, fails: a reply with status [countered] that carries no
    counter-price marks the negotiation as countered and opens no new
    negotiation. *)
Lemma counter_without_price_opens_nothing :
  ~ every_counter_opens_a_negotiation.
Proof.
  intros H.
  specialize (H Sample.Number_toString Sample.oracle Sample.negotiating
                Sample.as_admin 1 None None Sample.proposal eq_refl).
  assert (Hrows :
            budgetNegotiations
              (db (snd (put_negotiation_respond Sample.Number_toString Sample.as_admin
                          1 "countered" None None Sample.oracle Sample.negotiating)))
            = [negotiation_with_status "countered" Sample.proposal])
    by (vm_compute; reflexivity).
  destruct (put_negotiation_respond Sample.Number_toString Sample.as_admin 1
              "countered" None None Sample.oracle Sample.negotiating) as [r w'].
  cbn [snd] in Hrows.
  destruct H as (created & Hin & _ & _ & Hstatus).
  rewrite Hrows in Hin. destruct Hin as [<- | []].
  cbn in Hstatus. discriminate.
Qed.

(** C7, amended. A reply with status [countered] that carries a
    counter-price (a number other than 0 and NaN, or a non-empty text) to a
    negotiation N that exists is answered with a success and appends one
    negotiation row N' with an id no row had, the project of N, the proposed
    price of N as its original price and the status [pending]; N gets the
    status [countered] and is otherwise as before, and every other row is
    left as it was. *)
Theorem counter_with_price_opens_pending_negotiation :
  forall (Number_toString : float -> string) (o : Oracle) (w : World)
         (user : AuthUser.t) (negotiationId : Z) (message : option string)
         (counterPrice : CounterPrice) (negotiation : BudgetNegotiation.t),
    negotiation_of w negotiationId = Some negotiation ->
    truthy_price (Some counterPrice) = true ->
    let (r, w') :=
      put_negotiation_respond Number_toString user negotiationId "countered"
        message (Some counterPrice) o w in
    Successful r /\
    exists created,
      budgetNegotiations (db w') =
        update_by_id BudgetNegotiation.id negotiationId
          (negotiation_with_status "countered") (budgetNegotiations (db w))
        ++ [created] /\
      negotiation_of w (BudgetNegotiation.id created) = None /\
      BudgetNegotiation.originalPrice created
        = BudgetNegotiation.proposedPrice negotiation /\
      BudgetNegotiation.status created = "pending" /\
      BudgetNegotiation.projectId created = BudgetNegotiation.projectId negotiation /\
      negotiation_of w' (BudgetNegotiation.id created) = Some created /\
      negotiation_of w' negotiationId
        = Some (negotiation_with_status "countered" negotiation) /\
      (forall other_id other,
          other_id <> negotiationId ->
          negotiation_of w other_id = Some other ->
          negotiation_of w' other_id = Some other).
Proof.
  intros Number_toString o w user negotiationId message counterPrice negotiation
         Hn Htruthy.
  pose proof (counter_negotiation_run Number_toString o w user negotiationId message
                counterPrice negotiation Hn Htruthy) as H.
  destruct (put_negotiation_respond Number_toString user negotiationId "countered"
              message (Some counterPrice) o w) as [r w'].
  cbn zeta in H. destruct H as (-> & HB & _).
  split; [reflexivity|]. eexists. split; [exact HB|].
  pose proof (find_by_id_next BudgetNegotiation.id (budgetNegotiations (db w)))
    as Hfresh.
  pose proof (find_by_id_key _ _ _ _ Hn) as Hid.
  pose proof (next_id_above BudgetNegotiation.id _ _ (find_by_id_In _ _ _ _ Hn))
    as Habove.
  unfold negotiation_of in *. cbn [BudgetNegotiation.id BudgetNegotiation.status
    BudgetNegotiation.originalPrice BudgetNegotiation.projectId].
  split; [exact Hfresh|]. do 3 (split; [reflexivity|]).
  rewrite HB. split; [|split].
  - rewrite find_by_id_app, find_update_other by (reflexivity || lia).
    rewrite Hfresh. unfold find_by_id. cbn. now rewrite Z.eqb_refl.
  - rewrite find_by_id_app, find_update_same by reflexivity. now rewrite Hn.
  - intros other_id other Hne Hother.
    rewrite find_by_id_app, find_update_other by (reflexivity || congruence).
    now rewrite Hother.
Qed.

(** The administrator counters the client's proposal of 800 with 900. *)
Lemma counter_with_price_opens_pending_negotiation_witness :
  negotiation_of Sample.negotiating 1 = Some Sample.proposal /\
  truthy_price (Some (counter_number 900)) = true /\
  let (r, w') :=
    put_negotiation_respond Sample.Number_toString Sample.as_admin 1 "countered"
      None (Some (counter_number 900)) Sample.oracle Sample.negotiating in
  Successful r /\
  exists created,
    budgetNegotiations (db w')
      = [negotiation_with_status "countered" Sample.proposal; created] /\
    BudgetNegotiation.originalPrice created = "800" /\
    BudgetNegotiation.status created = "pending".
Proof.
  assert (Hn : negotiation_of Sample.negotiating 1 = Some Sample.proposal)
    by reflexivity.
  assert (Ht : truthy_price (Some (counter_number 900)) = true)
    by (vm_compute; reflexivity).
  split; [exact Hn|]. split; [exact Ht|].
  pose proof (counter_with_price_opens_pending_negotiation Sample.Number_toString
                Sample.oracle Sample.negotiating Sample.as_admin 1 None
                (counter_number 900) Sample.proposal Hn Ht) as T.
  destruct (put_negotiation_respond Sample.Number_toString Sample.as_admin 1
              "countered" None (Some (counter_number 900)) Sample.oracle
              Sample.negotiating) as [r w'].
  destruct T as (Hr & created & Hrows & _ & Ho & Hs & _).
  split; [exact Hr|]. exists created. split; [exact Hrows|]. split; assumption.
Defined.

(** ** Sorting the stages and finding one of them *)

Lemma insert_stage_perm s sorted : Permutation (insert_stage s sorted) (s :: sorted).
Proof.
  induction sorted as [|t rest IH]; [reflexivity|]. cbn [insert_stage].
  destruct (compareFn s t <=? 0); [reflexivity|].
  rewrite IH. apply perm_swap.
Qed.

Lemma sort_stages_perm stages : Permutation (sort_stages stages) stages.
Proof.
  induction stages as [|s rest IH]; [reflexivity|].
  unfold sort_stages in *. cbn [List.fold_right].
  rewrite insert_stage_perm. now constructor.
Qed.

Lemma insert_stage_sorted s sorted :
  StronglySorted by_progress sorted -> StronglySorted by_progress (insert_stage s sorted).
Proof.
  induction 1 as [|t rest Hrest IH Ht]; cbn [insert_stage].
  - repeat constructor.
  - unfold compareFn. destruct (Z.leb_spec
      (PaymentStage.requiredProgress s - PaymentStage.requiredProgress t) 0) as [Hle|Hgt].
    + constructor; [now constructor|].
      constructor; [unfold by_progress; lia|].
      eapply Forall_impl; [exact Ht|]. unfold by_progress. intros; lia.
    + constructor; [exact IH|].
      apply (Permutation_Forall (Permutation_sym (insert_stage_perm s rest))).
      constructor; [unfold by_progress; lia | exact Ht].
Qed.

Lemma sort_stages_sorted stages : StronglySorted by_progress (sort_stages stages).
Proof.
  induction stages as [|s rest IH]; [constructor|].
  unfold sort_stages in *. cbn [List.fold_right]. now apply insert_stage_sorted.
Qed.

(** [findIndex] on a list that has a match: the index of the first one. *)
Lemma findIndex_found {A} (p : A -> bool) (xs : list A) (x : A) :
  In x xs -> p x = true ->
  0 <= findIndex p xs < Z.of_nat (length xs) /\
  (exists y, nth_error xs (Z.to_nat (findIndex p xs)) = Some y /\ p y = true) /\
  (forall j z, (j < Z.to_nat (findIndex p xs))%nat ->
               nth_error xs j = Some z -> p z = false).
Proof.
  induction xs as [|y rest IH]; [contradiction|].
  intros Hin Hp. cbn [findIndex length].
  destruct (p y) eqn:Hy.
  - split; [lia|]. split; [exists y; split; [reflexivity | exact Hy]|].
    intros j z Hj. cbn in Hj. lia.
  - destruct Hin as [->|Hin]; [congruence|].
    destruct (IH Hin Hp) as (Hrange & (y' & Hnth & Hy') & Hfirst).
    destruct (Z.ltb_spec (findIndex p rest) 0) as [Hneg|_]; [lia|].
    replace (Z.to_nat (findIndex p rest + 1)) with (S (Z.to_nat (findIndex p rest)))
      by lia.
    split; [lia|]. split; [exists y'; split; assumption|].
    intros [|j] z Hj Hz; cbn in Hz.
    + congruence.
    + apply (Hfirst j z); [lia | exact Hz].
Qed.

Lemma findIndex_at_least {A} (p : A -> bool) (xs : list A) : -1 <= findIndex p xs.
Proof.
  induction xs as [|y rest IH]; cbn [findIndex]; [lia|].
  destruct (p y); [lia|]. destruct (findIndex p rest <? 0); lia.
Qed.

Lemma append_empty_r (s : string) : s +:+ "" = s.
Proof.
  induction s as [|ch s IH]; [reflexivity|].
  change (String ch (s +:+ "") = String ch s). now rewrite IH.
Qed.

Lemma stageLines_number_the_stage kind stage stageNumber totalStages :
  stageLines_of kind stage stageNumber totalStages <> [] /\
  Forall (fun line => contains line (stage_of_total stageNumber totalStages))
         (stageLines_of kind stage stageNumber totalStages).
Proof.
  split; [destruct kind; discriminate|].
  destruct kind; cbn [stageLines_of]; repeat constructor.
  - exists "", "". change ("" +:+ ?s) with s. now rewrite append_empty_r.
  - eexists _, "". rewrite append_empty_r. rewrite append_assoc. reflexivity.
  - eexists _, _. reflexivity.
  - eexists _, "". rewrite append_empty_r. reflexivity.
Qed.

(** Rows with distinct ids are told apart by their id. *)
Lemma same_id_same_stage (stages : list PaymentStage.t) a b :
  List.NoDup (List.map PaymentStage.id stages) ->
  In a stages -> In b stages -> PaymentStage.id a = PaymentStage.id b -> a = b.
Proof.
  induction stages as [|s rest IH]; [contradiction|].
  cbn [List.map]. intros Hnodup Ha Hb Hid.
  apply List.NoDup_cons_iff in Hnodup as [Hfresh Hnodup].
  destruct Ha as [->|Ha], Hb as [->|Hb]; [reflexivity| | |now apply IH].
  - exfalso. apply Hfresh. rewrite Hid. now apply List.in_map.
  - exfalso. apply Hfresh. rewrite <- Hid. now apply List.in_map.
Qed.

(** What a download does for the owner of a paid stage. *)
Lemma download_run :
  forall (kind : DocumentKind) (o : Oracle) (w : World) (user : AuthUser.t)
         (stageId : Z) stage project,
    stage_of w stageId = Some stage ->
    project_of w (PaymentStage.projectId stage) = Some project ->
    Project.clientId project = AuthUser.id user ->
    PaymentStage.status stage = "paid" ->
    let sortedStages := sort_stages (stages_of_project w (PaymentStage.projectId stage)) in
    let stageNumber :=
      findIndex (fun s => PaymentStage.id s =? PaymentStage.id stage) sortedStages + 1 in
    let totalStages := Z.of_nat (length sortedStages) in
    let (r, w') := get_stage_invoice kind user (Some stageId) o w in
    db w' = db w /\
    exists fileName,
      r = mkResponse 200
            (pdf {| doc_fileName := fileName;
                    doc_stage := stage;
                    doc_stageNumber := stageNumber;
                    doc_totalStages := totalStages;
                    doc_stageLines :=
                      stageLines_of kind stage stageNumber totalStages |}).
Proof.
  intros kind o w user stageId stage project Hs Hp Howner Hpaid.
  apply Z.eqb_eq in Howner. apply String.eqb_eq in Hpaid.
  unfold get_stage_invoice. unfold_handler. cbn.
  rewrite Hs. cbn. rewrite Hp. cbn. rewrite Howner. cbn. rewrite Hpaid. cbn.
  split; [reflexivity|]. eexists. reflexivity.
Qed.

(** ** C8: the settlement document *)

(** C8. For either settlement document: a document is produced only for a
    stage whose status is [paid]; for the client who owns the stage's
    project a stage in any other status is answered with the invalid-state
    error (400), and a paid stage is answered with a document that carries
    the stage's number and the total count, where the total is the number of
    stages of the project and the number is the 1-based position of the
    stage (the first row with its id, which is the stage itself when ids are
    distinct) in the stable sort of these stages by ascending required
    progress; every numbering line of the document shows the two as
    [number de total]. *)
Theorem settlement_document_needs_paid_stage_and_numbers_it :
  forall (kind : DocumentKind) (o : Oracle) (w : World) (user : AuthUser.t)
         (stageId : Z),
    let (r, w') := get_stage_invoice kind user (Some stageId) o w in
    (Successful r ->
     exists stage, stage_of w stageId = Some stage /\
                   PaymentStage.status stage = "paid") /\
    (forall stage project,
        stage_of w stageId = Some stage ->
        project_of w (PaymentStage.projectId stage) = Some project ->
        Project.clientId project = AuthUser.id user ->
        (PaymentStage.status stage <> "paid" -> InvalidState r /\ db w' = db w) /\
        (PaymentStage.status stage = "paid" ->
         let stages := stages_of_project w (PaymentStage.projectId stage) in
         let sortedStages := sort_stages stages in
         exists document,
           r = mkResponse 200 (pdf document) /\
           Permutation sortedStages stages /\
           StronglySorted by_progress sortedStages /\
           doc_totalStages document = Z.of_nat (length stages) /\
           1 <= doc_stageNumber document <= doc_totalStages document /\
           (exists s,
               nth_error sortedStages (Z.to_nat (doc_stageNumber document - 1)) = Some s /\
               PaymentStage.id s = stageId) /\
           (forall j s,
               (j < Z.to_nat (doc_stageNumber document - 1))%nat ->
               nth_error sortedStages j = Some s -> PaymentStage.id s <> stageId) /\
           (List.NoDup (List.map PaymentStage.id stages) ->
            nth_error sortedStages (Z.to_nat (doc_stageNumber document - 1))
            = Some stage) /\
           doc_stageLines document <> [] /\
           Forall (fun line =>
                     contains line (stage_of_total (doc_stageNumber document)
                                                   (doc_totalStages document)))
                  (doc_stageLines document))).
Proof.
  intros kind o w user stageId.
  destruct (get_stage_invoice kind user (Some stageId) o w) as [r w'] eqn:E.
  split.
  - unfold get_stage_invoice in E. unfold_handler. cbn in E.
    destruct (find_by_id PaymentStage.id stageId (paymentStages (db w)))
      as [stage|] eqn:Hs; cbn in E; [|inversion E; subst; discriminate].
    destruct (find_by_id Project.id (PaymentStage.projectId stage) (projects (db w)))
      as [project|]; cbn in E; [|inversion E; subst; discriminate].
    destruct (Project.clientId project =? AuthUser.id user); cbn in E;
      [|inversion E; subst; discriminate].
    destruct (String.eqb (PaymentStage.status stage) "paid") eqn:Hpaid; cbn in E;
      [|inversion E; subst; discriminate].
    intros _. exists stage. split; [reflexivity | now apply String.eqb_eq].
  - intros stage project Hs Hp Howner. split.
    + intros Hstatus. apply String.eqb_neq in Hstatus. apply Z.eqb_eq in Howner.
      unfold get_stage_invoice in E. unfold_handler. cbn in E.
      rewrite Hs in E. cbn in E. rewrite Hp in E. cbn in E.
      rewrite Howner in E. cbn in E. rewrite Hstatus in E. cbn in E.
      inversion E; subst. split; reflexivity.
    + intros Hpaid.
      pose proof (download_run kind o w user stageId stage project Hs Hp Howner Hpaid)
        as H.
      rewrite E in H. cbn zeta in H. destruct H as (_ & fileName & ->).
      set (stages := stages_of_project w (PaymentStage.projectId stage)).
      pose proof (sort_stages_perm stages) as Hperm.
      assert (Hin : In stage (sort_stages stages)).
      { apply (Permutation_in _ (Permutation_sym Hperm)).
        apply List.filter_In. split.
        - now apply (find_by_id_In PaymentStage.id stageId).
        - apply Z.eqb_refl. }
      pose proof (find_by_id_key PaymentStage.id _ _ _ Hs) as Hid.
      destruct (findIndex_found
                  (fun s => PaymentStage.id s =? PaymentStage.id stage)
                  (sort_stages stages) stage Hin (Z.eqb_refl _))
        as (Hrange & (s & Hnth & Hs') & Hfirst).
      eexists. split; [reflexivity|]. cbn [doc_stageNumber doc_totalStages doc_stageLines].
      split; [exact Hperm|]. split; [apply sort_stages_sorted|].
      split; [now rewrite (Permutation_length Hperm)|].
      assert (Hstage_in : In stage stages).
      { apply List.filter_In. split.
        - now apply (find_by_id_In PaymentStage.id stageId).
        - apply Z.eqb_refl. }
      split; [lia|]. split; [|split; [|split]].
      * exists s. replace (_ + 1 - 1) with
          (findIndex (fun s => PaymentStage.id s =? PaymentStage.id stage)
                     (sort_stages stages)) by lia.
        split; [exact Hnth|]. apply Z.eqb_eq in Hs'. congruence.
      * intros j s0 Hj Hs0.
        replace (_ + 1 - 1) with
          (findIndex (fun s => PaymentStage.id s =? PaymentStage.id stage)
                     (sort_stages stages)) in Hj by lia.
        specialize (Hfirst j s0 Hj Hs0). apply Z.eqb_neq in Hfirst. congruence.
      * intros Hnodup.
        replace (_ + 1 - 1) with
          (findIndex (fun s => PaymentStage.id s =? PaymentStage.id stage)
                     (sort_stages stages)) by lia.
        rewrite Hnth. f_equal.
        apply (same_id_same_stage stages); [exact Hnodup | | exact Hstage_in |].
        -- apply (Permutation_in _ Hperm). eapply nth_error_In. exact Hnth.
        -- now apply Z.eqb_eq.
      * apply stageLines_number_the_stage.
Qed.

(** The client downloads the document of the paid first stage of the sample
    project: stage 1 of 2. *)
Lemma settlement_document_needs_paid_stage_and_numbers_it_witness :
  stage_of Sample.approved 1 = Some (Sample.stage 1 Sample.approved) /\
  PaymentStage.status (Sample.stage 1 Sample.approved) = "paid" /\
  Project.clientId Sample.shop = AuthUser.id Sample.as_client /\
  let (r, w') := get_stage_invoice_download Sample.as_client (Some 1)
                   Sample.oracle Sample.approved in
  exists document,
    r = mkResponse 200 (pdf document) /\
    doc_stageNumber document = 1 /\ doc_totalStages document = 2 /\
    In "1 de 2" (doc_stageLines document).
Proof.
  assert (Hs : stage_of Sample.approved 1 = Some (Sample.stage 1 Sample.approved))
    by (vm_compute; reflexivity).
  assert (Hpaid : PaymentStage.status (Sample.stage 1 Sample.approved) = "paid")
    by (vm_compute; reflexivity).
  assert (Hp : project_of Sample.approved
                 (PaymentStage.projectId (Sample.stage 1 Sample.approved))
               = Some Sample.shop) by (vm_compute; reflexivity).
  assert (Howner : Project.clientId Sample.shop = AuthUser.id Sample.as_client)
    by reflexivity.
  split; [exact Hs|]. split; [exact Hpaid|]. split; [exact Howner|].
  pose proof (settlement_document_needs_paid_stage_and_numbers_it Factura
                Sample.oracle Sample.approved Sample.as_client 1) as T.
  assert (Hrun : fst (get_stage_invoice Factura Sample.as_client (Some 1)
                        Sample.oracle Sample.approved)
                 = mkResponse 200
                     (pdf (mkDocument "SoftwarePar_Factura_260007_Etapa_1.pdf"
                             (Sample.stage 1 Sample.approved) 1 2
                             ["1 de 2"; "Anticipo - Etapa 1 de 2";
                              "• Esta es la etapa 1 de 2 del proyecto"])))
    by (vm_compute; reflexivity).
  unfold get_stage_invoice_download.
  destruct (get_stage_invoice Factura Sample.as_client (Some 1) Sample.oracle
              Sample.approved) as [r w'].
  destruct T as (_ & T).
  destruct (T _ _ Hs Hp Howner) as (_ & T2).
  destruct (T2 Hpaid) as (document & Hr & _).
  cbn [fst] in Hrun. exists document. split; [exact Hr|].
  rewrite Hr in Hrun. injection Hrun as ->. repeat split. left. reflexivity.
Defined.

(** ** C10: who may download the settlement document *)

(** C10. For every authenticated caller, whatever the role, whose id is not
    the client id of the stage's project, both download handlers answer with
    the forbidden error (403) and leave the database as it was, whatever the
    status of the stage; and a document is only ever produced for the caller
    whose id is the client id of the stage's project. *)
Theorem settlement_document_only_for_owning_client :
  forall (o : Oracle) (w : World) (user : AuthUser.t) (stageId : Z),
    (forall stage project,
        stage_of w stageId = Some stage ->
        project_of w (PaymentStage.projectId stage) = Some project ->
        AuthUser.id user <> Project.clientId project ->
        let (r1, w1) := get_stage_invoice_download user (Some stageId) o w in
        let (r2, w2) := get_stage_invoice_download_resimple user (Some stageId) o w in
        Forbidden r1 /\ db w1 = db w /\ Forbidden r2 /\ db w2 = db w) /\
    (forall kind,
        Successful (fst (get_stage_invoice kind user (Some stageId) o w)) ->
        exists stage project,
          stage_of w stageId = Some stage /\
          project_of w (PaymentStage.projectId stage) = Some project /\
          Project.clientId project = AuthUser.id user).
Proof.
  intros o w user stageId. split.
  - intros stage project Hs Hp Hother.
    assert (Hneq : (Project.clientId project =? AuthUser.id user) = false)
      by (apply Z.eqb_neq; congruence).
    unfold get_stage_invoice_download, get_stage_invoice_download_resimple,
      get_stage_invoice. unfold_handler. cbn.
    rewrite Hs. cbn. rewrite Hp. cbn. rewrite Hneq. cbn.
    repeat split; reflexivity.
  - intros kind. unfold get_stage_invoice. unfold_handler. cbn.
    destruct (find_by_id PaymentStage.id stageId (paymentStages (db w)))
      as [stage|] eqn:Hs; cbn; [|discriminate].
    destruct (find_by_id Project.id (PaymentStage.projectId stage) (projects (db w)))
      as [project|] eqn:Hp; cbn; [|discriminate].
    destruct (Project.clientId project =? AuthUser.id user) eqn:Howner; cbn;
      [|discriminate].
    intros _. exists stage, project. rewrite Hp.
    repeat split. now apply Z.eqb_eq.
Qed.

(** The administrator asks for both documents of the paid first stage of
    the sample project, which belongs to the client. *)
Lemma settlement_document_only_for_owning_client_witness :
  AuthUser.role Sample.as_admin = "admin" /\
  stage_of Sample.approved 1 = Some (Sample.stage 1 Sample.approved) /\
  PaymentStage.status (Sample.stage 1 Sample.approved) = "paid" /\
  AuthUser.id Sample.as_admin <> Project.clientId Sample.shop /\
  let (r1, _) := get_stage_invoice_download Sample.as_admin (Some 1)
                   Sample.oracle Sample.approved in
  let (r2, _) := get_stage_invoice_download_resimple Sample.as_admin (Some 1)
                   Sample.oracle Sample.approved in
  Forbidden r1 /\ Forbidden r2.
Proof.
  assert (Hs : stage_of Sample.approved 1 = Some (Sample.stage 1 Sample.approved))
    by (vm_compute; reflexivity).
  assert (Hpaid : PaymentStage.status (Sample.stage 1 Sample.approved) = "paid")
    by (vm_compute; reflexivity).
  assert (Hp : project_of Sample.approved
                 (PaymentStage.projectId (Sample.stage 1 Sample.approved))
               = Some Sample.shop) by (vm_compute; reflexivity).
  assert (Hother : AuthUser.id Sample.as_admin <> Project.clientId Sample.shop)
    by (cbn; lia).
  split; [reflexivity|]. split; [exact Hs|]. split; [exact Hpaid|].
  split; [exact Hother|].
  pose proof (proj1 (settlement_document_only_for_owning_client Sample.oracle
                       Sample.approved Sample.as_admin 1) _ _ Hs Hp Hother) as T.
  destruct (get_stage_invoice_download Sample.as_admin (Some 1) Sample.oracle
              Sample.approved) as [r1 w1].
  destruct (get_stage_invoice_download_resimple Sample.as_admin (Some 1)
              Sample.oracle Sample.approved) as [r2 w2].
  destruct T as (A & _ & B & _). split; assumption.
Defined.

(** * Further properties of the handlers *)

(** ** Creating stages: mails and timeline *)

(** The loop that creates the stages, with everything it leaves alone. *)
Lemma create_stages_effects project projectId stages :
  forall createdStages availableStages o w,
  exists created w',
    create_stages project projectId stages createdStages availableStages o w
    = (Value (createdStages ++ created, availableStages ++ payable_at_once created), w') /\
    paymentStages (db w') = paymentStages (db w) ++ created /\
    users (db w') = users (db w) /\
    projects (db w') = projects (db w) /\
    projectTimeline (db w') = projectTimeline (db w) /\
    notifications (db w') = notifications (db w) /\
    budgetNegotiations (db w') = budgetNegotiations (db w) /\
    outbox w' = outbox w /\
    Forall2 (created_from project projectId) stages created /\
    created = created_rows project projectId (paymentStages (db w)) stages.
Proof.
  induction stages as [|stage rest IH]; intros createdStages availableStages o w.
  - exists [], w. cbn. rewrite !app_nil_r. repeat split; try reflexivity. constructor.
  - cbn [create_stages]. unfold storage.createPaymentStage, gets, modify.
    unfold mbind, mret, Handler_bind, Handler_ret. cbn.
    destruct (StageSpec.requiredProgress stage =? 0) eqn:Hzero; cbn.
    all: match goal with
         | |- context [create_stages _ _ _ ?c ?a ?oo ?w1] =>
             destruct (IH c a oo w1)
               as (created & w' & E & HS & HU & HP & HT & HN & HB & HO & HF & HR)
         end.
    all: rewrite E; cbn in HS, HU, HP, HT, HN, HB, HO, HR.
    all: match type of E with
         | create_stages _ _ _ (_ ++ [?row]) _ _ _ = _ => exists (row :: created), w'
         end.
    all: split;
      [ rewrite <- !app_assoc; unfold payable_at_once; cbn [List.filter app];
        cbn [PaymentStage.requiredProgress]; rewrite Hzero;
        rewrite <- ?app_assoc, ?app_nil_r; reflexivity |].
    all: rewrite HS, <- app_assoc; cbn [length]; repeat split; try assumption.
    all: try (cbn [created_rows]; rewrite ?Hzero; f_equal; exact HR).
    all: constructor; [|exact HF].
    all: unfold created_from; cbn; repeat split; try reflexivity.
    all: try (apply Z.eqb_eq in Hzero; intros Hpos; lia).
    all: apply Z.eqb_neq in Hzero; intros Hz; contradiction.
Qed.

(** A loop of mails, each in its own [try]: without failures of the mailer
    every mail is in the outbox, in order. *)
Lemma for_each_sends {A} (xs : list A) (f : A -> Handler unit) (sent : A -> list Mail) o :
  (forall x w, exists w',
      f x o w = (Value tt, w') /\ db w' = db w /\ outbox w' = outbox w ++ sent x) ->
  forall w, exists w',
    for_each xs f o w = (Value tt, w') /\ db w' = db w /\
    outbox w' = outbox w ++ List.concat (List.map sent xs).
Proof.
  intros Hf. induction xs as [|x rest IH]; intros w.
  - exists w. cbn. rewrite app_nil_r. repeat split; reflexivity.
  - cbn [for_each]. unfold mbind, Handler_bind.
    destruct (Hf x w) as (w1 & E1 & D1 & O1). rewrite E1.
    destruct (IH w1) as (w2 & E2 & D2 & O2). exists w2.
    split; [exact E2|]. split; [congruence|].
    rewrite O2, O1. cbn [List.map List.concat]. now rewrite <- app_assoc.
Qed.

Lemma try_send_delivers mail line (on_error : string -> LogLine) o w :
  sendEmail_fails o (mail_calls w) = false ->
  exists w',
    try_catch (send mail ;; write_console line)
              (fun e => write_console (on_error e)) o w = (Value tt, w') /\
    db w' = db w /\ outbox w' = outbox w ++ [mail] /\
    mail_calls w' = S (mail_calls w).
Proof.
  intros Hok. unfold try_catch, send, write_console, mbind, Handler_bind.
  rewrite Hok. eexists. repeat split; reflexivity.
Qed.

(** Seeding appends exactly the rows of [seeded_rows]. *)
Lemma seed_timeline_rows projectId (items : list (string * string)) :
  forall o w, exists w',
    for_each items (fun timelineItem =>
      storage.createProjectTimeline projectId
        (fst timelineItem) (snd timelineItem) "pending" None) o w
    = (Value tt, w') /\
    projectTimeline (db w')
      = projectTimeline (db w) ++ seeded_rows projectId (projectTimeline (db w)) items /\
    paymentStages (db w') = paymentStages (db w) /\
    projects (db w') = projects (db w) /\
    users (db w') = users (db w) /\
    notifications (db w') = notifications (db w) /\
    budgetNegotiations (db w') = budgetNegotiations (db w) /\
    outbox w' = outbox w.
Proof.
  induction items as [|item rest IH]; intros o w.
  - exists w. cbn. rewrite app_nil_r. repeat split; reflexivity.
  - cbn [for_each seeded_rows]. unfold mbind, Handler_bind.
    unfold storage.createProjectTimeline at 1. unfold modify.
    match goal with |- context [for_each rest ?f o ?w1] =>
      destruct (IH o w1) as (w' & E & HT & HS & HP & HU & HN & HB & HO) end.
    exists w'. split; [exact E|]. cbn in HT, HS, HP, HU, HN, HB, HO.
    rewrite HT, <- app_assoc. repeat split; assumption.
Qed.

Lemma seeded_rows_titles projectId existing items :
  List.map ProjectTimeline.title (seeded_rows projectId existing items)
  = List.map fst items /\
  Forall (fun row => ProjectTimeline.projectId row = projectId /\
                     ProjectTimeline.status row = "pending" /\
                     ProjectTimeline.estimatedDate row = None)
         (seeded_rows projectId existing items).
Proof.
  revert existing. induction items as [|item rest IH]; intros existing.
  - split; constructor.
  - cbn [seeded_rows List.map]. destruct (IH (existing ++
      [ {| ProjectTimeline.id := next_id ProjectTimeline.id existing;
           ProjectTimeline.projectId := projectId;
           ProjectTimeline.title := fst item;
           ProjectTimeline.description := snd item;
           ProjectTimeline.status := "pending";
           ProjectTimeline.estimatedDate := None |} ])) as [Ht Hf].
    split; [cbn; now rewrite Ht | constructor; [repeat split | exact Hf]].
Qed.

(** The mails about the stages that can be paid at once: without failures
    of the mailer each one is delivered, in the order of the stages. *)
Lemma available_mails_run client project (stages : list PaymentStage.t) o :
  (forall n, sendEmail_fails o n = false) ->
  forall w, exists w',
    for_each stages (fun stage =>
      try_catch
        (send (stage_available_mail client project stage);;
         write_console
           (console_log ("📧 Email de etapa disponible enviado a cliente: "
                         +:+ User.email client +:+ " para etapa: "
                         +:+ PaymentStage.stageName stage)))
        (fun emailError =>
           write_console
             (console_error
                ("❌ Error enviando email de etapa disponible a cliente: "
                 +:+ emailError)))) o w
    = (Value tt, w') /\
    db w' = db w /\
    outbox w' = outbox w ++ List.map (stage_available_mail client project) stages.
Proof.
  intros Hok. induction stages as [|stage rest IH]; intros w.
  - exists w. cbn. rewrite app_nil_r. repeat split; reflexivity.
  - cbn [for_each]. unfold mbind at 1. unfold Handler_bind at 1.
    destruct (try_send_delivers (stage_available_mail client project stage)
                (console_log ("📧 Email de etapa disponible enviado a cliente: "
                              +:+ User.email client +:+ " para etapa: "
                              +:+ PaymentStage.stageName stage))
                (fun emailError =>
                   console_error
                     ("❌ Error enviando email de etapa disponible a cliente: "
                      +:+ emailError)) o w (Hok _)) as (w1 & E1 & D1 & O1 & _).
    rewrite E1. destruct (IH w1) as (w2 & E2 & D2 & O2).
    exists w2. split; [exact E2|]. split; [congruence|].
    rewrite O2, O1. cbn [List.map]. now rewrite <- app_assoc.
Qed.

(** What posting stages for an existing project does to the outbox and to
    the timeline, step by step. *)
Lemma payment_stages_run :
  forall (o : Oracle) (w : World) (projectId : Z) (stages : list StageSpec.t)
         (project : Project.t),
    project_of w projectId = Some project ->
    exists created w',
      post_payment_stages projectId stages o w
      = (mkResponse 200 (json_stages created), w') /\
      created = created_rows project projectId (paymentStages (db w)) stages /\
      Forall2 (created_from project projectId) stages created /\
      paymentStages (db w') = paymentStages (db w) ++ created /\
      projects (db w') = projects (db w) /\
      users (db w') = users (db w) /\
      notifications (db w') = notifications (db w) /\
      budgetNegotiations (db w') = budgetNegotiations (db w) /\
      projectTimeline (db w')
        = projectTimeline (db w) ++
          (if has_timeline w projectId then []
           else seeded_rows projectId (projectTimeline (db w)) timelineItems) /\
      (match user_of w (Project.clientId project) with
       | Some client =>
           if Js.truthy_string (User.email client)
           then (forall n, sendEmail_fails o n = false) ->
                outbox w' = outbox w ++
                            List.map (stage_available_mail client project)
                                     (payable_at_once created)
           else outbox w' = outbox w
       | None => outbox w' = outbox w
       end).
Proof.
  intros o w projectId stages project Hproject.
  unfold post_payment_stages, route, storage.getProject, gets.
  unfold mbind at 1. unfold Handler_bind at 1. unfold project_of in Hproject.
  rewrite Hproject.
  unfold mbind at 1. unfold Handler_bind at 1.
  destruct (create_stages_effects project projectId stages [] [] o w)
    as (created & w1 & E & HS & HU & HP & HT & HN & HB & HO & HL & HR).
  rewrite E. cbn [app].
  set (mails := when _ _).
  assert (Hmails : exists w2,
             mails o w1 = (Value tt, w2) /\ db w2 = db w1 /\
             match user_of w (Project.clientId project) with
             | Some client =>
                 if Js.truthy_string (User.email client)
                 then (forall n, sendEmail_fails o n = false) ->
                      outbox w2 = outbox w ++
                                  List.map (stage_available_mail client project)
                                           (payable_at_once created)
                 else outbox w2 = outbox w
             | None => outbox w2 = outbox w
             end).
  { subst mails. unfold user_of. rewrite <- HU.
    destruct (0 <? Z.of_nat (length (payable_at_once created))) eqn:Hany; cbn [when].
    - unfold storage.getUserById, gets. unfold mbind at 1. unfold Handler_bind at 1.
      destruct (find_by_id User.id (Project.clientId project) (users (db w1)))
        as [client|]; [|exists w1; repeat split; assumption].
      destruct (Js.truthy_string (User.email client)); cbn [when];
        [|exists w1; repeat split; assumption].
      match goal with
      | |- context [for_each ?xs ?f o w1] =>
          assert (Hq : quiet (for_each xs f))
            by (apply quiet_for_each; intros stage; apply quiet_try_send;
                apply quiet_write_console);
          destruct (Hq o w1) as (w2 & E2 & D2)
      end.
      exists w2. split; [exact E2|]. split; [exact D2|].
      intros Hok.
      destruct (available_mails_run client project (payable_at_once created) o Hok w1)
        as (w2' & E2' & _ & O2').
      assert (Hsame : (Value tt, w2) = (Value tt, w2'))
        by exact (eq_trans (eq_sym E2) E2').
      injection Hsame as <-. now rewrite O2', HO.
    - assert (Hnone : payable_at_once created = []).
      { destruct (payable_at_once created); [reflexivity|].
        apply Z.ltb_ge in Hany. cbn [length] in Hany. lia. }
      exists w1. split; [reflexivity|]. split; [reflexivity|].
      rewrite Hnone. cbn [List.map]. rewrite app_nil_r.
      destruct (find_by_id User.id (Project.clientId project) (users (db w1)))
        as [client|]; [|exact HO].
      destruct (Js.truthy_string (User.email client)); [intros _|]; exact HO. }
  unfold mbind at 1. unfold Handler_bind at 1.
  destruct Hmails as (w2 & E2 & D2 & HO2). rewrite E2.
  unfold storage.hasProjectTimeline, gets.
  unfold mbind at 1. unfold Handler_bind at 1.
  assert (Hhas : List.existsb (fun t => ProjectTimeline.projectId t =? projectId)
                   (projectTimeline (db w2)) = has_timeline w projectId).
  { unfold has_timeline. now rewrite D2, HT. }
  rewrite Hhas.
  destruct (has_timeline w projectId); cbn [negb when].
  - unfold mbind, mret, Handler_bind, Handler_ret.
    exists created, w2. rewrite D2, app_nil_r.
    split; [reflexivity|]. repeat split; try assumption.
  - destruct (seed_timeline_rows projectId timelineItems o w2)
      as (w3 & E3 & HT3 & HS3 & HP3 & HU3 & HN3 & HB3 & HO3).
    unfold mbind at 1. unfold Handler_bind at 1. rewrite E3.
    unfold mret, Handler_ret. exists created, w3.
    split; [reflexivity|]. split; [exact HR|]. split; [exact HL|].
    rewrite HS3, HP3, HU3, HN3, HB3, HT3, D2, HT.
    repeat split; try assumption.
    destruct (user_of w (Project.clientId project)) as [client|];
      [|now rewrite HO3].
    destruct (Js.truthy_string (User.email client));
      [intros Hok; rewrite HO3; now apply HO2 | now rewrite HO3].
Qed.

Lemma db_ext (d d' : Db) :
  users d = users d' -> projects d = projects d' ->
  paymentStages d = paymentStages d' ->
  budgetNegotiations d = budgetNegotiations d' ->
  notifications d = notifications d' ->
  projectTimeline d = projectTimeline d' -> d = d'.
Proof. destruct d, d'; cbn; intros; congruence. Qed.

Lemma payable_names project projectId stages created :
  Forall2 (created_from project projectId) stages created ->
  List.map PaymentStage.stageName (payable_at_once created)
  = List.map StageSpec.name (immediate_entries stages).
Proof.
  induction 1 as [|stage row stages created Hrow _ IH]; [reflexivity|].
  unfold payable_at_once, immediate_entries in *. cbn [List.filter].
  destruct Hrow as (_ & Hname & _ & Hprogress & _). rewrite Hprogress.
  destruct (StageSpec.requiredProgress stage =? 0); cbn [List.map];
    now rewrite ?Hname, IH.
Qed.

(** X1. Posting stages for an existing project seeds the project's timeline
    once: a project that has a timeline row keeps its timeline as it is; a
    project without one gains the six standard rows, in the order of the
    list, each pending and without a date; afterwards the project has a
    timeline, so that posting stages again, whatever the stages, adds no
    row. *)
Theorem timeline_is_seeded_once :
  forall (o : Oracle) (w : World) (projectId : Z) (stages : list StageSpec.t)
         (project : Project.t),
    project_of w projectId = Some project ->
    let w' := snd (post_payment_stages projectId stages o w) in
    (if has_timeline w projectId
     then projectTimeline (db w') = projectTimeline (db w)
     else exists rows,
         projectTimeline (db w') = projectTimeline (db w) ++ rows /\
         List.map ProjectTimeline.title rows = List.map fst timelineItems /\
         length rows = 6%nat /\
         Forall (seeded_for projectId) rows) /\
    has_timeline w' projectId = true /\
    forall o' stages',
      projectTimeline (db (snd (post_payment_stages projectId stages' o' w')))
      = projectTimeline (db w').
Proof.
  intros o w projectId stages project Hproject.
  destruct (payment_stages_run o w projectId stages project Hproject)
    as (created & w1 & E & _ & _ & _ & HP & _ & _ & _ & HT & _).
  rewrite E. cbn [snd].
  assert (Hhas : has_timeline w1 projectId = true).
  { unfold has_timeline at 1. rewrite HT.
    destruct (has_timeline w projectId) eqn:Hw.
    - rewrite app_nil_r. exact Hw.
    - rewrite existsb_app. apply orb_true_iff. right.
      unfold timelineItems. cbn [seeded_rows existsb ProjectTimeline.projectId].
      now rewrite Z.eqb_refl. }
  split; [|split; [exact Hhas|]].
  - destruct (has_timeline w projectId).
    + now rewrite HT, app_nil_r.
    + exists (seeded_rows projectId (projectTimeline (db w)) timelineItems).
      destruct (seeded_rows_titles projectId (projectTimeline (db w)) timelineItems)
        as [Htitles Hrows].
      split; [exact HT|]. split; [exact Htitles|]. split; [|exact Hrows].
      rewrite <- (List.length_map ProjectTimeline.title), Htitles. reflexivity.
  - intros o' stages'.
    assert (Hproject' : project_of w1 projectId = Some project).
    { unfold project_of. rewrite HP. exact Hproject. }
    destruct (payment_stages_run o' w1 projectId stages' project Hproject')
      as (created' & w2 & E' & _ & _ & _ & _ & _ & _ & _ & HT' & _).
    rewrite E'. cbn [snd]. rewrite HT', Hhas. apply app_nil_r.
Qed.

Lemma timeline_is_seeded_once_witness :
  project_of Sample.start 7 = Some Sample.shop /\
  has_timeline (snd (post_payment_stages 7 Sample.two_halves Sample.oracle Sample.start)) 7
  = true.
Proof.
  split; [reflexivity|].
  exact (proj1 (proj2 (timeline_is_seeded_once Sample.oracle Sample.start 7
                         Sample.two_halves Sample.shop eq_refl))).
Defined.

(** X2. When the project's client has an address and the mailer accepts
    every message, posting stages sends one mail for every created stage
    whose required progress is 0 and no other: in the order of the request,
    to the client's address, each naming the project and its stage; these
    stages are the entries of the request with required progress 0. *)
Theorem payable_stages_are_announced_to_the_client :
  forall (o : Oracle) (w : World) (projectId : Z) (stages : list StageSpec.t)
         (project : Project.t) (client : User.t),
    project_of w projectId = Some project ->
    user_of w (Project.clientId project) = Some client ->
    Js.truthy_string (User.email client) = true ->
    (forall n, sendEmail_fails o n = false) ->
    exists created,
      fst (post_payment_stages projectId stages o w)
      = mkResponse 200 (json_stages created) /\
      outbox (snd (post_payment_stages projectId stages o w))
      = outbox w ++ List.map (stage_available_mail client project)
                             (payable_at_once created) /\
      List.map PaymentStage.stageName (payable_at_once created)
      = List.map StageSpec.name (immediate_entries stages).
Proof.
  intros o w projectId stages project client Hproject Hclient Hmail Hok.
  destruct (payment_stages_run o w projectId stages project Hproject)
    as (created & w1 & E & _ & HF & _ & _ & _ & _ & _ & _ & HO).
  rewrite E. cbn [fst snd]. rewrite Hclient, Hmail in HO.
  exists created. split; [reflexivity|]. split; [exact (HO Hok)|].
  exact (payable_names _ _ _ _ HF).
Qed.

Lemma payable_stages_are_announced_to_the_client_witness :
  exists created,
    fst (post_payment_stages 7 Sample.two_halves Sample.oracle Sample.start)
    = mkResponse 200 (json_stages created) /\
    outbox (snd (post_payment_stages 7 Sample.two_halves Sample.oracle Sample.start))
    = outbox Sample.start ++ List.map (stage_available_mail Sample.ana Sample.shop)
                                     (payable_at_once created) /\
    List.map PaymentStage.stageName (payable_at_once created)
    = List.map StageSpec.name (immediate_entries Sample.two_halves).
Proof.
  apply (payable_stages_are_announced_to_the_client Sample.oracle Sample.start 7
           Sample.two_halves Sample.shop Sample.ana);
    [reflexivity | reflexivity | reflexivity | intros n; reflexivity].
Defined.

(** X3. A project whose client is not in the user table, or whose client
    has no address, gets its stages without any mail. *)
Theorem no_stage_mail_without_an_address :
  forall (o : Oracle) (w : World) (projectId : Z) (stages : list StageSpec.t)
         (project : Project.t),
    project_of w projectId = Some project ->
    match user_of w (Project.clientId project) with
    | Some client => Js.truthy_string (User.email client) = false
    | None => True
    end ->
    Successful (fst (post_payment_stages projectId stages o w)) /\
    outbox (snd (post_payment_stages projectId stages o w)) = outbox w.
Proof.
  intros o w projectId stages project Hproject Hnone.
  destruct (payment_stages_run o w projectId stages project Hproject)
    as (created & w1 & E & _ & _ & _ & _ & _ & _ & _ & _ & HO).
  rewrite E. cbn [fst snd]. split; [reflexivity|].
  destruct (user_of w (Project.clientId project)) as [client|]; [|exact HO].
  now rewrite Hnone in HO.
Qed.

(** X4. The reply to a request for stages and the database it leaves do not
    depend on the mailer, the clock or any other circumstance of the run: a
    mail that fails is logged and the request goes on. *)
Theorem stage_creation_ignores_the_mailer :
  forall (o o' : Oracle) (w : World) (projectId : Z) (stages : list StageSpec.t),
    fst (post_payment_stages projectId stages o w)
    = fst (post_payment_stages projectId stages o' w) /\
    db (snd (post_payment_stages projectId stages o w))
    = db (snd (post_payment_stages projectId stages o' w)).
Proof.
  intros o o' w projectId stages.
  destruct (project_of w projectId) as [project|] eqn:Hproject.
  - destruct (payment_stages_run o w projectId stages project Hproject)
      as (created & w1 & E & HR & _ & HS & HP & HU & HN & HB & HT & _).
    destruct (payment_stages_run o' w projectId stages project Hproject)
      as (created' & w1' & E' & HR' & _ & HS' & HP' & HU' & HN' & HB' & HT' & _).
    rewrite E, E'. cbn [fst snd].
    assert (created = created') as <- by congruence.
    split; [reflexivity|]. apply db_ext; congruence.
  - unfold post_payment_stages, route, storage.getProject, gets, respond.
    unfold mbind, Handler_bind. unfold project_of in Hproject.
    rewrite Hproject. split; reflexivity.
Qed.

(** ** Submission: notifications and mails *)

(** Without failures the loop over the administrators appends one row per
    administrator and touches nothing else. *)
Lemma notify_admins_rows (admins : list User.t) (note : User.t -> InsertNotification.t) o :
  (forall n, createNotification_fails o n = false) ->
  forall w, exists w',
    for_each admins (fun admin => storage.createNotification (note admin)) o w
    = (Value tt, w') /\
    notifications (db w')
    = notifications (db w)
      ++ notification_rows (notifications (db w)) (List.map note admins) /\
    paymentStages (db w') = paymentStages (db w) /\
    users (db w') = users (db w) /\
    projects (db w') = projects (db w) /\
    budgetNegotiations (db w') = budgetNegotiations (db w) /\
    projectTimeline (db w') = projectTimeline (db w) /\
    outbox w' = outbox w /\ mail_calls w' = mail_calls w /\
    console w' = console w /\ clock_reads w' = clock_reads w.
Proof.
  intros Hok. induction admins as [|admin rest IH]; intros w.
  - exists w. cbn. rewrite app_nil_r. repeat split; reflexivity.
  - cbn [for_each List.map notification_rows]. unfold mbind, Handler_bind.
    rewrite createNotification_run, Hok.
    match goal with |- context [for_each rest ?f o ?w1] =>
      destruct (IH w1) as (w' & E & HN & HS & HU & HP & HB & HT & HO & HM & HC & HK)
    end.
    exists w'. split; [exact E|]. cbn in HN, HS, HU, HP, HB, HT, HO, HM, HC, HK.
    rewrite HN, <- app_assoc. repeat split; assumption.
Qed.


(** The whole effect of a submission whose notifications are written. *)
Lemma confirm_payment_effects :
  forall (o : Oracle) (w : World) (user : AuthUser.t) (stageId : Z)
         (paymentMethod : string) (field : ProofFileInfoField)
         (proofFile : option UploadedFile.t) stage project client,
  field <> field_unparsable ->
  stage_of w stageId = Some stage ->
  project_of w (PaymentStage.projectId stage) = Some project ->
  user_of w (Project.clientId project) = Some client ->
  (forall n, createNotification_fails o n = false) ->
  let (r, w') := post_confirm_payment user stageId paymentMethod field proofFile o w in
  Successful r /\
  notifications (db w')
  = notifications (db w)
    ++ notification_rows (notifications (db w))
         (List.map (submission_note client stage paymentMethod proofFile) (admins_of w)) /\
  outbox w'
  = outbox w ++
    (if sendEmail_fails o (mail_calls w) then []
     else proof_mail_to_admin client project stage paymentMethod proofFile (info_of field)
          :: (if sendEmail_fails o (S (mail_calls w)) then []
              else [proof_mail_to_client client project stage paymentMethod])) /\
  mail_calls w'
  = (if sendEmail_fails o (mail_calls w) then S (mail_calls w)
     else S (S (mail_calls w))).
Proof.
  intros o w user stageId paymentMethod field proofFile stage project client
         Hf Hs Hp Hc Hok.
  pose proof (find_updated_stage w stageId stage) as Hfind.
  specialize (fun u => Hfind u Hs).
  unfold post_confirm_payment. unfold_handler.
  destruct field as [| |info]; [|contradiction|];
    cbn; rewrite Hs; cbn; rewrite Hp; cbn; rewrite Hc; cbn;
    rewrite build_proofFileUrl_run; cbn.
  all: destruct proofFile as [file|]; cbn.
  all: rewrite Hfind.
  all: match goal with
       | |- context [for_each ?l (fun admin => storage.createNotification (@?note admin)) ?oo ?w1] =>
           destruct (notify_admins_rows l note oo Hok w1)
             as (w2 & E & HN & HS & HU & HP & HB & HT & HO & HM & HC & HK)
       end.
  all: rewrite E; cbn in HN, HS, HU, HP, HB, HT, HO, HM, HC, HK.
  all: cbn; rewrite HM, HO.
  all: destruct (sendEmail_fails o (mail_calls w)) eqn:F1; cbn;
       [| destruct (sendEmail_fails o (S (mail_calls w))) eqn:F2; cbn ].
  all: rewrite ?app_nil_r, <- ?app_assoc.
  all: (split; [reflexivity|]; split; [exact HN|]; split; reflexivity).
Qed.

(** The loop over the administrators writes to the notification table only,
    also when it is cut short. *)
Lemma notify_admins_frame (admins : list User.t) (note : User.t -> InsertNotification.t) :
  forall o w,
    let (result, w') :=
      for_each admins (fun admin => storage.createNotification (note admin)) o w in
    paymentStages (db w') = paymentStages (db w) /\
    users (db w') = users (db w) /\
    projects (db w') = projects (db w) /\
    budgetNegotiations (db w') = budgetNegotiations (db w) /\
    projectTimeline (db w') = projectTimeline (db w) /\
    outbox w' = outbox w /\ mail_calls w' = mail_calls w.
Proof.
  induction admins as [|admin rest IH]; intros o w.
  - cbn. repeat split; reflexivity.
  - cbn [for_each]. unfold mbind, Handler_bind. rewrite createNotification_run.
    destruct (createNotification_fails o (notification_writes w)).
    + cbn. repeat split; reflexivity.
    + match goal with |- context [for_each rest ?f o ?w1] =>
        specialize (IH o w1); destruct (for_each rest f o w1) as [result w']
      end.
      exact IH.
Qed.

(** The tables a submission never writes, whatever fails. *)
Lemma confirm_payment_frame :
  forall (o : Oracle) (w : World) (user : AuthUser.t) (stageId : Z)
         (paymentMethod : string) (field : ProofFileInfoField)
         (proofFile : option UploadedFile.t),
  let (r, w') := post_confirm_payment user stageId paymentMethod field proofFile o w in
  users (db w') = users (db w) /\
  projects (db w') = projects (db w) /\
  budgetNegotiations (db w') = budgetNegotiations (db w) /\
  projectTimeline (db w') = projectTimeline (db w) /\
  (paymentStages (db w') = paymentStages (db w) \/
   exists u, paymentStages (db w') =
             update_by_id PaymentStage.id stageId (PaymentStageUpdate.apply u)
                          (paymentStages (db w))).
Proof.
  intros o w user stageId paymentMethod field proofFile.
  unfold post_confirm_payment. unfold_handler.
  destruct field as [| |info]; cbn.
  2: { repeat split; auto. }
  all: destruct (find_by_id PaymentStage.id stageId (paymentStages (db w)))
         as [stage|]; cbn; [|repeat split; auto].
  all: destruct (find_by_id Project.id (PaymentStage.projectId stage)
                   (projects (db w))) as [project|]; cbn; [|repeat split; auto].
  all: destruct (find_by_id User.id (Project.clientId project) (users (db w)))
         as [client|]; cbn; [|repeat split; auto].
  all: rewrite build_proofFileUrl_run; cbn.
  all: match goal with
       | |- context [for_each ?l (fun admin => storage.createNotification (@?note admin)) ?oo ?w1] =>
           pose proof (notify_admins_frame l note oo w1) as F;
           destruct (for_each l (fun admin => storage.createNotification (note admin)) oo w1)
             as [result w2]
       end.
  all: destruct F as (HS & HU & HP & HB & HT & HO & HM).
  all: destruct proofFile as [file|]; cbn in HS, HU, HP, HB, HT, HO, HM.
  all: destruct result as [[]|r|e]; cbn.
  all: try (destruct (sendEmail_fails o (mail_calls w2)) eqn:F1; cbn;
            [| destruct (sendEmail_fails o (S (mail_calls w2))) eqn:F2; cbn ]).
  all: (split; [exact HU|]; split; [exact HP|]; split; [exact HB|];
        split; [exact HT|]; right; eexists; exact HS).
Qed.

(** ** What the payment handlers leave alone *)

Lemma approve_payment_frame :
  forall (o : Oracle) (w : World) (user : AuthUser.t) (stageId : Z),
  let (r, w') := post_approve_payment user stageId o w in
  users (db w') = users (db w) /\
  projects (db w') = projects (db w) /\
  budgetNegotiations (db w') = budgetNegotiations (db w) /\
  projectTimeline (db w') = projectTimeline (db w) /\
  (paymentStages (db w') = paymentStages (db w) \/
   exists u, paymentStages (db w') =
             update_by_id PaymentStage.id stageId (PaymentStageUpdate.apply u)
                          (paymentStages (db w))).
Proof.
  intros o w user stageId.
  unfold post_approve_payment. unfold_handler.
  destruct (List.existsb (String.eqb (AuthUser.role user)) ["admin"]); cbn;
    [|repeat split; auto].
  destruct (find_by_id PaymentStage.id stageId (paymentStages (db w)))
    as [stage|]; cbn; [|repeat split; auto].
  destruct (String.eqb (PaymentStage.status stage) "pending_verification"); cbn;
    [|repeat split; auto].
  destruct (find_by_id Project.id (PaymentStage.projectId stage)
              (projects (db w))) as [project|]; cbn; [|repeat split; auto].
  destruct (find_by_id User.id (Project.clientId project) (users (db w)))
    as [client|]; cbn; [|repeat split; auto].
  rewrite createNotification_run. cbn.
  destruct (createNotification_fails o (notification_writes w)); cbn.
  all: repeat (split; [reflexivity|]); right; eexists; reflexivity.
Qed.

Lemma reject_payment_frame :
  forall (o : Oracle) (w : World) (user : AuthUser.t) (stageId : Z) (reason : string),
  let (r, w') := post_reject_payment user stageId reason o w in
  users (db w') = users (db w) /\
  projects (db w') = projects (db w) /\
  budgetNegotiations (db w') = budgetNegotiations (db w) /\
  projectTimeline (db w') = projectTimeline (db w) /\
  (paymentStages (db w') = paymentStages (db w) \/
   exists u, paymentStages (db w') =
             update_by_id PaymentStage.id stageId (PaymentStageUpdate.apply u)
                          (paymentStages (db w))).
Proof.
  intros o w user stageId reason.
  unfold post_reject_payment. unfold_handler.
  destruct (List.existsb (String.eqb (AuthUser.role user)) ["admin"]); cbn;
    [|repeat split; auto].
  destruct (find_by_id PaymentStage.id stageId (paymentStages (db w)))
    as [stage|]; cbn; [|repeat split; auto].
  destruct (String.eqb (PaymentStage.status stage) "pending_verification"); cbn;
    [|repeat split; auto].
  destruct (find_by_id Project.id (PaymentStage.projectId stage)
              (projects (db w))) as [project|]; cbn; [|repeat split; auto].
  rewrite createNotification_run. cbn.
  destruct (createNotification_fails o (notification_writes w)); cbn.
  all: repeat (split; [reflexivity|]); right; eexists; reflexivity.
Qed.

Lemma update_keeps_terms stageId u rows :
  List.map terms_of
    (update_by_id PaymentStage.id stageId (PaymentStageUpdate.apply u) rows)
  = List.map terms_of rows.
Proof.
  unfold update_by_id. rewrite List.map_map. apply List.map_ext.
  intros s. destruct (PaymentStage.id s =? stageId); reflexivity.
Qed.

Lemma frame_touches_only stageId w w' :
  users (db w') = users (db w) /\
  projects (db w') = projects (db w) /\
  budgetNegotiations (db w') = budgetNegotiations (db w) /\
  projectTimeline (db w') = projectTimeline (db w) /\
  (paymentStages (db w') = paymentStages (db w) \/
   exists u, paymentStages (db w') =
             update_by_id PaymentStage.id stageId (PaymentStageUpdate.apply u)
                          (paymentStages (db w))) ->
  only_stage_touched stageId w w'.
Proof.
  intros (HU & HP & HB & HT & HS). unfold only_stage_touched.
  repeat split; try assumption.
  - destruct HS as [-> | [u ->]]; [reflexivity | apply update_keeps_terms].
  - intros other Hother. unfold stage_of.
    destruct HS as [-> | [u ->]]; [reflexivity|].
    apply find_update_other; [intros s; reflexivity | congruence].
Qed.

(** X5. A submission, an approval and a rejection for a stage, whoever
    calls and whatever fails, change no other stage, add or remove no
    stage, and leave the terms of every stage (its id, project, name,
    percentage, amount and required progress) as they were; the users, the
    projects, the negotiations and the timeline are not written. *)
Theorem payment_handlers_touch_only_their_stage :
  forall (o : Oracle) (w : World) (user : AuthUser.t) (stageId : Z)
         (paymentMethod reason : string) (field : ProofFileInfoField)
         (proofFile : option UploadedFile.t),
    only_stage_touched stageId w
      (snd (post_confirm_payment user stageId paymentMethod field proofFile o w)) /\
    only_stage_touched stageId w (snd (post_approve_payment user stageId o w)) /\
    only_stage_touched stageId w (snd (post_reject_payment user stageId reason o w)).
Proof.
  intros o w user stageId paymentMethod reason field proofFile.
  pose proof (confirm_payment_frame o w user stageId paymentMethod field proofFile) as C.
  pose proof (approve_payment_frame o w user stageId) as A.
  pose proof (reject_payment_frame o w user stageId reason) as R.
  destruct (post_confirm_payment _ _ _ _ _ _ _) as [r1 w1].
  destruct (post_approve_payment _ _ _ _) as [r2 w2].
  destruct (post_reject_payment _ _ _ _ _) as [r3 w3].
  cbn [snd]. split; [|split]; apply frame_touches_only; assumption.
Qed.




(** X7. The two mails of a submission share one [try]: when the mailer
    accepts both, the administrator's mail and then the client's
    confirmation are sent; when it refuses the first, the confirmation to
    the client is not attempted at all; when it refuses the second, only
    the administrator's mail is out.  In every case the reply is a
    success. *)
Theorem submission_mails_share_one_try :
  forall (o : Oracle) (w : World) (user : AuthUser.t) (stageId : Z)
         (paymentMethod : string) (field : ProofFileInfoField)
         (proofFile : option UploadedFile.t)
         (stage : PaymentStage.t) (project : Project.t) (client : User.t),
    field <> field_unparsable ->
    stage_of w stageId = Some stage ->
    project_of w (PaymentStage.projectId stage) = Some project ->
    user_of w (Project.clientId project) = Some client ->
    (forall n, createNotification_fails o n = false) ->
    let (r, w') := post_confirm_payment user stageId paymentMethod field proofFile o w in
    let to_admin :=
      proof_mail_to_admin client project stage paymentMethod proofFile (info_of field) in
    let to_client := proof_mail_to_client client project stage paymentMethod in
    Successful r /\
    (sendEmail_fails o (mail_calls w) = true ->
     outbox w' = outbox w /\ mail_calls w' = S (mail_calls w)) /\
    (sendEmail_fails o (mail_calls w) = false ->
     sendEmail_fails o (S (mail_calls w)) = true ->
     outbox w' = outbox w ++ [to_admin]) /\
    (sendEmail_fails o (mail_calls w) = false ->
     sendEmail_fails o (S (mail_calls w)) = false ->
     outbox w' = outbox w ++ [to_admin; to_client]).
Proof.
  intros o w user stageId paymentMethod field proofFile stage project client
         Hf Hs Hp Hc Hok.
  pose proof (confirm_payment_effects o w user stageId paymentMethod field proofFile
                stage project client Hf Hs Hp Hc Hok) as R.
  destruct (post_confirm_payment _ _ _ _ _ _ _) as [r w'].
  destruct R as (HR & _ & HO & HM).
  split; [exact HR|]. split; [|split].
  - intros F1. rewrite F1 in HO, HM. now rewrite app_nil_r in HO.
  - intros F1 F2. now rewrite F1, F2 in HO.
  - intros F1 F2. now rewrite F1, F2 in HO.
Qed.

Lemma submission_mails_share_one_try_witness :
  let (r, w') :=
    post_confirm_payment Sample.as_client 1 "Ueno Bank" field_absent
      (Some Sample.receipt) Sample.no_mail Sample.staged in
  Successful r /\ outbox w' = outbox Sample.staged /\
  mail_calls w' = S (mail_calls Sample.staged).
Proof.
  pose proof (submission_mails_share_one_try Sample.no_mail Sample.staged
                Sample.as_client 1 "Ueno Bank" field_absent (Some Sample.receipt)
                (Sample.stage 1 Sample.staged) Sample.shop Sample.ana) as T.
  destruct (post_confirm_payment Sample.as_client 1 "Ueno Bank" field_absent
              (Some Sample.receipt) Sample.no_mail Sample.staged) as [r w'].
  destruct T as (HR & HF & _);
    [discriminate | vm_compute; reflexivity | vm_compute; reflexivity
    | vm_compute; reflexivity | intros n; reflexivity |].
  split; [exact HR|]. apply HF. reflexivity.
Defined.

(** X8. A submission has no guard on the stage's status and replaces the
    payment data as a whole: the stage of any status, also one already
    paid, ends in [pending_verification]; its new payment data has none of
    the keys of a rejection, whatever the data held before; and the instant
    of payment, the approver and the instant of approval keep their earlier
    values. *)
Theorem resubmission_forgets_rejection_and_keeps_approval :
  forall (o : Oracle) (w : World) (user : AuthUser.t) (stageId : Z)
         (paymentMethod : string) (field : ProofFileInfoField)
         (proofFile : option UploadedFile.t)
         (stage : PaymentStage.t) (project : Project.t) (client : User.t),
    field <> field_unparsable ->
    stage_of w stageId = Some stage ->
    project_of w (PaymentStage.projectId stage) = Some project ->
    user_of w (Project.clientId project) = Some client ->
    exists stage' data,
      stage_of (snd (post_confirm_payment user stageId paymentMethod field proofFile o w))
               stageId = Some stage' /\
      PaymentStage.status stage' = "pending_verification" /\
      PaymentStage.paymentData stage' = Some data /\
      (forall key, In key rejection_keys -> data !! key = None) /\
      PaymentStage.paidAt stage' = PaymentStage.paidAt stage /\
      PaymentStage.approvedBy stage' = PaymentStage.approvedBy stage /\
      PaymentStage.approvedAt stage' = PaymentStage.approvedAt stage.
Proof.
  intros o w user stageId paymentMethod field proofFile stage project client
         Hf Hs Hp Hc.
  pose proof (confirm_payment_run o w user stageId paymentMethod field proofFile
                stage project client Hf Hs Hp Hc) as R.
  destruct (post_confirm_payment _ _ _ _ _ _ _) as [r w']. cbn [snd].
  cbv zeta in R. destruct R as (HS & _).
  eexists _, _. split.
  { unfold stage_of. rewrite HS. apply find_updated_stage. exact Hs. }
  cbn. repeat split.
  intros key Hkey. apply confirmation_data_no_rejection_key. exact Hkey.
Qed.

Lemma resubmission_forgets_rejection_and_keeps_approval_witness :
  exists stage' data,
    stage_of (snd (post_confirm_payment Sample.as_client 1 "Efectivo" field_absent
                     None Sample.oracle Sample.approved)) 1 = Some stage' /\
    PaymentStage.status stage' = "pending_verification" /\
    PaymentStage.paymentData stage' = Some data /\
    (forall key, In key rejection_keys -> data !! key = None) /\
    PaymentStage.paidAt stage' = PaymentStage.paidAt (Sample.stage 1 Sample.approved) /\
    PaymentStage.approvedBy stage'
    = PaymentStage.approvedBy (Sample.stage 1 Sample.approved) /\
    PaymentStage.approvedAt stage'
    = PaymentStage.approvedAt (Sample.stage 1 Sample.approved).
Proof.
  apply (resubmission_forgets_rejection_and_keeps_approval Sample.oracle
           Sample.approved Sample.as_client 1 "Efectivo" field_absent None
           (Sample.stage 1 Sample.approved) Sample.shop Sample.ana);
    [discriminate | vm_compute; reflexivity | vm_compute; reflexivity
    | vm_compute; reflexivity].
Defined.

(** ** Submission, approval, rejection and download, one after the other *)

Lemma download_unpaid :
  forall (kind : DocumentKind) (o : Oracle) (w : World) (user : AuthUser.t)
         (stageId : Z) stage project,
    stage_of w stageId = Some stage ->
    project_of w (PaymentStage.projectId stage) = Some project ->
    Project.clientId project = AuthUser.id user ->
    PaymentStage.status stage <> "paid" ->
    get_stage_invoice kind user (Some stageId) o w
    = (mkResponse 400 (json_message "Esta etapa aún no ha sido pagada"), w).
Proof.
  intros kind o w user stageId stage project Hs Hp Howner Hunpaid.
  apply Z.eqb_eq in Howner. apply String.eqb_neq in Hunpaid.
  unfold get_stage_invoice. unfold_handler. cbn.
  rewrite Hs. cbn. rewrite Hp. cbn. rewrite Howner. cbn. rewrite Hunpaid. reflexivity.
Qed.

(** X9. What a client submits is still on the stage once an administrator
    has approved it: after a submission followed by an approval the stage
    is [paid], approved by that administrator, and carries the payment
    method, the reference name and the payment data of the submission. *)
Theorem submitted_evidence_survives_approval :
  forall (o o' : Oracle) (w : World) (submitter admin : AuthUser.t) (stageId : Z)
         (paymentMethod : string) (field : ProofFileInfoField)
         (proofFile : option UploadedFile.t)
         (stage : PaymentStage.t) (project : Project.t) (client : User.t),
    field <> field_unparsable ->
    stage_of w stageId = Some stage ->
    project_of w (PaymentStage.projectId stage) = Some project ->
    user_of w (Project.clientId project) = Some client ->
    AuthUser.role admin = "admin" ->
    let w1 := snd (post_confirm_payment submitter stageId paymentMethod field
                     proofFile o w) in
    let w2 := snd (post_approve_payment admin stageId o' w1) in
    exists paid,
      stage_of w2 stageId = Some paid /\
      PaymentStage.status paid = "paid" /\
      PaymentStage.approvedBy paid = Some (AuthUser.id admin) /\
      PaymentStage.paymentMethod paid = Some paymentMethod /\
      PaymentStage.proofFileUrl paid
      = reference_name stageId (clock o (clock_reads w)) proofFile (info_of field) /\
      PaymentStage.paymentData paid
      = Some (confirmation_data (AuthUser.id submitter)
                (clock o (if proof_given proofFile (info_of field)
                          then S (clock_reads w) else clock_reads w))
                paymentMethod proofFile (info_of field)).
Proof.
  intros o o' w submitter admin stageId paymentMethod field proofFile
         stage project client Hf Hs Hp Hc Hrole.
  pose proof (confirm_payment_run o w submitter stageId paymentMethod field proofFile
                stage project client Hf Hs Hp Hc) as R.
  pose proof (confirm_payment_frame o w submitter stageId paymentMethod field
                proofFile) as F.
  destruct (post_confirm_payment _ _ _ _ _ _ _) as [r1 w1]. cbn [snd].
  cbv zeta in R. destruct R as (HS & _). destruct F as (HU & HP & _).
  set (update := submission_update _ _ _ _ _ _ _) in HS.
  assert (Hs1 : stage_of w1 stageId = Some (PaymentStageUpdate.apply update stage)).
  { unfold stage_of. rewrite HS. apply find_updated_stage. exact Hs. }
  assert (Hp1 : project_of w1 (PaymentStage.projectId
                                 (PaymentStageUpdate.apply update stage))
                = Some project).
  { unfold project_of. rewrite HP. exact Hp. }
  assert (Hc1 : user_of w1 (Project.clientId project) = Some client).
  { unfold user_of. rewrite HU. exact Hc. }
  pose proof (approve_payment_run o' w1 admin stageId _ project client
                Hrole Hs1 eq_refl Hp1 Hc1) as A.
  destruct (post_approve_payment _ _ _ _) as [r2 w2]. cbn [snd].
  cbv zeta in A. destruct A as (HS2 & _).
  eexists. split.
  { unfold stage_of. rewrite HS2. apply find_updated_stage. exact Hs1. }
  cbn. repeat split.
Qed.

Lemma submitted_evidence_survives_approval_witness :
  exists paid,
    stage_of Sample.approved 1 = Some paid /\
    PaymentStage.status paid = "paid" /\
    PaymentStage.approvedBy paid = Some 9 /\
    PaymentStage.paymentMethod paid = Some "Ueno Bank".
Proof.
  destruct (submitted_evidence_survives_approval Sample.oracle Sample.oracle
              Sample.staged Sample.as_client Sample.as_admin 1 "Ueno Bank"
              field_absent (Some Sample.receipt)
              (Sample.stage 1 Sample.staged) Sample.shop Sample.ana)
    as (paid & Hs & Hst & Hby & Hm & _);
    [discriminate | vm_compute; reflexivity | vm_compute; reflexivity
    | vm_compute; reflexivity | reflexivity |].
  exists paid. split; [exact Hs|]. split; [exact Hst|]. split; [exact Hby | exact Hm].
Defined.

(** X10. An approval looks the project's client up and a rejection does
    not: for a stage that awaits verification in a project whose client is
    not in the user table, the approval is refused with 404 and changes
    nothing, while the rejection goes through, returns the stage to
    [available] and, when the notification can be written, succeeds with a
    notification addressed to the id of the missing client. *)
Theorem rejection_does_not_need_the_client :
  forall (o : Oracle) (w : World) (admin : AuthUser.t) (stageId : Z) (reason : string)
         (stage : PaymentStage.t) (project : Project.t),
    AuthUser.role admin = "admin" ->
    stage_of w stageId = Some stage ->
    PaymentStage.status stage = "pending_verification" ->
    project_of w (PaymentStage.projectId stage) = Some project ->
    user_of w (Project.clientId project) = None ->
    (let (r, w') := post_approve_payment admin stageId o w in
     r = mkResponse 404 (json_message "Cliente no encontrado") /\
     db w' = db w /\ outbox w' = outbox w) /\
    (let (r, w') := post_reject_payment admin stageId reason o w in
     (exists stage', stage_of w' stageId = Some stage' /\
                     PaymentStage.status stage' = "available") /\
     (createNotification_fails o (notification_writes w) = false ->
      Successful r /\
      exists notice,
        notifications (db w') = notifications (db w) ++ [notice] /\
        Notification.userId notice = Project.clientId project)).
Proof.
  intros o w admin stageId reason stage project Hrole Hs Hst Hp Hc.
  split.
  - apply String.eqb_eq in Hst.
    unfold post_approve_payment. unfold_handler.
    cbn. rewrite Hrole. cbn. rewrite Hs. cbn. rewrite Hst. cbn.
    rewrite Hp. cbn. rewrite Hc. cbn. repeat split.
  - pose proof (reject_payment_run o w admin stageId reason stage project
                  Hrole Hs Hst Hp) as R.
    destruct (post_reject_payment _ _ _ _ _) as [r w'].
    cbv zeta in R. destruct R as (HS & _ & HN).
    split.
    + eexists. split.
      * unfold stage_of. rewrite HS. apply find_updated_stage. exact Hs.
      * reflexivity.
    + intros Hok. rewrite Hok in HN. destruct HN as (-> & HN).
      split; [reflexivity|]. eexists. split; [exact HN | reflexivity].
Qed.

(** X11. A settlement document becomes available with the approval and not
    before: for the client who owns the project of a stage that awaits
    verification, either document is refused with 400; after an
    administrator approves the stage the same request is answered with the
    document of the stage, now [paid]; after a rejection instead it is
    still refused with 400. *)
Theorem document_is_available_once_approved :
  forall (kind : DocumentKind) (o o' : Oracle) (w : World) (admin owner : AuthUser.t)
         (stageId : Z) (reason : string)
         (stage : PaymentStage.t) (project : Project.t) (client : User.t),
    AuthUser.role admin = "admin" ->
    stage_of w stageId = Some stage ->
    PaymentStage.status stage = "pending_verification" ->
    project_of w (PaymentStage.projectId stage) = Some project ->
    user_of w (Project.clientId project) = Some client ->
    Project.clientId project = AuthUser.id owner ->
    InvalidState (fst (get_stage_invoice kind owner (Some stageId) o' w)) /\
    (exists document,
        fst (get_stage_invoice kind owner (Some stageId) o'
               (snd (post_approve_payment admin stageId o w)))
        = mkResponse 200 (pdf document) /\
        PaymentStage.id (doc_stage document) = stageId /\
        PaymentStage.status (doc_stage document) = "paid" /\
        PaymentStage.amount (doc_stage document) = PaymentStage.amount stage) /\
    InvalidState
      (fst (get_stage_invoice kind owner (Some stageId) o'
              (snd (post_reject_payment admin stageId reason o w)))).
Proof.
  intros kind o o' w admin owner stageId reason stage project client
         Hrole Hs Hst Hp Hc Howner.
  pose proof (find_by_id_key _ _ _ _ Hs) as Hid.
  split; [|split].
  - rewrite (download_unpaid kind o' w owner stageId stage project Hs Hp Howner);
      [reflexivity | rewrite Hst; discriminate].
  - pose proof (approve_payment_run o w admin stageId stage project client
                  Hrole Hs Hst Hp Hc) as A.
    pose proof (approve_payment_frame o w admin stageId) as F.
    destruct (post_approve_payment _ _ _ _) as [r1 w1]. cbn [snd].
    cbv zeta in A. destruct A as (HS & _). destruct F as (_ & HP & _).
    set (update := approval_update _ _ _) in HS.
    assert (Hs1 : stage_of w1 stageId = Some (PaymentStageUpdate.apply update stage)).
    { unfold stage_of. rewrite HS. apply find_updated_stage. exact Hs. }
    assert (Hp1 : project_of w1 (PaymentStage.projectId
                                   (PaymentStageUpdate.apply update stage))
                  = Some project).
    { unfold project_of. rewrite HP. exact Hp. }
    pose proof (download_run kind o' w1 owner stageId _ project
                  Hs1 Hp1 Howner eq_refl) as D.
    destruct (get_stage_invoice _ _ _ _ _) as [r2 w2]. cbn [fst].
    cbv zeta in D. destruct D as (_ & fileName & ->).
    eexists. split; [reflexivity|]. cbn. repeat split. exact Hid.
  - pose proof (reject_payment_run o w admin stageId reason stage project
                  Hrole Hs Hst Hp) as R.
    pose proof (reject_payment_frame o w admin stageId reason) as F.
    destruct (post_reject_payment _ _ _ _ _) as [r1 w1]. cbn [snd].
    cbv zeta in R. destruct R as (HS & _). destruct F as (_ & HP & _).
    set (update := rejection_update _ _ _ _) in HS.
    assert (Hs1 : stage_of w1 stageId = Some (PaymentStageUpdate.apply update stage)).
    { unfold stage_of. rewrite HS. apply find_updated_stage. exact Hs. }
    assert (Hp1 : project_of w1 (PaymentStage.projectId
                                   (PaymentStageUpdate.apply update stage))
                  = Some project).
    { unfold project_of. rewrite HP. exact Hp. }
    rewrite (download_unpaid kind o' w1 owner stageId _ project Hs1 Hp1 Howner);
      [reflexivity | discriminate].
Qed.

Lemma document_is_available_once_approved_witness :
  exists document,
    fst (get_stage_invoice Factura Sample.as_client (Some 1) Sample.oracle
           (snd (post_approve_payment Sample.as_admin 1 Sample.oracle Sample.submitted)))
    = mkResponse 200 (pdf document) /\
    PaymentStage.id (doc_stage document) = 1 /\
    PaymentStage.status (doc_stage document) = "paid" /\
    PaymentStage.amount (doc_stage document)
    = PaymentStage.amount (Sample.stage 1 Sample.submitted).
Proof.
  destruct (document_is_available_once_approved Factura Sample.oracle
              Sample.oracle Sample.submitted Sample.as_admin
              Sample.as_client 1 "ilegible"
              (Sample.stage 1 Sample.submitted) Sample.shop Sample.ana)
    as (_ & H & _);
    [reflexivity | vm_compute; reflexivity | vm_compute; reflexivity
    | vm_compute; reflexivity | vm_compute; reflexivity | reflexivity |].
  exact H.
Defined.

(** ** Replies to a negotiation *)

Lemma db_eta (d : Db) :
  {| users := users d; projects := projects d; paymentStages := paymentStages d;
     budgetNegotiations := budgetNegotiations d; notifications := notifications d;
     projectTimeline := projectTimeline d |} = d.
Proof. destruct d; reflexivity. Qed.

(** X12. A reply to a negotiation that does not exist is not refused: for
    every status, message and counter-price the handler answers 200 with an
    empty body, and neither the database nor the outbox changes. *)
Theorem reply_to_missing_negotiation_changes_nothing :
  forall Number_toString (o : Oracle) (w : World) (user : AuthUser.t)
         (negotiationId : Z) (status : string) (message : option string)
         (counterPrice : option CounterPrice),
    negotiation_of w negotiationId = None ->
    let (r, w') :=
      put_negotiation_respond Number_toString user negotiationId status
        message counterPrice o w in
    r = mkResponse 200 (json_negotiation None) /\
    db w' = db w /\ outbox w' = outbox w.
Proof.
  intros Number_toString o w user negotiationId status message counterPrice Hn.
  pose proof (update_by_id_absent BudgetNegotiation.id negotiationId
                (negotiation_with_status status) _ Hn) as Hsame.
  unfold negotiation_of in Hn.
  unfold put_negotiation_respond. unfold_handler.
  destruct (String.eqb status "accepted"); cbn -[truthy_price]; rewrite ?Hn;
    destruct (String.eqb status "countered" && truthy_price counterPrice);
    cbn -[truthy_price]; rewrite ?Hn; cbn -[truthy_price];
    rewrite Hsame, Hn, db_eta; repeat split.
Qed.

Lemma reply_to_missing_negotiation_changes_nothing_witness :
  let (r, w') :=
    put_negotiation_respond Sample.Number_toString Sample.as_admin 5 "accepted"
      None None Sample.oracle Sample.negotiating in
  r = mkResponse 200 (json_negotiation None) /\
  db w' = db Sample.negotiating /\ outbox w' = outbox Sample.negotiating.
Proof.
  apply (reply_to_missing_negotiation_changes_nothing Sample.Number_toString
           Sample.oracle Sample.negotiating Sample.as_admin 5 "accepted" None None).
  vm_compute. reflexivity.
Defined.

(** X13. The status of a reply is stored as it is given, without
    validation: a reply whose status is not [accepted], and that is not a
    counter-offer with a price, sets the negotiation's status to the given
    text and does nothing else: no project changes, no negotiation is
    added, no mail is sent. *)
Theorem other_replies_only_set_the_status :
  forall Number_toString (o : Oracle) (w : World) (user : AuthUser.t)
         (negotiationId : Z) (status : string) (message : option string)
         (counterPrice : option CounterPrice) (negotiation : BudgetNegotiation.t),
    negotiation_of w negotiationId = Some negotiation ->
    status <> "accepted" ->
    status <> "countered" \/ truthy_price counterPrice = false ->
    let (r, w') :=
      put_negotiation_respond Number_toString user negotiationId status
        message counterPrice o w in
    r = mkResponse 200
          (json_negotiation (Some (negotiation_with_status status negotiation))) /\
    budgetNegotiations (db w')
    = update_by_id BudgetNegotiation.id negotiationId
        (negotiation_with_status status) (budgetNegotiations (db w)) /\
    projects (db w') = projects (db w) /\
    paymentStages (db w') = paymentStages (db w) /\
    notifications (db w') = notifications (db w) /\
    outbox w' = outbox w.
Proof.
  intros Number_toString o w user negotiationId status message counterPrice
         negotiation Hn Haccepted Hcounter.
  assert (Hfind : find_by_id BudgetNegotiation.id negotiationId
                    (update_by_id BudgetNegotiation.id negotiationId
                       (negotiation_with_status status) (budgetNegotiations (db w)))
                  = Some (negotiation_with_status status negotiation)).
  { rewrite find_update_same by reflexivity. unfold negotiation_of in Hn.
    now rewrite Hn. }
  apply String.eqb_neq in Haccepted.
  assert (Hno : (String.eqb status "countered" && truthy_price counterPrice)%bool
                = false).
  { destruct Hcounter as [Hc | Hc].
    - apply String.eqb_neq in Hc. now rewrite Hc.
    - rewrite Hc. apply andb_false_r. }
  unfold put_negotiation_respond. unfold_handler.
  rewrite Haccepted, Hno. cbn. rewrite Hfind. repeat split.
Qed.

Lemma other_replies_only_set_the_status_witness :
  let (r, w') :=
    put_negotiation_respond Sample.Number_toString Sample.as_admin 1 "paid"
      None None Sample.oracle Sample.negotiating in
  r = mkResponse 200
        (json_negotiation (Some (negotiation_with_status "paid" Sample.proposal))) /\
  budgetNegotiations (db w')
  = update_by_id BudgetNegotiation.id 1
      (negotiation_with_status "paid") (budgetNegotiations (db Sample.negotiating)) /\
  projects (db w') = projects (db Sample.negotiating) /\
  paymentStages (db w') = paymentStages (db Sample.negotiating) /\
  notifications (db w') = notifications (db Sample.negotiating) /\
  outbox w' = outbox Sample.negotiating.
Proof.
  apply (other_replies_only_set_the_status Sample.Number_toString
           Sample.oracle Sample.negotiating Sample.as_admin 1 "paid" None None
           Sample.proposal);
    [vm_compute; reflexivity | discriminate | left; discriminate].
Defined.

Lemma concat_sent {A B} (p : A -> bool) (f : A -> B) (xs : list A) :
  List.concat (List.map (fun x => if p x then [f x] else []) xs)
  = List.map f (List.filter p xs).
Proof.
  induction xs as [|x rest IH]; [reflexivity|].
  cbn [List.map List.concat List.filter]. rewrite IH. now destruct (p x).
Qed.

(** The mails of an acceptance when the mailer accepts every message. *)
Lemma acceptance_mails_run project client negotiation message o :
  (forall n, sendEmail_fails o n = false) ->
  forall w, exists w',
    acceptance_mails project client negotiation message o w = (Value tt, w') /\
    db w' = db w /\
    outbox w'
    = outbox w
      ++ List.map (fun admin =>
                     acceptance_mail (User.email admin) project client negotiation
                                     message)
                  (reachable_admins w)
      ++ [acceptance_mail (system_mailbox o) project client negotiation message].
Proof.
  intros Hok w. unfold acceptance_mails.
  unfold storage.getUsersByRole, gets.
  unfold mbind at 1. unfold Handler_bind at 1. cbv beta iota.
  unfold mbind at 1. unfold Handler_bind at 1.
  match goal with
  | |- context [for_each ?l ?f o w] =>
      destruct (for_each_sends l f
                  (fun admin =>
                     if Js.truthy_string (User.email admin)
                     then [acceptance_mail (User.email admin) project client
                             negotiation message]
                     else []) o) with (w := w) as (w1 & E1 & D1 & O1)
  end.
  { intros admin w0. destruct (Js.truthy_string (User.email admin)); cbn [when].
    - destruct (try_send_delivers
                  (acceptance_mail (User.email admin) project client negotiation message)
                  (console_log
                     ("✅ Email de aceptación de contraoferta enviado a admin: "
                      +:+ User.email admin))
                  (fun adminError =>
                     console_error
                       ("❌ Error enviando email de aceptación a admin "
                        +:+ Js.string_of_Z (User.id admin) +:+ ": " +:+ adminError))
                  o w0 (Hok _)) as (w0' & E & D & O & _).
      exists w0'. split; [exact E|]. split; assumption.
    - exists w0. unfold try_catch, mret, Handler_ret.
      rewrite app_nil_r. repeat split. }
  rewrite E1.
  unfold env. unfold mbind at 1. unfold Handler_bind at 1. cbv beta iota.
  match goal with
  | |- context [try_catch ?b ?h o w1] =>
      assert (Hsys : exists w2, try_catch b h o w1 = (Value tt, w2) /\
                                db w2 = db w1 /\
                                outbox w2 = outbox w1 ++
                                  [acceptance_mail (system_mailbox o) project client
                                     negotiation message])
  end.
  { unfold try_catch. unfold mbind at 1. unfold Handler_bind at 1. cbv beta iota.
    unfold send, write_console, mbind, Handler_bind. rewrite Hok.
    eexists. repeat split. }
  destruct Hsys as (w2 & E2 & D2 & O2). exists w2.
  split; [exact E2|]. split; [congruence|].
  rewrite O2, O1, concat_sent, <- app_assoc. reflexivity.
Qed.

(** X14. When a negotiation is accepted, its project and the project's
    client exist and the mailer accepts every message, the acceptance is
    mailed once to every administrator that has an address, in the order
    of the user table, and then once to the mailbox of the system, and to
    nobody else; every mail names the project and the accepted price. *)
Theorem acceptance_is_mailed_to_administrators_and_system :
  forall Number_toString (o : Oracle) (w : World) (user : AuthUser.t)
         (negotiationId : Z) (message : option string)
         (counterPrice : option CounterPrice)
         (negotiation : BudgetNegotiation.t) (project : Project.t) (client : User.t),
    negotiation_of w negotiationId = Some negotiation ->
    project_of w (BudgetNegotiation.projectId negotiation) = Some project ->
    user_of w (Project.clientId project) = Some client ->
    (forall n, sendEmail_fails o n = false) ->
    let (r, w') :=
      put_negotiation_respond Number_toString user negotiationId "accepted"
        message counterPrice o w in
    let accepted :=
      project_with_price_and_status
        (BudgetNegotiation.proposedPrice negotiation) "in_progress" project in
    outbox w'
    = outbox w
      ++ List.map (fun admin =>
                     acceptance_mail (User.email admin) accepted client negotiation
                                     message)
                  (reachable_admins w)
      ++ [acceptance_mail (system_mailbox o) accepted client negotiation message].
Proof.
  intros Number_toString o w user negotiationId message counterPrice
         negotiation project client Hn Hp Hc Hok.
  assert (Hfound : find_by_id Project.id (BudgetNegotiation.projectId negotiation)
                     (update_by_id Project.id (BudgetNegotiation.projectId negotiation)
                        (project_with_price_and_status
                           (BudgetNegotiation.proposedPrice negotiation) "in_progress")
                        (projects (db w)))
                   = Some (project_with_price_and_status
                             (BudgetNegotiation.proposedPrice negotiation)
                             "in_progress" project)).
  { rewrite find_update_same by reflexivity. unfold project_of in Hp.
    now rewrite Hp. }
  unfold put_negotiation_respond. unfold_handler. cbn. rewrite Hn. cbn.
  rewrite Hfound. cbn. rewrite Hc. cbn.
  match goal with
  | |- context [acceptance_mails ?p client negotiation message o ?w1] =>
      destruct (acceptance_mails_run p client negotiation message o Hok w1)
        as (w2 & E & D & O)
  end.
  rewrite E. cbn. rewrite O. reflexivity.
Qed.

Lemma acceptance_is_mailed_to_administrators_and_system_witness :
  let (r, w') :=
    put_negotiation_respond Sample.Number_toString Sample.as_admin 1 "accepted"
      None None Sample.oracle Sample.negotiating in
  let accepted := project_with_price_and_status "800" "in_progress" Sample.shop in
  outbox w'
  = outbox Sample.negotiating
    ++ [acceptance_mail "admin@example.py" accepted Sample.ana Sample.proposal None]
    ++ [acceptance_mail default_system_mailbox accepted Sample.ana Sample.proposal None].
Proof.
  apply (acceptance_is_mailed_to_administrators_and_system Sample.Number_toString
           Sample.oracle Sample.negotiating Sample.as_admin 1 None None
           Sample.proposal Sample.shop Sample.ana);
    [vm_compute; reflexivity | vm_compute; reflexivity | vm_compute; reflexivity
    | intros n; reflexivity].
Defined.

(** X15. Accepting a negotiation whose project is gone, or whose project
    has no client in the user table, still marks the negotiation accepted
    and answers 200, and sends no mail. *)
Theorem acceptance_without_project_or_client_mails_nobody :
  forall Number_toString (o : Oracle) (w : World) (user : AuthUser.t)
         (negotiationId : Z) (message : option string)
         (counterPrice : option CounterPrice) (negotiation : BudgetNegotiation.t),
    negotiation_of w negotiationId = Some negotiation ->
    match project_of w (BudgetNegotiation.projectId negotiation) with
    | Some project => user_of w (Project.clientId project) = None
    | None => True
    end ->
    let (r, w') :=
      put_negotiation_respond Number_toString user negotiationId "accepted"
        message counterPrice o w in
    Successful r /\
    negotiation_of w' negotiationId
    = Some (negotiation_with_status "accepted" negotiation) /\
    outbox w' = outbox w.
Proof.
  intros Number_toString o w user negotiationId message counterPrice
         negotiation Hn Hmissing.
  assert (Hfind : find_by_id BudgetNegotiation.id negotiationId
                    (update_by_id BudgetNegotiation.id negotiationId
                       (negotiation_with_status "accepted") (budgetNegotiations (db w)))
                  = Some (negotiation_with_status "accepted" negotiation)).
  { rewrite find_update_same by reflexivity. unfold negotiation_of in Hn.
    now rewrite Hn. }
  unfold put_negotiation_respond. unfold_handler. cbn. rewrite Hn. cbn.
  rewrite find_update_same by reflexivity.
  destruct (find_by_id Project.id (BudgetNegotiation.projectId negotiation)
              (projects (db w))) as [project|]; cbn.
  - rewrite Hmissing. cbn. rewrite Hfind. repeat split.
  - rewrite Hfind. repeat split.
Qed.

(** ** The settlement documents *)

(** X16. A request for a settlement document reads and never writes:
    whoever asks, for whatever stage, the database and the outbox are as
    before; a stage id that is not a number is answered 400, an unknown
    stage 404, and a stage whose project is gone 404. *)
Theorem downloads_change_nothing :
  forall (kind : DocumentKind) (o : Oracle) (w : World) (user : AuthUser.t)
         (stageId : option Z),
    let (r, w') := get_stage_invoice kind user stageId o w in
    db w' = db w /\ outbox w' = outbox w /\
    match stageId with
    | None => r = mkResponse 400 (json_message "ID de etapa inválido")
    | Some stageId =>
        match stage_of w stageId with
        | None => r = mkResponse 404 (json_message "Etapa no encontrada")
        | Some stage =>
            project_of w (PaymentStage.projectId stage) = None ->
            r = mkResponse 404 (json_message "Proyecto no encontrado")
        end
    end.
Proof.
  intros kind o w user [stageId|]; [|cbn; repeat split].
  unfold get_stage_invoice. unfold_handler. cbn.
  destruct (find_by_id PaymentStage.id stageId (paymentStages (db w)))
    as [stage|]; cbn; [|repeat split].
  destruct (find_by_id Project.id (PaymentStage.projectId stage) (projects (db w)))
    as [project|]; cbn; [|repeat split].
  destruct (Project.clientId project =? AuthUser.id user); cbn;
    [|repeat split; discriminate].
  destruct (String.eqb (PaymentStage.status stage) "paid"); cbn;
    repeat split; discriminate.
Qed.

Lemma sorted_nth_le (sorted : list PaymentStage.t) :
  StronglySorted by_progress sorted ->
  forall i j a b, (i < j)%nat ->
    nth_error sorted i = Some a -> nth_error sorted j = Some b ->
    PaymentStage.requiredProgress a <= PaymentStage.requiredProgress b.
Proof.
  induction 1 as [|x rest Hsorted IH Hall]; intros i j a b Hij Ha Hb.
  - destruct i; discriminate.
  - destruct j as [|j]; [lia|]. cbn in Hb. destruct i as [|i]; cbn in Ha.
    + injection Ha as <-. rewrite List.Forall_forall in Hall.
      apply Hall. eapply List.nth_error_In. exact Hb.
    + apply (IH i j); [lia | assumption | assumption].
Qed.

(** The position [findIndex] gives a stage with a unique id is the position
    of the stage itself. *)
Lemma stage_number_position (stages : list PaymentStage.t) (stage : PaymentStage.t) :
  List.NoDup (List.map PaymentStage.id stages) -> In stage stages ->
  1 <= stage_number stages stage <= Z.of_nat (length stages) /\
  nth_error (sort_stages stages) (Z.to_nat (stage_number stages stage - 1))
  = Some stage.
Proof.
  intros Hnodup Hin. unfold stage_number.
  pose proof (sort_stages_perm stages) as Hperm.
  assert (Hin' : In stage (sort_stages stages)).
  { eapply Permutation_in; [apply Permutation_sym; exact Hperm | exact Hin]. }
  destruct (findIndex_found
              (fun s => PaymentStage.id s =? PaymentStage.id stage)
              (sort_stages stages) stage Hin' (Z.eqb_refl _))
    as (Hrange & (found & Hnth & Hid) & _).
  rewrite (Permutation_length Hperm) in Hrange.
  split; [lia|].
  replace (findIndex _ _ + 1 - 1) with
    (findIndex (fun s => PaymentStage.id s =? PaymentStage.id stage)
       (sort_stages stages)) by lia.
  rewrite Hnth. f_equal.
  apply (same_id_same_stage stages); try assumption.
  - eapply Permutation_in; [exact Hperm|]. eapply List.nth_error_In. exact Hnth.
  - now apply Z.eqb_eq in Hid.
Qed.

(** X17. The numbers of the settlement documents follow the required
    progress: among the stages of a project with distinct ids, every stage
    gets a number between 1 and the number of stages, two different stages
    get different numbers, and a stage with a smaller required progress
    gets a smaller number. *)
Theorem stage_numbers_follow_required_progress :
  forall (stages : list PaymentStage.t) (a b : PaymentStage.t),
    List.NoDup (List.map PaymentStage.id stages) ->
    In a stages -> In b stages ->
    1 <= stage_number stages a <= Z.of_nat (length stages) /\
    (a <> b -> stage_number stages a <> stage_number stages b) /\
    (PaymentStage.requiredProgress a < PaymentStage.requiredProgress b ->
     stage_number stages a < stage_number stages b).
Proof.
  intros stages a b Hnodup Ha Hb.
  destruct (stage_number_position stages a Hnodup Ha) as (Hra & Hna).
  destruct (stage_number_position stages b Hnodup Hb) as (Hrb & Hnb).
  split; [exact Hra|]. split.
  - intros Hne Heq. rewrite Heq in Hna. congruence.
  - intros Hlt.
    destruct (Z.lt_trichotomy (stage_number stages a) (stage_number stages b))
      as [Hless | [Heq | Hmore]]; [exact Hless | |].
    + rewrite Heq in Hna. assert (a = b) by congruence. subst. lia.
    + pose proof (sorted_nth_le _ (sort_stages_sorted stages)
                    (Z.to_nat (stage_number stages b - 1))
                    (Z.to_nat (stage_number stages a - 1)) b a
                    ltac:(lia) Hnb Hna).
      lia.
Qed.

Lemma stage_numbers_follow_required_progress_witness :
  stage_number (paymentStages (db Sample.staged)) (Sample.stage 1 Sample.staged)
  < stage_number (paymentStages (db Sample.staged)) (Sample.stage 2 Sample.staged).
Proof.
  apply (stage_numbers_follow_required_progress (paymentStages (db Sample.staged))
           (Sample.stage 1 Sample.staged) (Sample.stage 2 Sample.staged)).
  - vm_compute. repeat constructor; cbn; intuition discriminate.
  - vm_compute. left. reflexivity.
  - vm_compute. right. left. reflexivity.
  - vm_compute. reflexivity.
Defined.

(** ** The receipt of a submission *)

Lemma reference_name_truthy stageId t proofFile proofFileInfo name :
  reference_name stageId t proofFile proofFileInfo = Some name ->
  Js.truthy_string name = true.
Proof.
  unfold reference_name.
  destruct proofFile as [file|]; [|destruct proofFileInfo as [info|]];
    intros H; inversion H; reflexivity.
Qed.

(** What the receipt route answers for somebody who may see the receipt of
    a stage that has a reference. *)
Lemma receipt_run :
  forall (o : Oracle) (w : World) (viewer : AuthUser.t) (stageId : Z)
         stage project proofFileUrl,
    stage_of w stageId = Some stage ->
    project_of w (PaymentStage.projectId stage) = Some project ->
    admin_or_client viewer project = true ->
    PaymentStage.proofFileUrl stage = Some proofFileUrl ->
    Js.truthy_string proofFileUrl = true ->
    exists info,
      get_receipt_file viewer stageId o w = (inr info, w) /\
      receipt_fileUrl info = proofFileUrl /\
      receipt_fileName info
      = match data_field (PaymentStage.paymentData stage) "originalFileName" with
        | Some name => if truthy_json name then name else JString "comprobante.jpg"
        | None => JString "comprobante.jpg"
        end /\
      receipt_fileType info
      = match FileInfo.fileType (stored_fileInfo (PaymentStage.paymentData stage)) with
        | Some fileType => if Js.truthy_string fileType then fileType else "image/jpeg"
        | None => "image/jpeg"
        end /\
      receipt_fileSize info
      = default 0 (FileInfo.fileSize (stored_fileInfo (PaymentStage.paymentData stage))).
Proof.
  intros o w viewer stageId stage project proofFileUrl Hs Hp Hview Hurl Htruthy.
  unfold admin_or_client in Hview.
  unfold get_receipt_file, route_to. unfold_handler.
  cbn. rewrite Hs. cbn. rewrite Hp. cbn.
  destruct (String.eqb (AuthUser.role viewer) "admin");
    destruct (Project.clientId project =? AuthUser.id viewer);
    try discriminate Hview; cbn; rewrite Hurl, Htruthy; cbn.
  all: eexists; (split; [reflexivity|]); cbn; repeat split.
  all: destruct (FileInfo.fileSize _) as [n|]; [|reflexivity].
  all: cbn; destruct (Z.eqb_spec n 0); congruence.
Qed.

(** X18. The receipt shows what was submitted, to the project's client and
    to every administrator: after a submission that carried a file and no
    description, the receipt of the stage gives the reference name that
    the submission recorded, the original name of the file, and the type
    and size of the file (a fixed name and the type [image/jpeg] standing
    in for an empty name or type); the request changes nothing. *)
Theorem receipt_shows_the_submitted_file :
  forall (o o' : Oracle) (w : World) (submitter viewer : AuthUser.t) (stageId : Z)
         (paymentMethod : string) (file : UploadedFile.t)
         (stage : PaymentStage.t) (project : Project.t) (client : User.t),
    stage_of w stageId = Some stage ->
    project_of w (PaymentStage.projectId stage) = Some project ->
    user_of w (Project.clientId project) = Some client ->
    admin_or_client viewer project = true ->
    let w1 := snd (post_confirm_payment submitter stageId paymentMethod field_absent
                     (Some file) o w) in
    exists info,
      get_receipt_file viewer stageId o' w1 = (inr info, w1) /\
      Some (receipt_fileUrl info)
      = reference_name stageId (clock o (clock_reads w)) (Some file) None /\
      receipt_fileName info
      = JString (if Js.truthy_string (UploadedFile.originalname file)
                 then UploadedFile.originalname file else "comprobante.jpg") /\
      receipt_fileType info
      = (if Js.truthy_string (UploadedFile.mimetype file)
         then UploadedFile.mimetype file else "image/jpeg") /\
      receipt_fileSize info = UploadedFile.size file.
Proof.
  intros o o' w submitter viewer stageId paymentMethod file stage project client
         Hs Hp Hc Hview.
  assert (Hf : field_absent <> field_unparsable) by discriminate.
  pose proof (confirm_payment_run o w submitter stageId paymentMethod field_absent
                (Some file) stage project client Hf Hs Hp Hc) as R.
  pose proof (confirm_payment_frame o w submitter stageId paymentMethod field_absent
                (Some file)) as F.
  destruct (post_confirm_payment _ _ _ _ _ _ _) as [r1 w1]. cbn [snd].
  cbv zeta in R. destruct R as (HS & _). destruct F as (_ & HP & _).
  set (update := submission_update _ _ _ _ _ _ _) in HS.
  assert (Hs1 : stage_of w1 stageId = Some (PaymentStageUpdate.apply update stage)).
  { unfold stage_of. rewrite HS. apply find_updated_stage. exact Hs. }
  assert (Hp1 : project_of w1 (PaymentStage.projectId
                                 (PaymentStageUpdate.apply update stage))
                = Some project).
  { unfold project_of. rewrite HP. exact Hp. }
  destruct (receipt_run o' w1 viewer stageId _ project _ Hs1 Hp1 Hview eq_refl eq_refl)
    as (info & E & Hurl & Hname & Htype & Hsize).
  exists info. split; [exact E|].
  rewrite Hurl, Hname, Htype, Hsize. clear.
  cbn [PaymentStageUpdate.apply PaymentStage.paymentData update submission_update
       PaymentStageUpdate.paymentData data_field stored_fileInfo info_of].
  unfold confirmation_data, fileInfo_of. simplify_map_eq. cbn.
  repeat split.
  now destruct (Js.truthy_string (UploadedFile.originalname file)).
Qed.

Lemma receipt_shows_the_submitted_file_witness :
  exists info,
    get_receipt_file Sample.as_admin 1 Sample.oracle Sample.submitted
    = (inr info, Sample.submitted) /\
    receipt_fileName info = JString "recibo.png" /\
    receipt_fileType info = "image/png" /\
    receipt_fileSize info = 2048.
Proof.
  destruct (receipt_shows_the_submitted_file Sample.oracle Sample.oracle
              Sample.staged Sample.as_client Sample.as_admin 1 "Ueno Bank"
              Sample.receipt (Sample.stage 1 Sample.staged) Sample.shop Sample.ana)
    as (info & E & _ & Hname & Htype & Hsize);
    [vm_compute; reflexivity | vm_compute; reflexivity | vm_compute; reflexivity
    | reflexivity |].
  exists info. split; [exact E|]. split; [exact Hname|]. split; [exact Htype|].
  exact Hsize.
Defined.

(** X19. A submission that describes a file without carrying one is shown
    under the fixed name [comprobante.jpg]: the name given in the
    description is not used; the type and the size are the described ones
    (or [image/jpeg] and 0), and the reference ends in the extension taken
    from the described type. *)
Theorem described_receipt_has_the_fixed_name :
  forall (o o' : Oracle) (w : World) (submitter viewer : AuthUser.t) (stageId : Z)
         (paymentMethod : string) (described : FileInfo.t)
         (stage : PaymentStage.t) (project : Project.t) (client : User.t),
    stage_of w stageId = Some stage ->
    project_of w (PaymentStage.projectId stage) = Some project ->
    user_of w (Project.clientId project) = Some client ->
    admin_or_client viewer project = true ->
    let w1 := snd (post_confirm_payment submitter stageId paymentMethod
                     (field_parsed described) None o w) in
    exists info,
      get_receipt_file viewer stageId o' w1 = (inr info, w1) /\
      receipt_fileName info = JString "comprobante.jpg" /\
      receipt_fileUrl info
      = "comprobante_" +:+ Js.string_of_Z stageId +:+ "_"
        +:+ Js.string_of_Z (clock o (clock_reads w)) +:+ "."
        +:+ extension_of described /\
      receipt_fileType info
      = match FileInfo.fileType described with
        | Some fileType => if Js.truthy_string fileType then fileType else "image/jpeg"
        | None => "image/jpeg"
        end /\
      receipt_fileSize info = default 0 (FileInfo.fileSize described).
Proof.
  intros o o' w submitter viewer stageId paymentMethod described stage project client
         Hs Hp Hc Hview.
  assert (Hf : field_parsed described <> field_unparsable) by discriminate.
  pose proof (confirm_payment_run o w submitter stageId paymentMethod
                (field_parsed described) None stage project client Hf Hs Hp Hc) as R.
  pose proof (confirm_payment_frame o w submitter stageId paymentMethod
                (field_parsed described) None) as F.
  destruct (post_confirm_payment _ _ _ _ _ _ _) as [r1 w1]. cbn [snd].
  cbv zeta in R. destruct R as (HS & _). destruct F as (_ & HP & _).
  set (update := submission_update _ _ _ _ _ _ _) in HS.
  assert (Hs1 : stage_of w1 stageId = Some (PaymentStageUpdate.apply update stage)).
  { unfold stage_of. rewrite HS. apply find_updated_stage. exact Hs. }
  assert (Hp1 : project_of w1 (PaymentStage.projectId
                                 (PaymentStageUpdate.apply update stage))
                = Some project).
  { unfold project_of. rewrite HP. exact Hp. }
  destruct (receipt_run o' w1 viewer stageId _ project _ Hs1 Hp1 Hview eq_refl eq_refl)
    as (info & E & Hurl & Hname & Htype & Hsize).
  exists info. split; [exact E|].
  rewrite Hurl, Hname, Htype, Hsize. clear.
  cbn [PaymentStageUpdate.apply PaymentStage.paymentData update submission_update
       PaymentStageUpdate.paymentData data_field stored_fileInfo info_of].
  unfold confirmation_data, fileInfo_of. simplify_map_eq. cbn.
  repeat split.
Qed.

Lemma described_receipt_has_the_fixed_name_witness :
  exists info,
    get_receipt_file Sample.as_client 1 Sample.oracle
      (snd (post_confirm_payment Sample.as_client 1 "Ueno Bank"
              (field_parsed (FileInfo.mk (Some "transferencia.pdf") (Some 512)
                               (Some "application/pdf")))
              None Sample.oracle Sample.staged))
    = (inr info,
       snd (post_confirm_payment Sample.as_client 1 "Ueno Bank"
              (field_parsed (FileInfo.mk (Some "transferencia.pdf") (Some 512)
                               (Some "application/pdf")))
              None Sample.oracle Sample.staged)) /\
    receipt_fileName info = JString "comprobante.jpg".
Proof.
  destruct (described_receipt_has_the_fixed_name Sample.oracle Sample.oracle
              Sample.staged Sample.as_client Sample.as_client 1 "Ueno Bank"
              (FileInfo.mk (Some "transferencia.pdf") (Some 512)
                 (Some "application/pdf"))
              (Sample.stage 1 Sample.staged) Sample.shop Sample.ana)
    as (info & E & Hname & _);
    [vm_compute; reflexivity | vm_compute; reflexivity | vm_compute; reflexivity
    | reflexivity |].
  exists info. split; [exact E | exact Hname].
Defined.

(** X20. Without a reference there is no receipt: after a submission that
    carried neither a file nor a description, and after a rejection, the
    receipt of the stage is refused with 404 to those who may see it. *)
Theorem no_receipt_without_a_reference :
  forall (o o' : Oracle) (w : World) (submitter admin viewer : AuthUser.t)
         (stageId : Z) (paymentMethod reason : string)
         (stage : PaymentStage.t) (project : Project.t) (client : User.t),
    stage_of w stageId = Some stage ->
    project_of w (PaymentStage.projectId stage) = Some project ->
    user_of w (Project.clientId project) = Some client ->
    admin_or_client viewer project = true ->
    (let w1 := snd (post_confirm_payment submitter stageId paymentMethod field_absent
                      None o w) in
     get_receipt_file viewer stageId o' w1
     = (inl (mkResponse 404 (json_message "No hay comprobante disponible")), w1)) /\
    (AuthUser.role admin = "admin" ->
     PaymentStage.status stage = "pending_verification" ->
     let w1 := snd (post_reject_payment admin stageId reason o w) in
     get_receipt_file viewer stageId o' w1
     = (inl (mkResponse 404 (json_message "No hay comprobante disponible")), w1)).
Proof.
  intros o o' w submitter admin viewer stageId paymentMethod reason
         stage project client Hs Hp Hc Hview.
  assert (Hrefused : forall w1 stage1,
             stage_of w1 stageId = Some stage1 ->
             project_of w1 (PaymentStage.projectId stage1) = Some project ->
             PaymentStage.proofFileUrl stage1 = None ->
             get_receipt_file viewer stageId o' w1
             = (inl (mkResponse 404 (json_message "No hay comprobante disponible")),
                w1)).
  { intros w1 stage1 Hs1 Hp1 Hnone. unfold admin_or_client in Hview.
    unfold get_receipt_file, route_to. unfold_handler.
    cbn. rewrite Hs1. cbn. rewrite Hp1. cbn.
    destruct (String.eqb (AuthUser.role viewer) "admin");
      destruct (Project.clientId project =? AuthUser.id viewer);
      try discriminate Hview; cbn; rewrite Hnone; reflexivity. }
  split.
  - assert (Hf : field_absent <> field_unparsable) by discriminate.
    pose proof (confirm_payment_run o w submitter stageId paymentMethod field_absent
                  None stage project client Hf Hs Hp Hc) as R.
    pose proof (confirm_payment_frame o w submitter stageId paymentMethod field_absent
                  None) as F.
    destruct (post_confirm_payment _ _ _ _ _ _ _) as [r1 w1]. cbn [snd].
    cbv zeta in R. destruct R as (HS & _). destruct F as (_ & HP & _).
    set (update := submission_update _ _ _ _ _ _ _) in HS.
    apply (Hrefused w1 (PaymentStageUpdate.apply update stage)).
    + unfold stage_of. rewrite HS. apply find_updated_stage. exact Hs.
    + unfold project_of. rewrite HP. exact Hp.
    + reflexivity.
  - intros Hrole Hst.
    pose proof (reject_payment_run o w admin stageId reason stage project
                  Hrole Hs Hst Hp) as R.
    pose proof (reject_payment_frame o w admin stageId reason) as F.
    destruct (post_reject_payment _ _ _ _ _) as [r1 w1]. cbn [snd].
    cbv zeta in R. destruct R as (HS & _). destruct F as (_ & HP & _).
    set (update := rejection_update _ _ _ _) in HS.
    apply (Hrefused w1 (PaymentStageUpdate.apply update stage)).
    + unfold stage_of. rewrite HS. apply find_updated_stage. exact Hs.
    + unfold project_of. rewrite HP. exact Hp.
    + reflexivity.
Qed.

Lemma no_receipt_without_a_reference_witness :
  get_receipt_file Sample.as_client 1 Sample.oracle
    (snd (post_reject_payment Sample.as_admin 1 "ilegible" Sample.oracle
            Sample.submitted))
  = (inl (mkResponse 404 (json_message "No hay comprobante disponible")),
     snd (post_reject_payment Sample.as_admin 1 "ilegible" Sample.oracle
            Sample.submitted)).
Proof.
  destruct (no_receipt_without_a_reference Sample.oracle Sample.oracle
              Sample.submitted Sample.as_client Sample.as_admin Sample.as_client
              1 "Ueno Bank" "ilegible"
              (Sample.stage 1 Sample.submitted) Sample.shop Sample.ana)
    as (_ & H);
    [vm_compute; reflexivity | vm_compute; reflexivity | vm_compute; reflexivity
    | reflexivity |].
  apply H; [reflexivity | vm_compute; reflexivity].
Defined.

(** X21. The receipt route reads and never writes, and it is closed to
    everybody but the administrators and the client of the stage's
    project: whatever the request, the world is left as it was; for a
    stage and a project that exist, a caller who is neither is answered
    403, also when there is no receipt, and an administrator or the client
    is never answered 403. *)
Theorem receipt_only_for_admin_or_owner :
  forall (o : Oracle) (w : World) (viewer : AuthUser.t) (stageId : Z),
    snd (get_receipt_file viewer stageId o w) = w /\
    forall stage project,
      stage_of w stageId = Some stage ->
      project_of w (PaymentStage.projectId stage) = Some project ->
      if admin_or_client viewer project
      then forall r, fst (get_receipt_file viewer stageId o w) = inl r ->
                     ~ Forbidden r
      else fst (get_receipt_file viewer stageId o w)
           = inl (mkResponse 403
                    (json_message "No tienes permisos para ver este archivo")).
Proof.
  intros o w viewer stageId.
  unfold get_receipt_file, route_to, admin_or_client. unfold_handler. cbn.
  destruct (find_by_id PaymentStage.id stageId (paymentStages (db w)))
    as [stage|]; cbn; [|split; [reflexivity | discriminate]].
  destruct (find_by_id Project.id (PaymentStage.projectId stage) (projects (db w)))
    as [project|] eqn:Hp; cbn.
  2: { split; [reflexivity|]. intros stage' project' Hs' Hp'.
       injection Hs' as <-. congruence. }
  destruct (String.eqb (AuthUser.role viewer) "admin") eqn:Hadmin;
    destruct (Project.clientId project =? AuthUser.id viewer) eqn:Howner; cbn.
  4: { split; [reflexivity|]. intros stage' project' Hs' Hp'.
       injection Hs' as <-. rewrite Hp in Hp'. injection Hp' as <-.
       rewrite Howner. reflexivity. }
  all: destruct (PaymentStage.proofFileUrl stage) as [url|]; cbn;
    [destruct (Js.truthy_string url); cbn|].
  all: split; [reflexivity|].
  all: intros stage' project' Hs' Hp'; injection Hs' as <-.
  all: rewrite Hp in Hp'; injection Hp' as <-; rewrite ?Howner; cbn.
  all: intros r Hr; inversion Hr; subst; unfold Forbidden; cbn; lia.
Qed.

Lemma receipt_only_for_admin_or_owner_witness :
  fst (get_receipt_file (AuthUser.mk 2 "partner" "Socio") 1 Sample.oracle
         Sample.submitted)
  = inl (mkResponse 403 (json_message "No tienes permisos para ver este archivo")).
Proof.
  exact (proj2 (receipt_only_for_admin_or_owner Sample.oracle Sample.submitted
                  (AuthUser.mk 2 "partner" "Socio") 1)
               (Sample.stage 1 Sample.submitted) Sample.shop
               ltac:(vm_compute; reflexivity) ltac:(vm_compute; reflexivity)).
Defined.

(** ** The corners, run *)

Lemma no_stage_mail_without_an_address_witness :
  Successful (fst (post_payment_stages 7 Sample.two_halves Sample.oracle Corner.silent)) /\
  outbox (snd (post_payment_stages 7 Sample.two_halves Sample.oracle Corner.silent))
  = outbox Corner.silent.
Proof.
  apply (no_stage_mail_without_an_address Sample.oracle Corner.silent 7
           Sample.two_halves Sample.shop); [reflexivity | reflexivity].
Defined.

Lemma rejection_does_not_need_the_client_witness :
  let (r, w') := post_approve_payment Sample.as_admin 1 Sample.oracle Corner.clientless in
  r = mkResponse 404 (json_message "Cliente no encontrado") /\
  db w' = db Corner.clientless /\ outbox w' = outbox Corner.clientless.
Proof.
  destruct (rejection_does_not_need_the_client Sample.oracle Corner.clientless
              Sample.as_admin 1 "ilegible"
              (Sample.stage 1 Sample.submitted) Sample.shop)
    as (H & _);
    [reflexivity | vm_compute; reflexivity | vm_compute; reflexivity
    | vm_compute; reflexivity | vm_compute; reflexivity |].
  exact H.
Defined.

Lemma acceptance_without_project_or_client_mails_nobody_witness :
  let (r, w') :=
    put_negotiation_respond Sample.Number_toString Sample.as_admin 2 "accepted"
      None None Sample.oracle Corner.orphaned in
  Successful r /\
  negotiation_of w' 2 = Some (negotiation_with_status "accepted" Corner.stray) /\
  outbox w' = outbox Corner.orphaned.
Proof.
  apply (acceptance_without_project_or_client_mails_nobody Sample.Number_toString
           Sample.oracle Corner.orphaned Sample.as_admin 2 None None Corner.stray);
    [vm_compute; reflexivity | vm_compute; exact I].
Defined.

Lemma downloads_change_nothing_witness :
  fst (get_stage_invoice Factura Sample.as_client (Some 5) Sample.oracle Sample.staged)
  = mkResponse 404 (json_message "Etapa no encontrada").
Proof.
  pose proof (downloads_change_nothing Factura Sample.oracle Sample.staged
                Sample.as_client (Some 5)) as H.
  destruct (get_stage_invoice Factura Sample.as_client (Some 5) Sample.oracle
              Sample.staged) as [r w'].
  destruct H as (_ & _ & H).
  assert (E : stage_of Sample.staged 5 = None) by (vm_compute; reflexivity).
  rewrite E in H. exact H.
Defined.

(** ** Proposing a price *)

Lemma notify_loop_keeps_negotiations
  (notify : Z -> string -> string -> string -> bool -> Procedure)
  (name price message : string) (admins : list User.t) :
  keeps_negotiations notify ->
  forall o w,
    let (result, w') :=
      for_each admins (fun admin =>
        call (notify (User.id admin) name price message false)) o w in
    budgetNegotiations (db w') = budgetNegotiations (db w) /\
    (result = Value tt \/ exists e, result = Thrown e).
Proof.
  intros Hkeeps. induction admins as [|admin rest IH]; intros o w.
  - cbn. split; [reflexivity | left; reflexivity].
  - cbn [for_each]. unfold mbind, Handler_bind, call at 1.
    pose proof (Hkeeps (User.id admin) name price message false o w) as H1.
    destruct (notify (User.id admin) name price message false o w) as [[e|] w1];
      cbn [snd] in H1.
    + split; [exact H1 | right; eexists; reflexivity].
    + specialize (IH o w1).
      destruct (for_each rest _ o w1) as [result w2].
      destruct IH as (H2 & R). split; [congruence | exact R].
Qed.

(** What a proposal with a price for an existing project does. *)
Lemma propose_run :
  forall Number_toString notify (o : Oracle) (w : World) (user : AuthUser.t)
         (projectId : Z) (price : CounterPrice) (message : option string)
         (project : Project.t),
    project_of w projectId = Some project ->
    keeps_negotiations notify ->
    let created :=
      proposed_row Number_toString w user project projectId price message in
    let (r, w') :=
      post_budget_negotiation Number_toString notify user projectId (Some price)
        message o w in
    budgetNegotiations (db w') = budgetNegotiations (db w) ++ [created] /\
    (r = mkResponse 201 (json_negotiation (Some created)) \/
     r = mkResponse 500 (json_message "Error interno del servidor")).
Proof.
  intros Number_toString notify o w user projectId price message project
         Hp Hkeeps.
  unfold post_budget_negotiation. unfold_handler. cbn. rewrite Hp. cbn.
  destruct (String.eqb (AuthUser.role user) "client"); cbn.
  - match goal with
    | |- context [for_each ?l ?f o ?w1] =>
        pose proof (notify_loop_keeps_negotiations notify
                      (Project.name project)
                      (price_toString Number_toString price)
                      (default "" message) l Hkeeps o w1) as L;
        destruct (for_each l f o w1) as [result w2]
    end.
    destruct L as (HB & [-> | [e ->]]); cbn; (split; [exact HB|]); auto.
  - destruct (String.eqb (AuthUser.role user) "admin"); cbn.
    + unfold call.
      match goal with
      | |- context [notify ?a ?b ?c ?d ?e o ?w1] =>
          pose proof (Hkeeps a b c d e o w1) as HB;
          destruct (notify a b c d e o w1) as [[error|] w2]
      end.
      all: cbn in HB |- *; (split; [exact HB|]); auto.
    + split; [reflexivity | left; reflexivity].
Qed.

(** X22. A proposal needs a project and a price: for a project that does
    not exist the reply is 404 and nothing changes; for a request without
    a price the reply is an internal error, no negotiation is stored and
    nobody is notified, whatever the notifier would do. *)
Theorem proposal_needs_project_and_price :
  forall Number_toString notify (o : Oracle) (w : World) (user : AuthUser.t)
         (projectId : Z) (proposedPrice : option CounterPrice)
         (message : option string),
    match project_of w projectId with
    | Some _ => proposedPrice = None
    | None => True
    end ->
    let (r, w') :=
      post_budget_negotiation Number_toString notify user projectId proposedPrice
        message o w in
    db w' = db w /\ outbox w' = outbox w /\
    notification_writes w' = notification_writes w /\
    mail_calls w' = mail_calls w /\
    match project_of w projectId with
    | Some _ => r = mkResponse 500 (json_message "Error interno del servidor")
    | None => r = mkResponse 404 (json_message "Proyecto no encontrado") /\ w' = w
    end.
Proof.
  intros Number_toString notify o w user projectId proposedPrice message Hmissing.
  unfold post_budget_negotiation. unfold_handler. cbn.
  destruct (find_by_id Project.id projectId (projects (db w))) as [project|]; cbn.
  - subst proposedPrice. cbn. repeat split.
  - repeat split.
Qed.

Lemma proposal_needs_project_and_price_witness :
  let (r, w') :=
    post_budget_negotiation Sample.Number_toString Corner.notify Sample.as_client 7
      None (Some "¿Se puede ajustar?") Sample.oracle Sample.staged in
  db w' = db Sample.staged /\ outbox w' = outbox Sample.staged /\
  notification_writes w' = notification_writes Sample.staged /\
  mail_calls w' = mail_calls Sample.staged /\
  r = mkResponse 500 (json_message "Error interno del servidor").
Proof.
  pose proof (proposal_needs_project_and_price Sample.Number_toString Corner.notify
                Sample.oracle Sample.staged Sample.as_client 7 None
                (Some "¿Se puede ajustar?")) as T.
  assert (E : project_of Sample.staged 7 = Some Sample.shop)
    by (vm_compute; reflexivity).
  rewrite E in T. specialize (T eq_refl).
  destruct (post_budget_negotiation Sample.Number_toString Corner.notify
              Sample.as_client 7 None (Some "¿Se puede ajustar?") Sample.oracle
              Sample.staged) as [r w'].
  exact T.
Defined.

Lemma notify_keeps_negotiations : keeps_negotiations Corner.notify.
Proof.
  intros userId projectName price message isCounterOffer o w.
  unfold Corner.notify, try_catch. rewrite createNotification_run.
  destruct (createNotification_fails o (notification_writes w)); reflexivity.
Qed.



(** X24. Only clients and administrators cause a notification: a proposal
    by a caller of any other role is stored and answered 201 without the
    notifier being called; the world changes by the new row and nothing
    else, whatever the notifier is. *)
Theorem other_roles_notify_nobody :
  forall Number_toString notify (o : Oracle) (w : World) (user : AuthUser.t)
         (projectId : Z) (price : CounterPrice) (message : option string)
         (project : Project.t),
    project_of w projectId = Some project ->
    AuthUser.role user <> "client" ->
    AuthUser.role user <> "admin" ->
    let created :=
      proposed_row Number_toString w user project projectId price message in
    post_budget_negotiation Number_toString notify user projectId (Some price)
      message o w
    = (mkResponse 201 (json_negotiation (Some created)),
       set_db {| users := users (db w); projects := projects (db w);
                 paymentStages := paymentStages (db w);
                 budgetNegotiations := budgetNegotiations (db w) ++ [created];
                 notifications := notifications (db w);
                 projectTimeline := projectTimeline (db w) |} w).
Proof.
  intros Number_toString notify o w user projectId price message project
         Hp Hclient Hadmin.
  apply String.eqb_neq in Hclient. apply String.eqb_neq in Hadmin.
  unfold post_budget_negotiation. unfold_handler. cbn. rewrite Hp. cbn.
  rewrite Hclient, Hadmin. reflexivity.
Qed.

Lemma other_roles_notify_nobody_witness :
  fst (post_budget_negotiation Sample.Number_toString Corner.notify
         Corner.as_partner 7 (Some (counter_text "900")) None Sample.oracle
         Sample.staged)
  = mkResponse 201
      (json_negotiation
         (Some (proposed_row Sample.Number_toString Sample.staged Corner.as_partner
                  Sample.shop 7 (counter_text "900") None))).
Proof.
  rewrite (other_roles_notify_nobody Sample.Number_toString Corner.notify
             Sample.oracle Sample.staged Corner.as_partner 7 (counter_text "900")
             None Sample.shop);
    [reflexivity | vm_compute; reflexivity | discriminate | discriminate].
Defined.

(** X25. The chain of proposals follows the project's price: once a
    negotiation has been accepted, the next proposal for its project
    starts from the accepted price, that is, its original price is the
    proposed price of the accepted negotiation. *)
Theorem next_proposal_starts_from_the_accepted_price :
  forall Number_toString notify (o o' : Oracle) (w : World)
         (replier proposer : AuthUser.t) (negotiationId : Z)
         (reply message : option string) (counterPrice : option CounterPrice)
         (price : CounterPrice)
         (negotiation : BudgetNegotiation.t) (project : Project.t),
    negotiation_of w negotiationId = Some negotiation ->
    project_of w (BudgetNegotiation.projectId negotiation) = Some project ->
    keeps_negotiations notify ->
    let w1 :=
      snd (put_negotiation_respond Number_toString replier negotiationId "accepted"
             reply counterPrice o w) in
    let w2 :=
      snd (post_budget_negotiation Number_toString notify proposer
             (BudgetNegotiation.projectId negotiation) (Some price) message o' w1) in
    exists created,
      budgetNegotiations (db w2) = budgetNegotiations (db w1) ++ [created] /\
      BudgetNegotiation.originalPrice created
      = BudgetNegotiation.proposedPrice negotiation /\
      BudgetNegotiation.status created = "pending".
Proof.
  intros Number_toString notify o o' w replier proposer negotiationId reply message
         counterPrice price negotiation project Hn Hp Hkeeps.
  pose proof (accept_negotiation_run Number_toString o w replier negotiationId reply
                counterPrice negotiation Hn) as A.
  destruct (put_negotiation_respond _ _ _ _ _ _ _ _) as [r1 w1]. cbn [snd].
  destruct A as (_ & HP & _).
  assert (Hp1 : project_of w1 (BudgetNegotiation.projectId negotiation)
                = Some (project_with_price_and_status
                          (BudgetNegotiation.proposedPrice negotiation)
                          "in_progress" project)).
  { unfold project_of. rewrite HP, find_update_same by reflexivity.
    unfold project_of in Hp. now rewrite Hp. }
  pose proof (propose_run Number_toString notify o' w1 proposer
                (BudgetNegotiation.projectId negotiation) price message _
                Hp1 Hkeeps) as R.
  destruct (post_budget_negotiation _ _ _ _ _ _ _ _) as [r2 w2]. cbn [snd].
  cbv zeta in R. destruct R as (HB & _).
  eexists. split; [exact HB|]. split; reflexivity.
Qed.

Lemma next_proposal_starts_from_the_accepted_price_witness :
  exists created,
    budgetNegotiations
      (db (snd (post_budget_negotiation Sample.Number_toString Corner.notify
                  Sample.as_client 7 (Some (counter_text "750")) None Sample.oracle
                  (snd (put_negotiation_respond Sample.Number_toString
                          Sample.as_admin 1 "accepted" None None Sample.oracle
                          Sample.negotiating)))))
    = budgetNegotiations
        (db (snd (put_negotiation_respond Sample.Number_toString
                    Sample.as_admin 1 "accepted" None None Sample.oracle
                    Sample.negotiating)))
      ++ [created] /\
    BudgetNegotiation.originalPrice created = "800" /\
    BudgetNegotiation.status created = "pending".
Proof.
  apply (next_proposal_starts_from_the_accepted_price Sample.Number_toString
           Corner.notify Sample.oracle Sample.oracle Sample.negotiating
           Sample.as_admin Sample.as_client 1 None None None (counter_text "750")
           Sample.proposal Sample.shop);
    [vm_compute; reflexivity | vm_compute; reflexivity
    | exact notify_keeps_negotiations].
Defined.

(** ** Deleting users and projects *)

(** X26. An account is deleted only by the store, and only for an
    administrator who names another account: the reply to the deletion of
    a user is a success exactly when the caller is an administrator, the
    id is a number other than the caller's own, and the store's
    [deleteUser] returns without an error. *)
Theorem user_deletion_succeeds_only_through_the_store :
  forall (deleteUser : Z -> Procedure) (o : Oracle) (w : World)
         (user : AuthUser.t) (userId : option Z),
    Successful (fst (delete_admin_user deleteUser user userId o w)) <->
    AuthUser.role user = "admin" /\
    exists target,
      userId = Some target /\ target <> AuthUser.id user /\
      fst (deleteUser target o w) = None.
Proof.
  intros deleteUser o w user userId.
  unfold delete_admin_user. unfold_handler. unfold call. cbn.
  destruct (String.eqb_spec (AuthUser.role user) "admin") as [Hrole|Hrole]; cbn.
  2: { split; [discriminate | intros [H _]; contradiction]. }
  destruct userId as [target|]; cbn.
  2: { split; [discriminate | intros (_ & t & H & _); discriminate]. }
  destruct (Z.eqb_spec (AuthUser.id user) target) as [Hself|Hother]; cbn.
  { split; [discriminate|]. intros (_ & t & H & Hne & _).
    injection H as <-. congruence. }
  destruct (deleteUser target o w) as [[error|] w1] eqn:E; cbn.
  - split.
    + destruct (String.eqb error "Usuario no encontrado"); cbn; [discriminate|].
      destruct (String.eqb error
                  "No se puede eliminar el último administrador del sistema");
        cbn; [discriminate|].
      destruct (String.eqb error "No puedes eliminar tu propia cuenta"); cbn;
        discriminate.
    + intros (_ & t & H & _ & Hok). injection H as <-.
      rewrite E in Hok. discriminate.
  - split; [|reflexivity]. intros _. split; [exact Hrole|].
    exists target. rewrite E. repeat split. congruence.
Qed.

(** X27. Nobody deletes the own account, and a request that is refused
    before the store is asked changes nothing: for a caller who is not an
    administrator (403), for an id that is not a number (400) and for the
    caller's own id (400) the world stays as it was, whatever [deleteUser]
    would do. *)
Theorem refused_user_deletion_changes_nothing :
  forall (deleteUser : Z -> Procedure) (o : Oracle) (w : World)
         (user : AuthUser.t) (userId : option Z),
    AuthUser.role user <> "admin" \/ userId = None \/
    userId = Some (AuthUser.id user) ->
    let (r, w') := delete_admin_user deleteUser user userId o w in
    w' = w /\
    code r = (if String.eqb (AuthUser.role user) "admin" then 400 else 403).
Proof.
  intros deleteUser o w user userId Hrefused.
  unfold delete_admin_user. unfold_handler. unfold call. cbn.
  destruct (String.eqb_spec (AuthUser.role user) "admin") as [Hrole|Hrole]; cbn;
    [|split; reflexivity].
  destruct Hrefused as [H | [-> | ->]]; [contradiction | split; reflexivity |].
  cbn. rewrite Z.eqb_refl. split; reflexivity.
Qed.

Lemma refused_user_deletion_changes_nothing_witness :
  let (r, w') :=
    delete_admin_user Corner.deleteUser Sample.as_admin (Some 9) Sample.oracle
      Sample.start in
  w' = Sample.start /\ code r = 400.
Proof.
  apply (refused_user_deletion_changes_nothing Corner.deleteUser Sample.oracle
           Sample.start Sample.as_admin (Some 9)).
  right. right. reflexivity.
Defined.

(** X28. The errors of the store are told apart by their message: when
    [deleteUser] throws, the reply carries the message itself with 404 for
    an unknown user and with 400 for the last administrator or the own
    account; any other error is an internal error, whose message is shown
    only in development; the store's changes up to the error stay and the
    error is on the console. *)
Theorem store_errors_are_told_apart :
  forall (deleteUser : Z -> Procedure) (o : Oracle) (w w1 : World)
         (user : AuthUser.t) (target : Z) (error : string),
    AuthUser.role user = "admin" ->
    target <> AuthUser.id user ->
    deleteUser target o w = (Some error, w1) ->
    let (r, w') := delete_admin_user deleteUser user (Some target) o w in
    code r = refusal_code error /\
    body r = (if refusal_code error =? 500
              then json_error "Error interno del servidor"
                     (if String.eqb (NODE_ENV o) "development"
                      then Some error else None)
              else json_message error) /\
    db w' = db w1 /\
    console w' = console w1 ++ [console_error ("Error deleting user: " +:+ error)].
Proof.
  intros deleteUser o w w1 user target error Hrole Hother Hthrown.
  apply String.eqb_eq in Hrole. apply not_eq_sym, Z.eqb_neq in Hother.
  unfold delete_admin_user, refusal_code. unfold_handler. unfold call. cbn.
  rewrite Hrole. cbn. rewrite Hother. cbn. rewrite Hthrown. cbn.
  destruct (String.eqb error "Usuario no encontrado"); cbn; [repeat split|].
  destruct (String.eqb error
              "No se puede eliminar el último administrador del sistema");
    cbn; [repeat split|].
  destruct (String.eqb error "No puedes eliminar tu propia cuenta"); cbn;
    repeat split.
Qed.

Lemma store_errors_are_told_apart_witness :
  let (r, w') :=
    delete_admin_user Corner.deleteUser Sample.as_admin (Some 4) Sample.oracle
      Sample.start in
  code r = 404 /\ body r = json_message "Usuario no encontrado" /\
  db w' = db Sample.start /\
  console w'
  = console Sample.start
    ++ [console_error ("Error deleting user: " +:+ "Usuario no encontrado")].
Proof.
  apply (store_errors_are_told_apart Corner.deleteUser Sample.oracle Sample.start
           Sample.start Sample.as_admin 4 "Usuario no encontrado");
    [reflexivity | discriminate | reflexivity].
Defined.

(** X29. A project is deleted only by an administrator or by its client:
    the reply to the deletion of a project is a success exactly when the
    id is a number, the project exists, the caller is an administrator or
    the project's client, and the store's [deleteProject] returns without
    an error; a caller who is neither is answered 403 and the world stays
    as it was, whatever [deleteProject] would do. *)
Theorem project_deletion_needs_admin_or_client :
  forall (deleteProject : Z -> Procedure) (o : Oracle) (w : World)
         (user : AuthUser.t) (projectId : option Z),
    (Successful (fst (delete_project deleteProject user projectId o w)) <->
     exists target project,
       projectId = Some target /\ project_of w target = Some project /\
       admin_or_client user project = true /\
       fst (deleteProject target o w) = None) /\
    (forall target project,
        projectId = Some target -> project_of w target = Some project ->
        admin_or_client user project = false ->
        delete_project deleteProject user projectId o w
        = (mkResponse 403
             (json_message "No tienes permisos para eliminar este proyecto"), w)).
Proof.
  intros deleteProject o w user projectId.
  unfold delete_project, admin_or_client. unfold_handler. unfold call. cbn.
  destruct projectId as [target|]; cbn.
  2: { split; [|discriminate].
       split; [discriminate | intros (t & p & H & _); discriminate]. }
  destruct (find_by_id Project.id target (projects (db w))) as [project|] eqn:Hp; cbn.
  2: { split; [|intros t p H Hp'; injection H as <-; congruence].
       split; [discriminate|]. intros (t & p & H & Hp' & _).
       injection H as <-. congruence. }
  destruct (String.eqb (AuthUser.role user) "admin") eqn:Hadmin;
    destruct (Project.clientId project =? AuthUser.id user) eqn:Howner; cbn.
  4: { split.
       - split; [discriminate|]. intros (t & p & H & Hp' & Hmay & _).
         injection H as <-. rewrite Hp in Hp'. injection Hp' as <-.
         rewrite Howner in Hmay. discriminate.
       - intros t p H Hp' _. reflexivity. }
  all: destruct (deleteProject target o w) as [[error|] w1] eqn:E; cbn.
  all: split;
    [| intros t p H Hp' Hmay; injection H as <-; rewrite Hp in Hp';
       injection Hp' as <-; rewrite ?Howner in Hmay; discriminate].
  all: split;
    [ try discriminate
    | try reflexivity;
      intros (t & p & H & _ & _ & Hok); injection H as <-;
      rewrite E in Hok; discriminate ].
  all: intros _; exists target, project; rewrite E, ?Howner; repeat split.
  all: exact Hp.
Qed.

Lemma project_deletion_needs_admin_or_client_witness :
  delete_project Corner.deleteProject Corner.as_partner (Some 7) Sample.oracle
    Sample.staged
  = (mkResponse 403 (json_message "No tienes permisos para eliminar este proyecto"),
     Sample.staged).
Proof.
  apply (proj2 (project_deletion_needs_admin_or_client Corner.deleteProject
                  Sample.oracle Sample.staged Corner.as_partner (Some 7))
               7 Sample.shop);
    [reflexivity | vm_compute; reflexivity | reflexivity].
Defined.

Lemma user_deletion_succeeds_only_through_the_store_witness :
  Successful (fst (delete_admin_user Corner.deleteUser Sample.as_admin (Some 1)
                     Sample.oracle Sample.start)).
Proof.
  apply (user_deletion_succeeds_only_through_the_store Corner.deleteUser
           Sample.oracle Sample.start Sample.as_admin (Some 1)).
  split; [reflexivity|]. exists 1. split; [reflexivity|].
  split; [discriminate | reflexivity].
Defined.
